(** * LoadMoveGH settlement engine: wallets, ledger, escrow holds, disputes
      and the mobile-money callback.

    Shallow embedding of
      - api/app/models/wallet.py            (tables and enums)
      - api/app/schemas/wallet.py           (request bodies and their validators)
      - api/app/api/v1/endpoints/escrow.py  (hold, release, refund, disputes)
      - api/app/api/v1/endpoints/wallets.py (deposit, withdraw, momo callback)

    Conventions of the embedding.
    - Money.  Every amount column is [Numeric(14, 2)]; an amount is modelled
      as an integer number of pesewas (minor units) in [Z], and the float
      arithmetic of the endpoints is read as exact decimal arithmetic.
      [round(x, 2)] is Python's round-half-to-even on that decimal value.
      Request amounts are taken to be whole pesewas.
    - Tables.  A table is the list of its rows; the primary key of a row is
      its position, and a fresh row is appended.  [select] is the filtered
      query, [scalar_one_or_none] and [scalar_one] are SQLAlchemy's.
    - The session.  An endpoint is a function from the database to either an
      error (the request is rolled back, the database is unchanged) or the
      new database and the response.  Row objects fetched twice are one
      object in the session's identity map, so every update is applied by
      primary key on the current database.
    - Left out: timestamps, free-text descriptions, the callback URL and
      token authentication; none of them is read by the code modelled. *)

From Stdlib Require Import ZArith String Ascii Bool Lia.
From stdpp Require Import base option list strings.

Local Open Scope string_scope.
Local Open Scope list_scope.
Local Open Scope Z_scope.

(** ** Results of a request *)

Inductive Detail : Type :=
  | TripNotFound | TripNotPickupPending | EscrowAlreadyExists | TripHasNoBid
  | TripHasNoListing | ShipperHasNoWallet | ShipperWalletNotActive
  | InsufficientShipperBalance | EscrowNotFound | EscrowNotHeld
  | AssociatedTripNotFound | TripNotConfirmed | OnlyShipperOrAdmin
  | CannotRefundEscrow | TripNotDisputable | OnlyShipperOrCourier
  | NoEscrowForTrip | DisputeAlreadyOpen | DisputeNotFound
  | CannotResolveDispute | NoEscrowForDispute | SplitExceedsEscrow
  | NotAuthorisedToEscalate | CannotEscalateDispute
  | WalletNotActive | InsufficientBalance | MoMoPaymentNotFound
  | InsufficientPermissions | ValidationError.

Inductive Error : Type :=
  | HTTPException (status_code : Z) (detail : Detail)
  | NoResultFound
  | MultipleResultsFound
  | IntegrityError.

Inductive Result (A : Type) : Type :=
  | Ok (a : A)
  | Err (e : Error).
Arguments Ok {A} a.
Arguments Err {A} e.

Definition bind {A B : Type} (m : Result A) (k : A -> Result B) : Result B :=
  match m with
  | Ok a => k a
  | Err e => Err e
  end.

Notation "'let*' x ':=' m 'in' k" := (bind m (fun x => k))
  (at level 10, x pattern, m at level 100, k at level 200).

(** [if cond: raise e] *)
Definition raise_if (cond : bool) (e : Error) : Result unit :=
  if cond then Err e else Ok tt.

(** [x = o; if not x: raise e] *)
Definition or_raise {A : Type} (o : option A) (e : Error) : Result A :=
  match o with
  | Some a => Ok a
  | None => Err e
  end.

Definition is_ok {A : Type} (r : Result A) : bool :=
  match r with Ok _ => true | Err _ => false end.

(** ** Decimal arithmetic *)

Notation Money := Z (only parsing).

(** [round(n / d, 0)] for [d > 0]: nearest integer, ties to even. *)
Definition py_round (n d : Z) : Z :=
  let q := n / d in
  match 2 * (n mod d) ?= d with
  | Lt => q
  | Gt => q + 1
  | Eq => if Z.even q then q else q + 1
  end.

(** [round(x, 2)] of an amount that is already whole pesewas. *)
Definition round2 (x : Money) : Money := py_round x 1.

(** A rate such as [0.05], kept as the fraction it denotes. *)
Record Rate : Type := mkRate { rate_num : Z; rate_den : Z }.

(** [round(amount * rate, 2)] *)
Definition round2_mul (amount : Money) (r : Rate) : Money :=
  py_round (amount * rate_num r) (rate_den r).

(** escrow.py: [PLATFORM_COMMISSION_RATE = 0.05] *)
Definition PLATFORM_COMMISSION_RATE : Rate := mkRate 5 100.

(** ** Enums (models/wallet.py, models/freight.py) *)

Inductive WalletStatus := ACTIVE | FROZEN | CLOSED.

Inductive TransactionType :=
  | DEPOSIT | WITHDRAWAL | ESCROW_HOLD | ESCROW_RELEASE | ESCROW_REFUND
  | COMMISSION | TRANSFER_IN | TRANSFER_OUT | ADJUSTMENT.

Inductive TransactionStatus :=
  | TXN_PENDING | TXN_PROCESSING | TXN_COMPLETED | TXN_FAILED | TXN_REVERSED.

Inductive ReferenceType :=
  | REF_TRIP | REF_LISTING | REF_BID | REF_ESCROW | REF_DISPUTE
  | REF_MOMO_PAYMENT | REF_PAYOUT | REF_MANUAL.

Inductive EscrowStatus :=
  | HELD | RELEASED | REFUNDED | DISPUTED | PARTIALLY_RELEASED.

Inductive MoMoProvider := MTN | VODAFONE | AIRTELTIGO.

Inductive MoMoDirection := COLLECTION | DISBURSEMENT.

Inductive MoMoStatus :=
  | MOMO_INITIATED | MOMO_PENDING | MOMO_SUCCESS | MOMO_FAILED
  | MOMO_TIMEOUT | MOMO_CANCELLED.

Inductive PayoutStatus :=
  | PAYOUT_SCHEDULED | PAYOUT_PROCESSING | PAYOUT_COMPLETED | PAYOUT_FAILED
  | PAYOUT_CANCELLED.

Inductive DisputeStatus :=
  | OPEN | UNDER_REVIEW | RESOLVED_SHIPPER | RESOLVED_COURIER | RESOLVED_SPLIT
  | ESCALATED | DISPUTE_CLOSED.

Inductive DisputeReason :=
  | DAMAGED_GOODS | MISSING_ITEMS | LATE_DELIVERY | WRONG_DELIVERY
  | NO_DELIVERY | OVERCHARGE | FRAUD | OTHER.

Inductive TripStatus :=
  | PICKUP_PENDING | PICKED_UP | IN_TRANSIT | AT_WAYPOINT | DELIVERED
  | CONFIRMED | TRIP_DISPUTED | TRIP_CANCELLED.

#[global] Instance WalletStatus_eq_dec : EqDecision WalletStatus.
Proof. solve_decision. Defined.
#[global] Instance TransactionType_eq_dec : EqDecision TransactionType.
Proof. solve_decision. Defined.
#[global] Instance TransactionStatus_eq_dec : EqDecision TransactionStatus.
Proof. solve_decision. Defined.
#[global] Instance EscrowStatus_eq_dec : EqDecision EscrowStatus.
Proof. solve_decision. Defined.
#[global] Instance MoMoDirection_eq_dec : EqDecision MoMoDirection.
Proof. solve_decision. Defined.
#[global] Instance MoMoStatus_eq_dec : EqDecision MoMoStatus.
Proof. solve_decision. Defined.
#[global] Instance DisputeStatus_eq_dec : EqDecision DisputeStatus.
Proof. solve_decision. Defined.
#[global] Instance TripStatus_eq_dec : EqDecision TripStatus.
Proof. solve_decision. Defined.

(** ** Rows *)

(** Primary keys. *)
Notation Id := nat (only parsing).

Record User : Type := mkUser {
  user_id : Id;
  user_org_id : option Id;
  role_names : list string
}.

Record Wallet : Type := mkWallet {
  w_user_id : Id;
  w_org_id : option Id;
  w_balance : Money;
  w_escrow_balance : Money;
  w_total_deposited : Money;
  w_total_withdrawn : Money;
  w_total_earned : Money;
  w_currency : string;
  w_status : WalletStatus
}.

Record Transaction : Type := mkTransaction {
  txn_wallet_id : Id;
  txn_type : TransactionType;
  txn_amount : Money;
  txn_currency : string;
  txn_fee : Money;
  txn_net_amount : Money;
  txn_balance_after : Money;
  txn_status : TransactionStatus;
  txn_reference_type : option ReferenceType;
  txn_reference_id : option Id
}.

Record EscrowHold : Type := mkEscrowHold {
  esc_trip_id : Id;
  esc_listing_id : Id;
  esc_shipper_wallet_id : Id;
  esc_courier_wallet_id : option Id;
  esc_amount : Money;
  esc_currency : string;
  esc_platform_commission_rate : Rate;
  esc_platform_commission_amount : option Money;
  esc_courier_payout_amount : option Money;
  esc_status : EscrowStatus
}.

Record MoMoPayment : Type := mkMoMoPayment {
  momo_wallet_id : Id;
  momo_transaction_id : option Id;
  momo_provider : MoMoProvider;
  momo_direction : MoMoDirection;
  momo_phone_number : string;
  momo_amount : Money;
  momo_currency : string;
  momo_fee : Money;
  momo_external_transaction_id : option string;
  momo_provider_reference : option string;
  momo_status : MoMoStatus;
  momo_failure_reason : option string
}.

Record PayoutSchedule : Type := mkPayoutSchedule {
  pay_courier_id : Id;
  pay_wallet_id : Id;
  pay_escrow_id : Id;
  pay_trip_id : Id;
  pay_amount : Money;
  pay_currency : string;
  pay_status : PayoutStatus
}.

Record Dispute : Type := mkDispute {
  dsp_trip_id : Id;
  dsp_escrow_id : Id;
  dsp_raised_by_user_id : Id;
  dsp_against_user_id : Id;
  dsp_reason : DisputeReason;
  dsp_status : DisputeStatus;
  dsp_resolved_by_user_id : option Id;
  dsp_shipper_refund_amount : option Money;
  dsp_courier_payout_amount : option Money
}.

(** The part of models/freight.py the settlement code reads: the trip, its
    accepted bid and its listing (both loaded through relationships). *)
Record FreightBid : Type := mkFreightBid {
  bid_price : Money;
  bid_currency : string
}.

Record FreightListing : Type := mkFreightListing {
  listing_id : Id;
  listing_shipper_id : Id
}.

Record FreightTrip : Type := mkFreightTrip {
  trip_courier_id : Id;
  trip_status : TripStatus;
  trip_bid : option FreightBid;
  trip_listing : option FreightListing
}.

(** ** The database *)

Record DB : Type := mkDB {
  wallets : list Wallet;
  transactions : list Transaction;
  escrow_holds : list EscrowHold;
  momo_payments : list MoMoPayment;
  payout_schedules : list PayoutSchedule;
  disputes : list Dispute;
  trips : list FreightTrip
}.

Definition with_wallets (db : DB) (ws : list Wallet) : DB :=
  mkDB ws (transactions db) (escrow_holds db) (momo_payments db)
       (payout_schedules db) (disputes db) (trips db).
Definition with_transactions (db : DB) (ts : list Transaction) : DB :=
  mkDB (wallets db) ts (escrow_holds db) (momo_payments db)
       (payout_schedules db) (disputes db) (trips db).
Definition with_escrow_holds (db : DB) (es : list EscrowHold) : DB :=
  mkDB (wallets db) (transactions db) es (momo_payments db)
       (payout_schedules db) (disputes db) (trips db).
Definition with_momo_payments (db : DB) (ms : list MoMoPayment) : DB :=
  mkDB (wallets db) (transactions db) (escrow_holds db) ms
       (payout_schedules db) (disputes db) (trips db).
Definition with_payout_schedules (db : DB) (ps : list PayoutSchedule) : DB :=
  mkDB (wallets db) (transactions db) (escrow_holds db) (momo_payments db)
       ps (disputes db) (trips db).
Definition with_disputes (db : DB) (ds : list Dispute) : DB :=
  mkDB (wallets db) (transactions db) (escrow_holds db) (momo_payments db)
       (payout_schedules db) ds (trips db).
Definition with_trips (db : DB) (ts : list FreightTrip) : DB :=
  mkDB (wallets db) (transactions db) (escrow_holds db) (momo_payments db)
       (payout_schedules db) (disputes db) ts.

(** [select(T).where(P)]: the matching rows with their primary keys. *)
Fixpoint select_from {A : Type} (P : A -> bool) (i : nat) (t : list A)
  : list (Id * A) :=
  match t with
  | [] => []
  | r :: t' => (if P r then [(i, r)] else []) ++ select_from P (S i) t'
  end.

Definition select {A : Type} (P : A -> bool) (t : list A) : list (Id * A) :=
  select_from P 0%nat t.

Definition scalar_one_or_none {A : Type} (rows : list A) : Result (option A) :=
  match rows with
  | [] => Ok None
  | [r] => Ok (Some r)
  | _ => Err MultipleResultsFound
  end.

Definition scalar_one {A : Type} (rows : list A) : Result A :=
  match rows with
  | [] => Err NoResultFound
  | [r] => Ok r
  | _ => Err MultipleResultsFound
  end.

(** [select(T).where(T.id == i)] followed by [scalar_one()]. *)
Definition get_one {A : Type} (t : list A) (i : Id) : Result A :=
  or_raise (t !! i) NoResultFound.

(** In-place update of the row with primary key [i]. *)
Definition update {A : Type} (i : Id) (f : A -> A) (t : list A) : list A :=
  match t !! i with
  | Some r => <[i := f r]> t
  | None => t
  end.

(** ** Role dependencies (api/deps/auth.py) *)

Definition has_role (user : User) (role : string) : bool :=
  bool_decide (role ∈ role_names user).

(** [RoleChecker.__call__]: at least one of the required roles. *)
Definition RoleChecker (required_roles : list string) (user : User)
  : Result User :=
  let* _ := raise_if (negb (existsb (has_role user) required_roles))
                     (HTTPException 403 InsufficientPermissions) in
  Ok user.

Definition require_system_admin : User -> Result User :=
  RoleChecker ["system_admin"].

Definition require_any_authenticated : User -> Result User :=
  RoleChecker ["system_admin"; "org_admin"; "shipper"; "courier";
               "shipper_viewer"; "courier_driver"; "support_agent"].

(** [is_admin = "system_admin" in user_roles or "org_admin" in user_roles] *)
Definition is_admin (user : User) : bool :=
  has_role user "system_admin" || has_role user "org_admin".

(** ** Wallet rows and their field updates *)

Definition set_balance (b : Money) (w : Wallet) : Wallet :=
  mkWallet (w_user_id w) (w_org_id w) b (w_escrow_balance w)
           (w_total_deposited w) (w_total_withdrawn w) (w_total_earned w)
           (w_currency w) (w_status w).
Definition set_escrow_balance (e : Money) (w : Wallet) : Wallet :=
  mkWallet (w_user_id w) (w_org_id w) (w_balance w) e
           (w_total_deposited w) (w_total_withdrawn w) (w_total_earned w)
           (w_currency w) (w_status w).
Definition set_total_deposited (d : Money) (w : Wallet) : Wallet :=
  mkWallet (w_user_id w) (w_org_id w) (w_balance w) (w_escrow_balance w)
           d (w_total_withdrawn w) (w_total_earned w)
           (w_currency w) (w_status w).
Definition set_total_withdrawn (d : Money) (w : Wallet) : Wallet :=
  mkWallet (w_user_id w) (w_org_id w) (w_balance w) (w_escrow_balance w)
           (w_total_deposited w) d (w_total_earned w)
           (w_currency w) (w_status w).
Definition set_total_earned (d : Money) (w : Wallet) : Wallet :=
  mkWallet (w_user_id w) (w_org_id w) (w_balance w) (w_escrow_balance w)
           (w_total_deposited w) (w_total_withdrawn w) d
           (w_currency w) (w_status w).

(** [Wallet(user_id=.., currency=.., balance=0.00, .., status=ACTIVE)] *)
Definition new_wallet (uid : Id) (org : option Id) (currency : string)
  : Wallet :=
  mkWallet uid org 0 0 0 0 0 currency ACTIVE.

Definition same_user_currency (uid : Id) (currency : string) (w : Wallet)
  : bool :=
  bool_decide (w_user_id w = uid) && bool_decide (w_currency w = currency).

(** escrow.py [get_wallet_for_user] *)
Definition get_wallet_for_user (db : DB) (uid : Id) (currency : string)
  : Result (option (Id * Wallet)) :=
  scalar_one_or_none (select (same_user_currency uid currency) (wallets db)).

(** [db.add(wallet); await db.flush()], under the unique constraint
    [uq_wallet_user_currency]. *)
Definition add_wallet (db : DB) (w : Wallet) : Result (DB * Id) :=
  match select (same_user_currency (w_user_id w) (w_currency w)) (wallets db)
  with
  | [] => Ok (with_wallets db (wallets db ++ [w]), length (wallets db))
  | _ :: _ => Err IntegrityError
  end.

Definition update_wallet (wid : Id) (f : Wallet -> Wallet) (db : DB) : DB :=
  with_wallets db (update wid f (wallets db)).

(** [float(wallet.balance)] of the session's wallet object [wid]. *)
Definition balance_of (db : DB) (wid : Id) : Money :=
  match wallets db !! wid with
  | Some w => w_balance w
  | None => 0
  end.

Definition add_transaction (t : Transaction) (db : DB) : DB :=
  with_transactions db (transactions db ++ [t]).

Definition update_escrow (eid : Id) (f : EscrowHold -> EscrowHold) (db : DB)
  : DB :=
  with_escrow_holds db (update eid f (escrow_holds db)).

Definition update_dispute (did : Id) (f : Dispute -> Dispute) (db : DB) : DB :=
  with_disputes db (update did f (disputes db)).

Definition set_escrow_status (s : EscrowStatus) (e : EscrowHold)
  : EscrowHold :=
  mkEscrowHold (esc_trip_id e) (esc_listing_id e) (esc_shipper_wallet_id e)
    (esc_courier_wallet_id e) (esc_amount e) (esc_currency e)
    (esc_platform_commission_rate e) (esc_platform_commission_amount e)
    (esc_courier_payout_amount e) s.
Definition set_escrow_amounts (commission payout : Money) (e : EscrowHold)
  : EscrowHold :=
  mkEscrowHold (esc_trip_id e) (esc_listing_id e) (esc_shipper_wallet_id e)
    (esc_courier_wallet_id e) (esc_amount e) (esc_currency e)
    (esc_platform_commission_rate e) (Some commission) (Some payout)
    (esc_status e).
Definition set_escrow_courier_wallet (cid : Id) (e : EscrowHold)
  : EscrowHold :=
  mkEscrowHold (esc_trip_id e) (esc_listing_id e) (esc_shipper_wallet_id e)
    (Some cid) (esc_amount e) (esc_currency e)
    (esc_platform_commission_rate e) (esc_platform_commission_amount e)
    (esc_courier_payout_amount e) (esc_status e).

(** A completed ledger row, as every escrow and dispute path writes it:
    [fee] is given, [net_amount] equals [amount]. *)
Definition completed_txn (wid : Id) (ty : TransactionType) (amount fee : Money)
    (currency : string) (balance_after : Money) (rt : ReferenceType)
    (rid : Id) : Transaction :=
  mkTransaction wid ty amount currency fee amount balance_after TXN_COMPLETED
                (Some rt) (Some rid).

(** ** Responses (schemas/wallet.py) *)

Record EscrowHoldResponse : Type := mkEscrowHoldResponse {
  ehr_id : Id;
  ehr_trip_id : Id;
  ehr_listing_id : Id;
  ehr_amount : Money;
  ehr_currency : string;
  ehr_platform_commission_rate : Rate;
  ehr_status : string
}.

Record EscrowReleaseResponse : Type := mkEscrowReleaseResponse {
  err_escrow_id : Id;
  err_trip_id : Id;
  err_total_amount : Money;
  err_platform_commission : Money;
  err_courier_payout : Money;
  err_currency : string
}.

(** [MessageResponse]; the refund message carries the amount returned. *)
Record RefundResponse : Type := mkRefundResponse {
  rr_currency : string;
  rr_amount : Money
}.

(** ** POST /escrow/hold-for-trip *)

Definition create_escrow_hold (trip_id : Id) (user : User) (db : DB)
  : Result (DB * EscrowHoldResponse) :=
  let* trip := or_raise (trips db !! trip_id)
                        (HTTPException 404 TripNotFound) in
  let* _ := raise_if (bool_decide (trip_status trip ≠ PICKUP_PENDING))
                     (HTTPException 400 TripNotPickupPending) in
  (* Check no existing escrow *)
  let* existing :=
    scalar_one_or_none
      (select (fun e => bool_decide (esc_trip_id e = trip_id))
              (escrow_holds db)) in
  let* _ := raise_if (bool_decide (is_Some existing))
                     (HTTPException 409 EscrowAlreadyExists) in
  (* Get bid amount *)
  let* bid := or_raise (trip_bid trip) (HTTPException 400 TripHasNoBid) in
  let amount := bid_price bid in
  let currency := bid_currency bid in
  (* Get shipper's wallet *)
  let* listing := or_raise (trip_listing trip)
                           (HTTPException 400 TripHasNoListing) in
  let* found := get_wallet_for_user db (listing_shipper_id listing) currency in
  let* (shipper_wallet_id, shipper_wallet) :=
    or_raise found (HTTPException 400 ShipperHasNoWallet) in
  let* _ := raise_if (bool_decide (w_status shipper_wallet ≠ ACTIVE))
                     (HTTPException 400 ShipperWalletNotActive) in
  let* _ := raise_if (w_balance shipper_wallet <? amount)
                     (HTTPException 400 InsufficientShipperBalance) in
  (* Get/create courier wallet *)
  let* courier_wallet := get_wallet_for_user db (trip_courier_id trip) currency in
  let courier_wallet_id := fst <$> courier_wallet in
  (* Deduct from shipper wallet -> escrow *)
  let db := update_wallet shipper_wallet_id
              (fun w => set_escrow_balance (w_escrow_balance w + amount)
                          (set_balance (w_balance w - amount) w)) db in
  (* Create escrow hold *)
  let escrow :=
    mkEscrowHold trip_id (listing_id listing) shipper_wallet_id
      courier_wallet_id amount currency PLATFORM_COMMISSION_RATE None None
      HELD in
  let escrow_id := length (escrow_holds db) in
  let db := with_escrow_holds db (escrow_holds db ++ [escrow]) in
  (* Log the escrow_hold transaction on the shipper's wallet *)
  let db := add_transaction
              (completed_txn shipper_wallet_id ESCROW_HOLD amount 0 currency
                 (balance_of db shipper_wallet_id) REF_ESCROW escrow_id) db in
  Ok (db, mkEscrowHoldResponse escrow_id trip_id (listing_id listing) amount
            currency (esc_platform_commission_rate escrow) "held").

(** The courier wallet of an escrow row, when the row names one that exists. *)
Definition courier_wallet_of (db : DB) (escrow : EscrowHold) : option Id :=
  match esc_courier_wallet_id escrow with
  | Some cid =>
      match wallets db !! cid with
      | Some _ => Some cid
      | None => None
      end
  | None => None
  end.

(** ** POST /escrow/{id}/release *)

Definition release_escrow (escrow_id : Id) (user : User) (db : DB)
  : Result (DB * EscrowReleaseResponse) :=
  let* escrow := or_raise (escrow_holds db !! escrow_id)
                          (HTTPException 404 EscrowNotFound) in
  let* _ := raise_if (bool_decide (esc_status escrow ≠ HELD))
                     (HTTPException 400 EscrowNotHeld) in
  (* Verify trip is confirmed *)
  let trip_id := esc_trip_id escrow in
  let* trip := or_raise (trips db !! trip_id)
                        (HTTPException 400 AssociatedTripNotFound) in
  let* _ := raise_if (bool_decide (trip_status trip ≠ CONFIRMED))
                     (HTTPException 400 TripNotConfirmed) in
  (* Authorization: shipper, courier, or admin *)
  let is_shipper :=
    match trip_listing trip with
    | Some l => bool_decide (listing_shipper_id l = user_id user)
    | None => false
    end in
  let* _ := raise_if (negb (is_shipper || is_admin user))
                     (HTTPException 403 OnlyShipperOrAdmin) in
  let amount := esc_amount escrow in
  let currency := esc_currency escrow in
  (* Calculate commission *)
  let commission := round2_mul amount PLATFORM_COMMISSION_RATE in
  let courier_payout := round2 (amount - commission) in
  (* Update escrow record *)
  let db := update_escrow escrow_id
              (fun e => set_escrow_status RELEASED
                          (set_escrow_amounts commission courier_payout e))
              db in
  (* Get shipper wallet: reduce escrow_balance *)
  let shipper_wallet_id := esc_shipper_wallet_id escrow in
  let* _ := get_one (wallets db) shipper_wallet_id in
  let db := update_wallet shipper_wallet_id
              (fun w => set_escrow_balance (w_escrow_balance w - amount) w)
              db in
  (* Get or create courier wallet *)
  let* (db, courier_wallet_id) :=
    match courier_wallet_of db escrow with
    | Some cid => Ok (db, cid)
    | None =>
        let* (db, cid) :=
          add_wallet db (new_wallet (trip_courier_id trip) None currency) in
        Ok (update_escrow escrow_id (set_escrow_courier_wallet cid) db, cid)
    end in
  (* Credit courier wallet *)
  let db := update_wallet courier_wallet_id
              (fun w => set_total_earned (w_total_earned w + courier_payout)
                          (set_balance (w_balance w + courier_payout) w))
              db in
  (* 1. Escrow release on shipper wallet (informational) *)
  let db := add_transaction
              (completed_txn shipper_wallet_id ESCROW_RELEASE amount 0
                 currency (balance_of db shipper_wallet_id) REF_ESCROW
                 escrow_id) db in
  (* 2. Commission deduction transaction (platform revenue) *)
  let db := add_transaction
              (completed_txn shipper_wallet_id COMMISSION commission 0
                 currency (balance_of db shipper_wallet_id) REF_ESCROW
                 escrow_id) db in
  (* 3. Escrow release credit on courier wallet *)
  let db := add_transaction
              (completed_txn courier_wallet_id ESCROW_RELEASE courier_payout
                 commission currency (balance_of db courier_wallet_id)
                 REF_ESCROW escrow_id) db in
  (* Payout schedule *)
  let db := with_payout_schedules db
              (payout_schedules db ++
               [mkPayoutSchedule (trip_courier_id trip) courier_wallet_id
                  escrow_id trip_id courier_payout currency
                  PAYOUT_COMPLETED]) in
  Ok (db, mkEscrowReleaseResponse escrow_id trip_id amount commission
            courier_payout currency).

(** ** POST /escrow/{id}/refund *)

Definition refund_escrow (escrow_id : Id) (user : User) (db : DB)
  : Result (DB * RefundResponse) :=
  let* escrow := or_raise (escrow_holds db !! escrow_id)
                          (HTTPException 404 EscrowNotFound) in
  let* _ := raise_if (negb (bool_decide (esc_status escrow = HELD)
                            || bool_decide (esc_status escrow = DISPUTED)))
                     (HTTPException 400 CannotRefundEscrow) in
  let amount := esc_amount escrow in
  let currency := esc_currency escrow in
  (* Credit back to shipper *)
  let shipper_wallet_id := esc_shipper_wallet_id escrow in
  let* _ := get_one (wallets db) shipper_wallet_id in
  let db := update_wallet shipper_wallet_id
              (fun w => set_escrow_balance (w_escrow_balance w - amount)
                          (set_balance (w_balance w + amount) w)) db in
  (* Update escrow *)
  let db := update_escrow escrow_id (set_escrow_status REFUNDED) db in
  (* Log transaction *)
  let db := add_transaction
              (completed_txn shipper_wallet_id ESCROW_REFUND amount 0 currency
                 (balance_of db shipper_wallet_id) REF_ESCROW escrow_id) db in
  Ok (db, mkRefundResponse currency amount).

(** ** Disputes *)

Record OpenDisputeRequest : Type := mkOpenDisputeRequest {
  odr_trip_id : Id;
  odr_reason : DisputeReason
}.

Inductive Resolution := resolved_shipper | resolved_courier | resolved_split.

Record ResolveDisputeRequest : Type := mkResolveDisputeRequest {
  rdr_resolution : Resolution;
  rdr_shipper_refund_amount : option Money;
  rdr_courier_payout_amount : option Money
}.

(** The pydantic constraints of [ResolveDisputeRequest]: both optional
    amounts are [Field(None, ge=0)]. *)
Definition valid_resolve_request (body : ResolveDisputeRequest) : bool :=
  (0 <=? default 0 (rdr_shipper_refund_amount body))
  && (0 <=? default 0 (rdr_courier_payout_amount body)).

(** [DisputeStatus(body.resolution)] *)
Definition DisputeStatus_of (r : Resolution) : DisputeStatus :=
  match r with
  | resolved_shipper => RESOLVED_SHIPPER
  | resolved_courier => RESOLVED_COURIER
  | resolved_split => RESOLVED_SPLIT
  end.

(** [status in (OPEN, UNDER_REVIEW, ESCALATED)] *)
Definition dispute_active (s : DisputeStatus) : bool :=
  match s with
  | OPEN | UNDER_REVIEW | ESCALATED => true
  | _ => false
  end.

Definition set_dispute_status (s : DisputeStatus) (d : Dispute) : Dispute :=
  mkDispute (dsp_trip_id d) (dsp_escrow_id d) (dsp_raised_by_user_id d)
    (dsp_against_user_id d) (dsp_reason d) s (dsp_resolved_by_user_id d)
    (dsp_shipper_refund_amount d) (dsp_courier_payout_amount d).
Definition set_dispute_amounts (refund payout : Money) (d : Dispute)
  : Dispute :=
  mkDispute (dsp_trip_id d) (dsp_escrow_id d) (dsp_raised_by_user_id d)
    (dsp_against_user_id d) (dsp_reason d) (dsp_status d)
    (dsp_resolved_by_user_id d) (Some refund) (Some payout).
Definition set_dispute_resolved_by (uid : Id) (d : Dispute) : Dispute :=
  mkDispute (dsp_trip_id d) (dsp_escrow_id d) (dsp_raised_by_user_id d)
    (dsp_against_user_id d) (dsp_reason d) (dsp_status d) (Some uid)
    (dsp_shipper_refund_amount d) (dsp_courier_payout_amount d).

Definition set_trip_status (s : TripStatus) (t : FreightTrip) : FreightTrip :=
  mkFreightTrip (trip_courier_id t) s (trip_bid t) (trip_listing t).

(** *** POST /disputes *)

Definition open_dispute (body : OpenDisputeRequest) (user : User) (db : DB)
  : Result (DB * (Id * Dispute)) :=
  let trip_id := odr_trip_id body in
  let* trip := or_raise (trips db !! trip_id)
                        (HTTPException 404 TripNotFound) in
  (* Must be in disputable state *)
  let* _ := raise_if (negb (bool_decide (trip_status trip = DELIVERED)
                            || bool_decide (trip_status trip = CONFIRMED)))
                     (HTTPException 400 TripNotDisputable) in
  (* Check authorization *)
  let listing := trip_listing trip in
  let is_shipper :=
    match listing with
    | Some l => bool_decide (listing_shipper_id l = user_id user)
    | None => false
    end in
  let is_courier := bool_decide (trip_courier_id trip = user_id user) in
  let* _ := raise_if (negb (is_shipper || is_courier))
                     (HTTPException 403 OnlyShipperOrCourier) in
  (* Determine the "against" party *)
  let against_user_id :=
    if is_shipper then trip_courier_id trip
    else match listing with
         | Some l => listing_shipper_id l
         | None => trip_courier_id trip
         end in
  (* Find the escrow hold *)
  let* found :=
    scalar_one_or_none
      (select (fun e => bool_decide (esc_trip_id e = trip_id))
              (escrow_holds db)) in
  let* (escrow_id, escrow) :=
    or_raise found (HTTPException 400 NoEscrowForTrip) in
  (* Check for existing open dispute *)
  let* existing :=
    scalar_one_or_none
      (select (fun d => bool_decide (dsp_trip_id d = trip_id)
                        && dispute_active (dsp_status d))
              (disputes db)) in
  let* _ := raise_if (bool_decide (is_Some existing))
                     (HTTPException 409 DisputeAlreadyOpen) in
  (* Update trip status *)
  let db := with_trips db (update trip_id (set_trip_status TRIP_DISPUTED)
                                  (trips db)) in
  (* Update escrow status *)
  let db := if bool_decide (esc_status escrow = HELD)
            then update_escrow escrow_id (set_escrow_status DISPUTED) db
            else db in
  (* Create dispute *)
  let dispute :=
    mkDispute trip_id escrow_id (user_id user) against_user_id
              (odr_reason body) OPEN None None None in
  let dispute_id := length (disputes db) in
  Ok (with_disputes db (disputes db ++ [dispute]), (dispute_id, dispute)).

(** The three settlements of [resolve_dispute], each on the session state
    reached so far.  [shipper_wallet_id] and [courier_wallet] are the wallets
    fetched before the branch; [trip] is [dispute.trip]. *)

Definition resolve_for_shipper (dispute_id escrow_id : Id)
    (escrow : EscrowHold) (db : DB) : DB :=
  let amount := esc_amount escrow in
  let currency := esc_currency escrow in
  let shipper_wallet_id := esc_shipper_wallet_id escrow in
  (* Full refund to shipper *)
  let db := update_wallet shipper_wallet_id
              (fun w => set_escrow_balance (w_escrow_balance w - amount)
                          (set_balance (w_balance w + amount) w)) db in
  let db := update_escrow escrow_id (set_escrow_status REFUNDED) db in
  let db := update_dispute dispute_id (set_dispute_amounts amount 0) db in
  add_transaction
    (completed_txn shipper_wallet_id ESCROW_REFUND amount 0 currency
       (balance_of db shipper_wallet_id) REF_DISPUTE dispute_id) db.

(** [if courier_wallet is None: courier_wallet = Wallet(..); db.add; flush].
    Without a trip the new row's [user_id] is not a user (a wallet id, None
    or a random UUID) and the flush fails on the foreign key. *)
Definition ensure_courier_wallet (courier_wallet : option Id)
    (trip : option FreightTrip) (currency : string) (db : DB)
  : Result (DB * Id) :=
  match courier_wallet with
  | Some cid => Ok (db, cid)
  | None =>
      match trip with
      | Some t => add_wallet db (new_wallet (trip_courier_id t) None currency)
      | None => Err IntegrityError
      end
  end.

Definition credit_courier (cid : Id) (courier_payout : Money) (db : DB) : DB :=
  update_wallet cid
    (fun w => set_total_earned (w_total_earned w + courier_payout)
                (set_balance (w_balance w + courier_payout) w)) db.

Definition resolve_for_courier (dispute_id escrow_id : Id)
    (escrow : EscrowHold) (courier_wallet : option Id)
    (trip : option FreightTrip) (db : DB) : Result DB :=
  let amount := esc_amount escrow in
  let currency := esc_currency escrow in
  let shipper_wallet_id := esc_shipper_wallet_id escrow in
  (* Full payout to courier (minus commission) *)
  let commission := round2_mul amount PLATFORM_COMMISSION_RATE in
  let courier_payout := round2 (amount - commission) in
  let db := update_wallet shipper_wallet_id
              (fun w => set_escrow_balance (w_escrow_balance w - amount) w)
              db in
  let* (db, cid) := ensure_courier_wallet courier_wallet trip currency db in
  let db := credit_courier cid courier_payout db in
  let db := update_escrow escrow_id
              (fun e => set_escrow_status RELEASED
                          (set_escrow_amounts commission courier_payout e))
              db in
  let db := update_dispute dispute_id (set_dispute_amounts 0 courier_payout)
              db in
  (* Commission txn *)
  let db := add_transaction
              (completed_txn shipper_wallet_id COMMISSION commission 0
                 currency (balance_of db shipper_wallet_id) REF_DISPUTE
                 dispute_id) db in
  (* Courier credit *)
  Ok (add_transaction
        (completed_txn cid ESCROW_RELEASE courier_payout commission currency
           (balance_of db cid) REF_DISPUTE dispute_id) db).

(** The three components of a split, in the order the code settles them. *)

(** [if shipper_refund > 0: ...] *)
Definition split_refund (dispute_id shipper_wallet_id : Id)
    (shipper_refund : Money) (currency : string) (db : DB) : DB :=
  if shipper_refund >? 0 then
    let db := update_wallet shipper_wallet_id
                (fun w => set_balance (w_balance w + shipper_refund) w) db in
    add_transaction
      (completed_txn shipper_wallet_id ESCROW_REFUND shipper_refund 0
         currency (balance_of db shipper_wallet_id) REF_DISPUTE dispute_id)
      db
  else db.

(** [if courier_payout > 0: ...] *)
Definition split_payout (dispute_id : Id) (courier_wallet : option Id)
    (trip : option FreightTrip) (courier_payout : Money) (currency : string)
    (db : DB) : Result DB :=
  if courier_payout >? 0 then
    let* (db, cid) := ensure_courier_wallet courier_wallet trip currency db in
    let db := credit_courier cid courier_payout db in
    Ok (add_transaction
          (completed_txn cid ESCROW_RELEASE courier_payout 0 currency
             (balance_of db cid) REF_DISPUTE dispute_id) db)
  else Ok db.

(** [if platform_take > 0: ...]: the remainder, logged as commission. *)
Definition split_commission (dispute_id shipper_wallet_id : Id)
    (platform_take : Money) (currency : string) (db : DB) : DB :=
  if platform_take >? 0 then
    add_transaction
      (completed_txn shipper_wallet_id COMMISSION platform_take 0 currency
         (balance_of db shipper_wallet_id) REF_DISPUTE dispute_id) db
  else db.

Definition resolve_split (dispute_id escrow_id : Id) (escrow : EscrowHold)
    (courier_wallet : option Id) (trip : option FreightTrip)
    (body : ResolveDisputeRequest) (db : DB) : Result DB :=
  let amount := esc_amount escrow in
  let currency := esc_currency escrow in
  let shipper_wallet_id := esc_shipper_wallet_id escrow in
  (* Custom split *)
  let shipper_refund := default 0 (rdr_shipper_refund_amount body) in
  let courier_payout := default 0 (rdr_courier_payout_amount body) in
  let* _ := raise_if (round2 (shipper_refund + courier_payout) >? amount)
                     (HTTPException 400 SplitExceedsEscrow) in
  let db := update_wallet shipper_wallet_id
              (fun w => set_escrow_balance (w_escrow_balance w - amount) w)
              db in
  let db := split_refund dispute_id shipper_wallet_id shipper_refund currency
              db in
  let* db := split_payout dispute_id courier_wallet trip courier_payout
               currency db in
  (* Platform keeps remainder as commission *)
  let platform_take := round2 (amount - shipper_refund - courier_payout) in
  let db := split_commission dispute_id shipper_wallet_id platform_take
              currency db in
  let db := update_escrow escrow_id
              (fun e => set_escrow_status PARTIALLY_RELEASED
                          (set_escrow_amounts platform_take courier_payout e))
              db in
  Ok (update_dispute dispute_id
        (set_dispute_amounts shipper_refund courier_payout) db).

(** *** POST /disputes/{id}/resolve *)

Definition resolve_dispute (dispute_id : Id) (body : ResolveDisputeRequest)
    (user : User) (db : DB) : Result (DB * Dispute) :=
  let* dispute := or_raise (disputes db !! dispute_id)
                           (HTTPException 404 DisputeNotFound) in
  let* _ := raise_if (negb (dispute_active (dsp_status dispute)))
                     (HTTPException 400 CannotResolveDispute) in
  let escrow_id := dsp_escrow_id dispute in
  let* escrow := or_raise (escrow_holds db !! escrow_id)
                          (HTTPException 400 NoEscrowForDispute) in
  (* Get wallets *)
  let* _ := get_one (wallets db) (esc_shipper_wallet_id escrow) in
  let courier_wallet := courier_wallet_of db escrow in
  let trip := trips db !! dsp_trip_id dispute in
  let* db :=
    match rdr_resolution body with
    | resolved_shipper =>
        Ok (resolve_for_shipper dispute_id escrow_id escrow db)
    | resolved_courier =>
        resolve_for_courier dispute_id escrow_id escrow courier_wallet trip db
    | resolved_split =>
        resolve_split dispute_id escrow_id escrow courier_wallet trip body db
    end in
  (* Finalize dispute *)
  let db := update_dispute dispute_id
              (fun d => set_dispute_resolved_by (user_id user)
                          (set_dispute_status
                             (DisputeStatus_of (rdr_resolution body)) d))
              db in
  let* dispute := get_one (disputes db) dispute_id in
  Ok (db, dispute).

(** *** POST /disputes/{id}/escalate *)

Definition escalate_dispute (dispute_id : Id) (user : User) (db : DB)
  : Result (DB * Dispute) :=
  let* dispute := or_raise (disputes db !! dispute_id)
                           (HTTPException 404 DisputeNotFound) in
  let is_party :=
    bool_decide (user_id user = dsp_raised_by_user_id dispute)
    || bool_decide (user_id user = dsp_against_user_id dispute) in
  let* _ := raise_if (negb (is_admin user || is_party))
                     (HTTPException 403 NotAuthorisedToEscalate) in
  let* _ := raise_if (negb (bool_decide (dsp_status dispute = OPEN)
                            || bool_decide (dsp_status dispute = UNDER_REVIEW)))
                     (HTTPException 400 CannotEscalateDispute) in
  let db := update_dispute dispute_id (set_dispute_status ESCALATED) db in
  let* dispute := get_one (disputes db) dispute_id in
  Ok (db, dispute).

(** ** Wallet endpoints (wallets.py) *)

(** [get_or_create_wallet] *)
Definition get_or_create_wallet (db : DB) (user : User) (currency : string)
  : Result (DB * (Id * Wallet)) :=
  let* found :=
    scalar_one_or_none
      (select (same_user_currency (user_id user) currency) (wallets db)) in
  match found with
  | Some (wid, wallet) => Ok (db, (wid, wallet))
  | None =>
      let wallet := new_wallet (user_id user) (user_org_id user) currency in
      let* (db, wid) := add_wallet db wallet in
      Ok (db, (wid, wallet))
  end.

Record MoMoDepositRequest : Type := mkMoMoDepositRequest {
  dep_amount : Money;
  dep_currency : string;
  dep_provider : MoMoProvider;
  dep_phone_number : string
}.

Record MoMoWithdrawRequest : Type := mkMoMoWithdrawRequest {
  wd_amount : Money;
  wd_currency : string;
  wd_provider : MoMoProvider;
  wd_phone_number : string
}.

Record MoMoCallbackPayload : Type := mkMoMoCallbackPayload {
  cb_external_transaction_id : string;
  cb_status : string;
  cb_provider_reference : option string;
  cb_amount : option Money;
  cb_message : option string
}.

(** The pydantic constraints on the amounts and the currency, in pesewas:
    [gt=0, le=50_000], the minimum of 1.00 (deposit) or 5.00 (withdrawal),
    and the currency validator, which leaves "GHS". *)
Definition valid_deposit_request (body : MoMoDepositRequest) : bool :=
  (0 <? dep_amount body) && (dep_amount body <=? 5000000)
  && negb (dep_amount body <? 100)
  && bool_decide (dep_currency body = "GHS").

Definition valid_withdraw_request (body : MoMoWithdrawRequest) : bool :=
  (0 <? wd_amount body) && (wd_amount body <=? 5000000)
  && negb (wd_amount body <? 500)
  && bool_decide (wd_currency body = "GHS").

Record MoMoDepositResponse : Type := mkMoMoDepositResponse {
  dr_momo_payment_id : Id;
  dr_transaction_id : Id;
  dr_amount : Money;
  dr_status : string;
  dr_external_transaction_id : string
}.

Record MoMoWithdrawResponse : Type := mkMoMoWithdrawResponse {
  wr_momo_payment_id : Id;
  wr_transaction_id : Id;
  wr_amount : Money;
  wr_fee : Money;
  wr_net_amount : Money;
  wr_status : string
}.

(** [db.add(momo); await db.flush()]: [external_transaction_id] is unique. *)
Definition add_momo_payment (db : DB) (m : MoMoPayment) : Result (DB * Id) :=
  match select (fun m' => bool_decide (is_Some (momo_external_transaction_id m))
                          && bool_decide (momo_external_transaction_id m'
                                          = momo_external_transaction_id m))
               (momo_payments db)
  with
  | [] => Ok (with_momo_payments db (momo_payments db ++ [m]),
              length (momo_payments db))
  | _ :: _ => Err IntegrityError
  end.

Definition set_txn_reference_id (rid : Id) (t : Transaction) : Transaction :=
  mkTransaction (txn_wallet_id t) (txn_type t) (txn_amount t) (txn_currency t)
    (txn_fee t) (txn_net_amount t) (txn_balance_after t) (txn_status t)
    (txn_reference_type t) (Some rid).
Definition set_txn_status (s : TransactionStatus) (t : Transaction)
  : Transaction :=
  mkTransaction (txn_wallet_id t) (txn_type t) (txn_amount t) (txn_currency t)
    (txn_fee t) (txn_net_amount t) (txn_balance_after t) s
    (txn_reference_type t) (txn_reference_id t).
Definition set_txn_balance_after (b : Money) (t : Transaction) : Transaction :=
  mkTransaction (txn_wallet_id t) (txn_type t) (txn_amount t) (txn_currency t)
    (txn_fee t) (txn_net_amount t) b (txn_status t)
    (txn_reference_type t) (txn_reference_id t).

Definition update_transaction (tid : Id) (f : Transaction -> Transaction)
    (db : DB) : DB :=
  with_transactions db (update tid f (transactions db)).

Definition update_momo (mid : Id) (f : MoMoPayment -> MoMoPayment) (db : DB)
  : DB :=
  with_momo_payments db (update mid f (momo_payments db)).

(** *** POST /wallets/me/deposit
    [hex] is [uuid.uuid4().hex[:12].upper()], chosen by the environment. *)
Definition deposit_momo (body : MoMoDepositRequest) (user : User)
    (hex : string) (db : DB) : Result (DB * MoMoDepositResponse) :=
  let* (db, (wallet_id, wallet)) :=
    get_or_create_wallet db user (dep_currency body) in
  let* _ := raise_if (bool_decide (w_status wallet ≠ ACTIVE))
                     (HTTPException 400 WalletNotActive) in
  (* Create the pending transaction *)
  let txn :=
    mkTransaction wallet_id DEPOSIT (dep_amount body) (dep_currency body)
      0 (dep_amount body) (w_balance wallet) TXN_PENDING
      (Some REF_MOMO_PAYMENT) None in
  let txn_id := length (transactions db) in
  let db := add_transaction txn db in
  let external_id := "MOMO-" +:+ hex in
  (* Create MoMo payment record *)
  let momo :=
    mkMoMoPayment wallet_id (Some txn_id) (dep_provider body) COLLECTION
      (dep_phone_number body) (dep_amount body) (dep_currency body) 0
      (Some external_id) None MOMO_PENDING None in
  let* (db, momo_id) := add_momo_payment db momo in
  (* Link MoMo payment to transaction *)
  let db := update_transaction txn_id (set_txn_reference_id momo_id) db in
  Ok (db, mkMoMoDepositResponse momo_id txn_id (dep_amount body) "pending"
            external_id).

(** [round(max(0.50, min(body.amount * 0.01, 10.00)), 2)], computed in
    hundredths of a pesewa before the rounding. *)
Definition withdrawal_fee (amount : Money) : Money :=
  py_round (Z.max (50 * 100) (Z.min (amount * 1) (1000 * 100))) 100.

(** *** POST /wallets/me/withdraw *)
Definition withdraw_momo (body : MoMoWithdrawRequest) (user : User)
    (hex : string) (db : DB) : Result (DB * MoMoWithdrawResponse) :=
  let* (db, (wallet_id, wallet)) :=
    get_or_create_wallet db user (wd_currency body) in
  let* _ := raise_if (bool_decide (w_status wallet ≠ ACTIVE))
                     (HTTPException 400 WalletNotActive) in
  (* Calculate fee: 1% with bounds *)
  let fee := withdrawal_fee (wd_amount body) in
  let total_debit := wd_amount body + fee in
  let* _ := raise_if (w_balance wallet <? total_debit)
                     (HTTPException 400 InsufficientBalance) in
  (* Debit wallet immediately (optimistic) *)
  let db := update_wallet wallet_id
              (fun w => set_total_withdrawn
                          (w_total_withdrawn w + wd_amount body)
                          (set_balance (w_balance w - total_debit) w)) db in
  (* Create transaction *)
  let txn :=
    mkTransaction wallet_id WITHDRAWAL (wd_amount body) (wd_currency body)
      fee (wd_amount body) (balance_of db wallet_id) TXN_PROCESSING
      (Some REF_MOMO_PAYMENT) None in
  let txn_id := length (transactions db) in
  let db := add_transaction txn db in
  let external_id := "MOMO-D-" +:+ hex in
  let momo :=
    mkMoMoPayment wallet_id (Some txn_id) (wd_provider body) DISBURSEMENT
      (wd_phone_number body) (wd_amount body) (wd_currency body) fee
      (Some external_id) None MOMO_PENDING None in
  let* (db, momo_id) := add_momo_payment db momo in
  let db := update_transaction txn_id (set_txn_reference_id momo_id) db in
  Ok (db, mkMoMoWithdrawResponse momo_id txn_id (wd_amount body) fee
            (wd_amount body) "processing").

(** *** POST /wallets/momo-callback *)

(** [str.lower()] on the ASCII letters. *)
Definition lower_ascii (c : ascii) : ascii :=
  let n := N_of_ascii c in
  if ((65 <=? n) && (n <=? 90))%N then ascii_of_N (n + 32) else c.

Fixpoint lower (s : string) : string :=
  match s with
  | EmptyString => EmptyString
  | String c s' => String (lower_ascii c) (lower s')
  end.

Definition set_momo_success (reference : option string) (m : MoMoPayment)
  : MoMoPayment :=
  mkMoMoPayment (momo_wallet_id m) (momo_transaction_id m) (momo_provider m)
    (momo_direction m) (momo_phone_number m) (momo_amount m)
    (momo_currency m) (momo_fee m) (momo_external_transaction_id m)
    reference MOMO_SUCCESS (momo_failure_reason m).
Definition set_momo_failed (reason : string) (m : MoMoPayment) : MoMoPayment :=
  mkMoMoPayment (momo_wallet_id m) (momo_transaction_id m) (momo_provider m)
    (momo_direction m) (momo_phone_number m) (momo_amount m)
    (momo_currency m) (momo_fee m) (momo_external_transaction_id m)
    (momo_provider_reference m) MOMO_FAILED (Some reason).

(** [body.message or f"Payment {body.status}"] *)
Definition failure_reason_of (body : MoMoCallbackPayload) : string :=
  match cb_message body with
  | Some m => if bool_decide (m = "") then "Payment " +:+ cb_status body else m
  | None => "Payment " +:+ cb_status body
  end.

(** [if momo.transaction_id: txn = ...scalar_one_or_none(); if txn: f(txn)] *)
Definition update_linked_txn (momo : MoMoPayment)
    (f : Transaction -> Transaction) (db : DB) : DB :=
  match momo_transaction_id momo with
  | Some tid => update_transaction tid f db
  | None => db
  end.

(** The branch [if body.status.lower() == "success"]. *)
Definition callback_success (momo_id : Id) (momo : MoMoPayment)
    (body : MoMoCallbackPayload) (db : DB) : Result DB :=
  let db := update_momo momo_id
              (set_momo_success (cb_provider_reference body)) db in
  match momo_direction momo with
  | COLLECTION =>
      (* Credit wallet for deposits *)
      let* _ := get_one (wallets db) (momo_wallet_id momo) in
      let db := update_wallet (momo_wallet_id momo)
                  (fun w => set_total_deposited
                              (w_total_deposited w + momo_amount momo)
                              (set_balance (w_balance w + momo_amount momo) w))
                  db in
      (* Update transaction *)
      Ok (update_linked_txn momo
            (fun t => set_txn_balance_after
                        (balance_of db (momo_wallet_id momo))
                        (set_txn_status TXN_COMPLETED t)) db)
  | DISBURSEMENT =>
      (* just mark as completed (wallet already debited) *)
      Ok (update_linked_txn momo (set_txn_status TXN_COMPLETED) db)
  end.

(** The branch [elif body.status.lower() in ("failed", "timeout",
    "cancelled")]. *)
Definition callback_failure (momo_id : Id) (momo : MoMoPayment)
    (body : MoMoCallbackPayload) (db : DB) : Result DB :=
  let db := update_momo momo_id (set_momo_failed (failure_reason_of body))
              db in
  (* For failed disbursements, reverse the debit *)
  let* db :=
    match momo_direction momo with
    | DISBURSEMENT =>
        let* _ := get_one (wallets db) (momo_wallet_id momo) in
        let reversal_amount := momo_amount momo + momo_fee momo in
        Ok (update_wallet (momo_wallet_id momo)
              (fun w => set_total_withdrawn
                          (w_total_withdrawn w - momo_amount momo)
                          (set_balance (w_balance w + reversal_amount) w))
              db)
    | COLLECTION => Ok db
    end in
  (* Mark transaction as failed *)
  Ok (update_linked_txn momo (set_txn_status TXN_FAILED) db).

Definition momo_callback (body : MoMoCallbackPayload) (db : DB)
  : Result (DB * string) :=
  (* Find the MoMo payment *)
  let* found :=
    scalar_one_or_none
      (select (fun m => bool_decide (momo_external_transaction_id m
                                     = Some (cb_external_transaction_id body)))
              (momo_payments db)) in
  let* (momo_id, momo) :=
    or_raise found (HTTPException 404 MoMoPaymentNotFound) in
  if bool_decide (momo_status momo = MOMO_SUCCESS)
     || bool_decide (momo_status momo = MOMO_FAILED)
  then Ok (db, "Payment already processed")
  else
    let* db :=
      if bool_decide (lower (cb_status body) = "success") then
        callback_success momo_id momo body db
      else if bool_decide (lower (cb_status body) = "failed")
              || bool_decide (lower (cb_status body) = "timeout")
              || bool_decide (lower (cb_status body) = "cancelled") then
        callback_failure momo_id momo body db
      else Ok db in
    Ok (db, "Callback processed: " +:+ cb_status body).

(** ** The API: requests, dependencies and body validation *)

Inductive Request : Type :=
  | HoldForTrip (trip_id : Id) (user : User)
  | Release (escrow_id : Id) (user : User)
  | Refund (escrow_id : Id) (user : User)
  | OpenDispute (body : OpenDisputeRequest) (user : User)
  | ResolveDispute (dispute_id : Id) (body : ResolveDisputeRequest)
                   (user : User)
  | EscalateDispute (dispute_id : Id) (user : User)
  | Deposit (body : MoMoDepositRequest) (user : User) (hex : string)
  | Withdraw (body : MoMoWithdrawRequest) (user : User) (hex : string)
  | MoMoCallback (body : MoMoCallbackPayload)
  | TripSignal (trip_id : Id) (status : TripStatus).

(** The trip lifecycle is an external collaborator.  Its one effect on the
    settlement tables is the trip's status; [trip_signal] is what
    [PATCH /trips/{id}/status] (trips.py [update_trip_status]) does to it
    when an administrator sends it, for whom every transition is allowed. *)
Definition trip_signal (trip_id : Id) (status : TripStatus) (db : DB) : DB :=
  with_trips db (update trip_id (set_trip_status status) (trips db)).

(** One request: the [Depends(...)] role check, the pydantic validation of
    the body, then the endpoint.  The response is dropped. *)
Definition handle (r : Request) (db : DB) : Result DB :=
  match r with
  | HoldForTrip trip_id user =>
      let* user := require_any_authenticated user in
      let* (db, _) := create_escrow_hold trip_id user db in Ok db
  | Release escrow_id user =>
      let* user := require_any_authenticated user in
      let* (db, _) := release_escrow escrow_id user db in Ok db
  | Refund escrow_id user =>
      let* user := require_system_admin user in
      let* (db, _) := refund_escrow escrow_id user db in Ok db
  | OpenDispute body user =>
      let* user := require_any_authenticated user in
      let* (db, _) := open_dispute body user db in Ok db
  | ResolveDispute dispute_id body user =>
      let* user := require_system_admin user in
      let* _ := raise_if (negb (valid_resolve_request body))
                         (HTTPException 422 ValidationError) in
      let* (db, _) := resolve_dispute dispute_id body user db in Ok db
  | EscalateDispute dispute_id user =>
      let* user := require_any_authenticated user in
      let* (db, _) := escalate_dispute dispute_id user db in Ok db
  | Deposit body user hex =>
      let* user := require_any_authenticated user in
      let* _ := raise_if (negb (valid_deposit_request body))
                         (HTTPException 422 ValidationError) in
      let* (db, _) := deposit_momo body user hex db in Ok db
  | Withdraw body user hex =>
      let* user := require_any_authenticated user in
      let* _ := raise_if (negb (valid_withdraw_request body))
                         (HTTPException 422 ValidationError) in
      let* (db, _) := withdraw_momo body user hex db in Ok db
  | MoMoCallback body =>
      let* (db, _) := momo_callback body db in Ok db
  | TripSignal trip_id status => Ok (trip_signal trip_id status db)
  end.

(** A failed request is rolled back. *)
Definition step (db : DB) (r : Request) : DB :=
  match handle r db with
  | Ok db' => db'
  | Err _ => db
  end.

Definition run (rs : list Request) (db : DB) : DB := foldl step db rs.


(** ** What the ledger and the wallets say about the money *)

Definition sum_with {A : Type} (f : A -> Z) (l : list A) : Z :=
  foldr (fun x acc => f x + acc) 0 l.

(** available + escrow *)
Definition wallet_funds (w : Wallet) : Money :=
  w_balance w + w_escrow_balance w.


Definition completed_of (ty : TransactionType) (t : Transaction) : bool :=
  bool_decide (txn_type t = ty) && bool_decide (txn_status t = TXN_COMPLETED).

(** Cumulative platform commission recorded in the ledger. *)
Definition commission_total (db : DB) : Money :=
  sum_with (fun t => if completed_of COMMISSION t then txn_amount t else 0)
           (transactions db).






(** ** Sample data *)

Definition shipper_user : User := mkUser 1%nat None ["shipper"].
Definition courier_user : User := mkUser 2%nat None ["courier"].
Definition admin_user : User := mkUser 9%nat None ["system_admin"].

(** One shipper wallet funded by a completed deposit of 2,000.00, and one
    trip of 1,000.00 waiting for pickup. *)
Definition sample_db : DB :=
  mkDB [mkWallet 1%nat None 200000 0 200000 0 0 "GHS" ACTIVE]
       [mkTransaction 0%nat DEPOSIT 200000 "GHS" 0 200000 200000 TXN_COMPLETED
          (Some REF_MOMO_PAYMENT) (Some 0%nat)]
       []
       [mkMoMoPayment 0%nat (Some 0%nat) MTN COLLECTION "0241234567" 200000
          "GHS" 0 (Some "MOMO-000000000001") None MOMO_SUCCESS None]
       [] []
       [mkFreightTrip 2%nat PICKUP_PENDING (Some (mkFreightBid 100000 "GHS"))
          (Some (mkFreightListing 0%nat 1%nat))].

(** [released], [refunded] and [partially_released] are terminal. *)
Definition terminal (s : EscrowStatus) : bool :=
  match s with
  | RELEASED | REFUNDED | PARTIALLY_RELEASED => true
  | HELD | DISPUTED => false
  end.

(** A hold is created, the trip is confirmed, the shipper opens a dispute
    and an administrator refunds the hold through [/escrow/{id}/refund]:
    the hold is [refunded], the dispute is still [open]. *)
Definition refunded_db : DB :=
  run [HoldForTrip 0%nat shipper_user; TripSignal 0%nat CONFIRMED;
       OpenDispute (mkOpenDisputeRequest 0%nat LATE_DELIVERY) shipper_user;
       Refund 0%nat admin_user]
      sample_db.

Definition resolve_again_for_shipper : Request :=
  ResolveDispute 0%nat (mkResolveDisputeRequest resolved_shipper None None)
                 admin_user.

Definition resolve_again_split : Request :=
  ResolveDispute 0%nat
    (mkResolveDisputeRequest resolved_split (Some 30000) (Some 40000))
    admin_user.


Definition fmap_result {A B : Type} (f : A -> B) (r : Result A) : Result B :=
  match r with
  | Ok a => Ok (f a)
  | Err e => Err e
  end.

(** The hold exists and the courier is on the road. *)
Definition in_transit_db : DB :=
  run [HoldForTrip 0%nat shipper_user; TripSignal 0%nat IN_TRANSIT] sample_db.

(** No payment row carries the external id [key] yet. *)
Definition external_id_free (db : DB) (key : string) : Prop :=
  forall i m, momo_payments db !! i = Some m ->
              momo_external_transaction_id m <> Some key.



(** The database a deposit request leaves behind: the wallets untouched,
    one [pending] ledger row and one [pending] collection appended. *)
Definition after_deposit (db : DB) (body : MoMoDepositRequest)
    (hex : string) (wid : Id) (w : Wallet) : DB :=
  mkDB (wallets db)
       (transactions db ++
        [mkTransaction wid DEPOSIT (dep_amount body) (dep_currency body) 0
           (dep_amount body) (w_balance w) TXN_PENDING
           (Some REF_MOMO_PAYMENT) (Some (length (momo_payments db)))])
       (escrow_holds db)
       (momo_payments db ++
        [mkMoMoPayment wid (Some (length (transactions db)))
           (dep_provider body) COLLECTION (dep_phone_number body)
           (dep_amount body) (dep_currency body) 0 (Some ("MOMO-" +:+ hex))
           None MOMO_PENDING None])
       (payout_schedules db) (disputes db) (trips db).

(** [momo.status in (MoMoStatus.SUCCESS, MoMoStatus.FAILED)] *)
Definition already_processed (m : MoMoPayment) : bool :=
  bool_decide (momo_status m = MOMO_SUCCESS)
  || bool_decide (momo_status m = MOMO_FAILED).

(** The row the callback's query returns for [body]. *)
Definition payment_of (db : DB) (body : MoMoCallbackPayload)
  : Result (option (Id * MoMoPayment)) :=
  scalar_one_or_none
    (select (fun m => bool_decide (momo_external_transaction_id m
                                   = Some (cb_external_transaction_id body)))
            (momo_payments db)).



(** [sample_db] with a deposit of 200.00 waiting for its callback. *)
Definition pending_deposit_db : DB :=
  after_deposit sample_db
    (mkMoMoDepositRequest 20000 "GHS" MTN "0241234567") "0A1B2C3D4E5F" 0%nat
    (mkWallet 1%nat None 200000 0 200000 0 0 "GHS" ACTIVE).

(** [float(wallet.escrow_balance)] of the wallet [wid], 0 when there is no
    such wallet (as [balance_of] for the available balance). *)
Definition escrow_balance_of (db : DB) (wid : Id) : Money :=
  match wallets db !! wid with
  | Some w => w_escrow_balance w
  | None => 0
  end.

(** What a ledger row says: wallet, kind, amount, status. *)
Definition row_of (t : Transaction)
  : Id * TransactionType * Money * TransactionStatus :=
  (txn_wallet_id t, txn_type t, txn_amount t, txn_status t).



(** [shifted db db' dbal desc rows]: from [db] to [db'] the available
    balance of every wallet [j] changed by [dbal j], its escrow balance by
    [desc j], the ledger gained rows that read [rows], and holds and
    disputes are untouched. *)
Definition shifted (db db' : DB) (dbal desc : Id -> Z)
    (rows : list (Id * TransactionType * Money * TransactionStatus)) : Prop :=
  (forall j, balance_of db' j = balance_of db j + dbal j)
  /\ (forall j, escrow_balance_of db' j = escrow_balance_of db j + desc j)
  /\ (exists ts, transactions db' = transactions db ++ ts
                 /\ map row_of ts = rows)
  /\ escrow_holds db' = escrow_holds db
  /\ disputes db' = disputes db.

(** [delta] at the wallet [wid], nothing elsewhere. *)
Definition at_wallet (wid : Id) (delta : Z) (j : Id) : Z :=
  if decide (j = wid) then delta else 0.

(** The hold exists, the trip is confirmed and the shipper has opened a
    dispute: the hold is [disputed], the dispute [open]. *)
Definition disputed_db : DB :=
  run [HoldForTrip 0%nat shipper_user; TripSignal 0%nat CONFIRMED;
       OpenDispute (mkOpenDisputeRequest 0%nat LATE_DELIVERY) shipper_user]
      sample_db.

(** The database before any money came in: one trip of 1,000.00 waiting
    for pickup, no wallet yet. *)
Definition initial_db : DB :=
  mkDB [] [] [] [] [] [] (trips sample_db).

(** ** Further observations *)

(** [funds_shifted db db' dbal desc rows]: as [shifted], for the wallets and
    the ledger alone. *)
Definition funds_shifted (db db' : DB) (dbal desc : Id -> Z)
    (rows : list (Id * TransactionType * Money * TransactionStatus)) : Prop :=
  (forall j, balance_of db' j = balance_of db j + dbal j)
  /\ (forall j, escrow_balance_of db' j = escrow_balance_of db j + desc j)
  /\ (exists ts, transactions db' = transactions db ++ ts
                 /\ map row_of ts = rows).

(** A hold is made for the trip of [sample_db] while the courier has no
    wallet; the courier then makes a first deposit, which creates one, and
    the trip is confirmed. *)
Definition courier_joined_db : DB :=
  run [HoldForTrip 0%nat shipper_user;
       Deposit (mkMoMoDepositRequest 5000 "GHS" MTN "0201234567")
               courier_user "0000000000C2";
       TripSignal 0%nat CONFIRMED]
      sample_db.

(** ** Well-formed databases

    No wallet has a negative available balance, and no amount on record
    is negative: the bid prices, the amounts of the holds, the amounts and
    fees of the mobile-money payments. *)
Definition sound (db : DB) : bool :=
  forallb (fun w => 0 <=? w_balance w) (wallets db)
  && forallb (fun e => 0 <=? esc_amount e) (escrow_holds db)
  && forallb (fun m => (0 <=? momo_amount m) && (0 <=? momo_fee m))
             (momo_payments db)
  && forallb (fun t => match trip_bid t with
                       | Some b => 0 <=? bid_price b
                       | None => true
                       end)
             (trips db).

(** What a ledger row records about the movement itself: every column but
    the status, the balance after and the reference. *)
Definition ledger_entry (t : Transaction)
  : Id * TransactionType * Money * string * Money * Money :=
  (txn_wallet_id t, txn_type t, txn_amount t, txn_currency t, txn_fee t,
   txn_net_amount t).

(** [db'] has the ledger of [db], possibly with rows appended and with the
    status, the balance after or the reference of old rows changed. *)
Definition ledger_extends (db db' : DB) : Prop :=
  exists k, map ledger_entry (transactions db')
            = map ledger_entry (transactions db) ++ k.

(** [db'] still has every processed payment of [db], unchanged and under
    the same primary key. *)
Definition processed_kept (db db' : DB) : Prop :=
  forall i m, momo_payments db !! i = Some m -> already_processed m = true ->
              momo_payments db' !! i = Some m.

(** ** Enum values (models/wallet.py)

    Every enum is a [class X(str, enum.Enum)]; [X_value] is [.value] and
    [enum_of_value] is the constructor [X(value)], which looks the member
    up by its value. *)

Definition TransactionType_value (t : TransactionType) : string :=
  match t with
  | DEPOSIT => "deposit"
  | WITHDRAWAL => "withdrawal"
  | ESCROW_HOLD => "escrow_hold"
  | ESCROW_RELEASE => "escrow_release"
  | ESCROW_REFUND => "escrow_refund"
  | COMMISSION => "commission"
  | TRANSFER_IN => "transfer_in"
  | TRANSFER_OUT => "transfer_out"
  | ADJUSTMENT => "adjustment"
  end.

Definition TransactionType_members : list TransactionType :=
  [DEPOSIT; WITHDRAWAL; ESCROW_HOLD; ESCROW_RELEASE; ESCROW_REFUND;
   COMMISSION; TRANSFER_IN; TRANSFER_OUT; ADJUSTMENT].

Definition TransactionStatus_value (s : TransactionStatus) : string :=
  match s with
  | TXN_PENDING => "pending"
  | TXN_PROCESSING => "processing"
  | TXN_COMPLETED => "completed"
  | TXN_FAILED => "failed"
  | TXN_REVERSED => "reversed"
  end.

Definition TransactionStatus_members : list TransactionStatus :=
  [TXN_PENDING; TXN_PROCESSING; TXN_COMPLETED; TXN_FAILED; TXN_REVERSED].

Definition EscrowStatus_value (s : EscrowStatus) : string :=
  match s with
  | HELD => "held"
  | RELEASED => "released"
  | REFUNDED => "refunded"
  | DISPUTED => "disputed"
  | PARTIALLY_RELEASED => "partially_released"
  end.

Definition EscrowStatus_members : list EscrowStatus :=
  [HELD; RELEASED; REFUNDED; DISPUTED; PARTIALLY_RELEASED].

Definition DisputeStatus_value (s : DisputeStatus) : string :=
  match s with
  | OPEN => "open"
  | UNDER_REVIEW => "under_review"
  | RESOLVED_SHIPPER => "resolved_shipper"
  | RESOLVED_COURIER => "resolved_courier"
  | RESOLVED_SPLIT => "resolved_split"
  | ESCALATED => "escalated"
  | DISPUTE_CLOSED => "closed"
  end.

Definition DisputeStatus_members : list DisputeStatus :=
  [OPEN; UNDER_REVIEW; RESOLVED_SHIPPER; RESOLVED_COURIER; RESOLVED_SPLIT;
   ESCALATED; DISPUTE_CLOSED].

Definition DisputeReason_value (r : DisputeReason) : string :=
  match r with
  | DAMAGED_GOODS => "damaged_goods"
  | MISSING_ITEMS => "missing_items"
  | LATE_DELIVERY => "late_delivery"
  | WRONG_DELIVERY => "wrong_delivery"
  | NO_DELIVERY => "no_delivery"
  | OVERCHARGE => "overcharge"
  | FRAUD => "fraud"
  | OTHER => "other"
  end.

Definition WalletStatus_value (s : WalletStatus) : string :=
  match s with
  | ACTIVE => "active"
  | FROZEN => "frozen"
  | CLOSED => "closed"
  end.

(** [X(value)]: the member whose value is [s]; [None] stands for the
    [ValueError] raised when there is none. *)
Definition enum_of_value {E : Type} (members : list E) (value : E -> string)
    (s : string) : option E :=
  find (fun e => bool_decide (value e = s)) members.

(** ** What the read endpoints and trips.py raise

    Besides the errors of the settlement endpoints: the [ValueError] of an
    enum constructor, which no handler catches, and the HTTP errors with
    the details below. *)

Inductive FurtherDetail : Type :=
  | NotAuthorisedToViewDispute
  | NotAuthorised
  | InvalidTransition (current new : TripStatus)
  | CouriersCannotSetStatus (new : TripStatus)
  | ShippersCannotSetStatus (new : TripStatus)
  | ProofOfDeliveryRequired.

Inductive Exception : Type :=
  | Settlement (e : Error)
  | HTTPError (status_code : Z) (detail : FurtherDetail)
  | ValueError.

Inductive Outcome (A : Type) : Type :=
  | Returned (a : A)
  | Raised (e : Exception).
Arguments Returned {A} a.
Arguments Raised {A} e.

Definition obind {A B : Type} (m : Outcome A) (k : A -> Outcome B)
  : Outcome B :=
  match m with
  | Returned a => k a
  | Raised e => Raised e
  end.

Notation "'let+' x ':=' m 'in' k" := (obind m (fun x => k))
  (at level 10, x pattern, m at level 100, k at level 200).

Definition lift {A : Type} (r : Result A) : Outcome A :=
  match r with
  | Ok a => Returned a
  | Err e => Raised (Settlement e)
  end.

(** [if cond: raise e] *)
Definition oraise_if (cond : bool) (e : Exception) : Outcome unit :=
  if cond then Raised e else Returned tt.

(** [str.upper()] on the ASCII letters. *)
Definition upper_ascii (c : ascii) : ascii :=
  let n := N_of_ascii c in
  if ((97 <=? n) && (n <=? 122))%N then ascii_of_N (n - 32) else c.

Fixpoint upper (s : string) : string :=
  match s with
  | EmptyString => EmptyString
  | String c s' => String (upper_ascii c) (upper s')
  end.

(** [if q: stmt = stmt.where(column == X(q.lower()))] for an optional query
    parameter [q]: no condition when [q] is absent or empty. *)
Definition where_enum {E A : Type} `{EqDecision E} (members : list E)
    (value : E -> string) (column : A -> E) (q : option string)
  : Outcome (A -> bool) :=
  match q with
  | None => Returned (fun _ => true)
  | Some s =>
      if bool_decide (s = "") then Returned (fun _ => true)
      else match enum_of_value members value (lower s) with
           | Some e => Returned (fun row => bool_decide (column row = e))
           | None => Raised ValueError
           end
  end.

(** [stmt.offset((page - 1) * per_page).limit(per_page)] *)
Definition paginate {A : Type} (page per_page : Z) (rows : list A) : list A :=
  take (Z.to_nat per_page) (drop (Z.to_nat ((page - 1) * per_page)) rows).

(** [page: int = Query(1, ge=1)], [per_page: int = Query(20, ge=1, le=100)] *)
Definition valid_page (page per_page : Z) : bool :=
  (1 <=? page) && (1 <=? per_page) && (per_page <=? 100).

(** [float(x) if x else None]: an amount of zero reads as no amount. *)
Definition float_if_truthy (x : option Money) : option Money :=
  match x with
  | Some v => if bool_decide (v = 0) then None else Some v
  | None => None
  end.

(** ** Responses of the read endpoints (schemas/wallet.py) *)

Record WalletResponse : Type := mkWalletResponse {
  wres_id : Id;
  wres_user_id : Id;
  wres_balance : Money;
  wres_escrow_balance : Money;
  wres_total_deposited : Money;
  wres_total_withdrawn : Money;
  wres_total_earned : Money;
  wres_currency : string;
  wres_status : string
}.

Record WalletSummary : Type := mkWalletSummary {
  ws_balance : Money;
  ws_escrow_balance : Money;
  ws_currency : string;
  ws_status : string
}.

Record TransactionResponse : Type := mkTransactionResponse {
  tres_id : Id;
  tres_wallet_id : Id;
  tres_type : string;
  tres_amount : Money;
  tres_currency : string;
  tres_fee : Money;
  tres_net_amount : Money;
  tres_balance_after : Money;
  tres_status : string;
  tres_reference_type : option ReferenceType;
  tres_reference_id : option Id
}.

Record TransactionListResponse : Type := mkTransactionListResponse {
  tlr_transactions : list TransactionResponse;
  tlr_total : nat;
  tlr_page : Z;
  tlr_per_page : Z
}.

(** [EscrowHoldResponse] as [list_escrow_holds] fills it, with the two
    optional amounts. *)
Record EscrowHoldItem : Type := mkEscrowHoldItem {
  ehi_id : Id;
  ehi_trip_id : Id;
  ehi_listing_id : Id;
  ehi_amount : Money;
  ehi_currency : string;
  ehi_platform_commission_rate : Rate;
  ehi_platform_commission_amount : option Money;
  ehi_courier_payout_amount : option Money;
  ehi_status : string
}.

Record EscrowListResponse : Type := mkEscrowListResponse {
  elr_escrow_holds : list EscrowHoldItem;
  elr_total : nat
}.

Record DisputeResponse : Type := mkDisputeResponse {
  dres_id : Id;
  dres_trip_id : Id;
  dres_escrow_id : Id;
  dres_raised_by_user_id : Id;
  dres_against_user_id : Id;
  dres_reason : string;
  dres_status : string;
  dres_shipper_refund_amount : option Money;
  dres_courier_payout_amount : option Money
}.

Record DisputeListResponse : Type := mkDisputeListResponse {
  dlr_disputes : list DisputeResponse;
  dlr_total : nat
}.

(** wallets.py [build_wallet_response] *)
Definition build_wallet_response (row : Id * Wallet) : WalletResponse :=
  let (id, wallet) := row in
  mkWalletResponse id (w_user_id wallet) (w_balance wallet)
    (w_escrow_balance wallet) (w_total_deposited wallet)
    (w_total_withdrawn wallet) (w_total_earned wallet) (w_currency wallet)
    (WalletStatus_value (w_status wallet)).

(** wallets.py [build_transaction_response] *)
Definition build_transaction_response (row : Id * Transaction)
  : TransactionResponse :=
  let (id, txn) := row in
  mkTransactionResponse id (txn_wallet_id txn)
    (TransactionType_value (txn_type txn)) (txn_amount txn)
    (txn_currency txn) (txn_fee txn) (txn_net_amount txn)
    (txn_balance_after txn) (TransactionStatus_value (txn_status txn))
    (txn_reference_type txn) (txn_reference_id txn).

(** The [EscrowHoldResponse(...)] of [list_escrow_holds]. *)
Definition build_escrow_item (row : Id * EscrowHold) : EscrowHoldItem :=
  let (id, h) := row in
  mkEscrowHoldItem id (esc_trip_id h) (esc_listing_id h) (esc_amount h)
    (esc_currency h) (esc_platform_commission_rate h)
    (float_if_truthy (esc_platform_commission_amount h))
    (float_if_truthy (esc_courier_payout_amount h))
    (EscrowStatus_value (esc_status h)).

(** escrow.py [build_dispute_response] *)
Definition build_dispute_response (row : Id * Dispute) : DisputeResponse :=
  let (id, d) := row in
  mkDisputeResponse id (dsp_trip_id d) (dsp_escrow_id d)
    (dsp_raised_by_user_id d) (dsp_against_user_id d)
    (DisputeReason_value (dsp_reason d)) (DisputeStatus_value (dsp_status d))
    (float_if_truthy (dsp_shipper_refund_amount d))
    (float_if_truthy (dsp_courier_payout_amount d)).

(** ** GET /wallets/me and GET /wallets/me/summary *)

Definition get_my_wallet (currency : string) (user : User) (db : DB)
  : Result (DB * WalletResponse) :=
  let* (db, wallet) := get_or_create_wallet db user (upper currency) in
  Ok (db, build_wallet_response wallet).

Definition wallet_summary (user : User) (db : DB)
  : Result (DB * WalletSummary) :=
  let* (db, (_, wallet)) := get_or_create_wallet db user "GHS" in
  Ok (db, mkWalletSummary (w_balance wallet) (w_escrow_balance wallet)
            (w_currency wallet) (WalletStatus_value (w_status wallet))).

(** ** The listings

    [order_by_created_at A desc rows] is [stmt.order_by(created_at.asc())]
    ([desc = false]) or [.desc()] ([desc = true]) on the rows selected.
    The timestamps are not part of the rows modelled, so the order is a
    parameter; it is only ever assumed to permute the rows. *)
Section Listings.

Variable order_by_created_at :
  forall A : Type, bool -> list (Id * A) -> list (Id * A).

(** GET /wallets/me/transactions *)
Definition list_transactions (type_query status_query : option string)
    (sort_order : string) (page per_page : Z) (user : User) (db : DB)
  : Outcome (DB * TransactionListResponse) :=
  let+ (db, (wallet_id, _)) := lift (get_or_create_wallet db user "GHS") in
  let+ by_type :=
    where_enum TransactionType_members TransactionType_value txn_type
               type_query in
  let+ by_status :=
    where_enum TransactionStatus_members TransactionStatus_value txn_status
               status_query in
  let stmt :=
    select (fun t => bool_decide (txn_wallet_id t = wallet_id)
                     && by_type t && by_status t)
           (transactions db) in
  (* Count *)
  let total := length stmt in
  (* Order and paginate *)
  let stmt :=
    order_by_created_at _ (negb (bool_decide (lower sort_order = "asc")))
                        stmt in
  let transactions := paginate page per_page stmt in
  Returned (db, mkTransactionListResponse
                  (map build_transaction_response transactions)
                  total page per_page).

(** GET /wallets/me/escrow-holds *)
Definition list_escrow_holds (escrow_status : option string) (user : User)
    (db : DB) : Outcome (DB * EscrowListResponse) :=
  let+ (db, (wallet_id, _)) := lift (get_or_create_wallet db user "GHS") in
  let+ by_status :=
    where_enum EscrowStatus_members EscrowStatus_value esc_status
               escrow_status in
  let holds :=
    order_by_created_at _ true
      (select (fun h => (bool_decide (esc_shipper_wallet_id h = wallet_id)
                         || bool_decide (esc_courier_wallet_id h
                                         = Some wallet_id))
                        && by_status h)
              (escrow_holds db)) in
  let items := map build_escrow_item holds in
  Returned (db, mkEscrowListResponse items (length items)).

(** GET /disputes *)
Definition list_disputes (dispute_status : option string) (page per_page : Z)
    (user : User) (db : DB) : Outcome DisputeListResponse :=
  let is_admin := is_admin user in
  let+ by_status :=
    where_enum DisputeStatus_members DisputeStatus_value dsp_status
               dispute_status in
  let stmt :=
    select (fun d => (is_admin
                      || bool_decide (dsp_raised_by_user_id d = user_id user)
                      || bool_decide (dsp_against_user_id d = user_id user))
                     && by_status d)
           (disputes db) in
  let stmt := order_by_created_at _ true stmt in
  let disputes := paginate page per_page stmt in
  Returned (mkDisputeListResponse (map build_dispute_response disputes)
                                  (length disputes)).

End Listings.

(** GET /disputes/{id} *)
Definition get_dispute (dispute_id : Id) (user : User) (db : DB)
  : Outcome DisputeResponse :=
  let+ dispute :=
    lift (or_raise (disputes db !! dispute_id)
                   (HTTPException 404 DisputeNotFound)) in
  (* Auth check *)
  let is_party :=
    bool_decide (user_id user = dsp_raised_by_user_id dispute)
    || bool_decide (user_id user = dsp_against_user_id dispute) in
  let+ _ := oraise_if (negb (is_admin user || is_party))
                      (HTTPError 403 NotAuthorisedToViewDispute) in
  Returned (build_dispute_response (dispute_id, dispute)).

(** ** The trip lifecycle (trips.py, schemas/freight.py) *)

Definition TRIP_STATUS_TRANSITIONS (current : TripStatus) : list TripStatus :=
  match current with
  | PICKUP_PENDING => [PICKED_UP; TRIP_CANCELLED]
  | PICKED_UP => [IN_TRANSIT; TRIP_CANCELLED]
  | IN_TRANSIT => [AT_WAYPOINT; DELIVERED]
  | AT_WAYPOINT => [IN_TRANSIT; DELIVERED]
  | DELIVERED => [CONFIRMED; TRIP_DISPUTED]
  | CONFIRMED => []
  | TRIP_DISPUTED => [CONFIRMED; TRIP_CANCELLED]
  | TRIP_CANCELLED => []
  end.

Definition courier_ok : list TripStatus :=
  [PICKED_UP; IN_TRANSIT; AT_WAYPOINT; DELIVERED; TRIP_CANCELLED].

Definition shipper_ok : list TripStatus :=
  [CONFIRMED; TRIP_DISPUTED; TRIP_CANCELLED].

(** The body, with [status] already validated and lower-cased. *)
Record UpdateTripStatusRequest : Type := mkUpdateTripStatusRequest {
  uts_status : TripStatus;
  uts_proof_of_delivery_url : option string
}.

Record UpdateTripStatusResponse : Type := mkUpdateTripStatusResponse {
  utr_trip_id : Id;
  utr_previous_status : TripStatus;
  utr_new_status : TripStatus
}.

(** [not url] *)
Definition no_url (url : option string) : bool :=
  match url with
  | Some s => bool_decide (s = "")
  | None => true
  end.

(** PATCH /trips/{id}/status.  [stored_proof] is the trip's
    [proof_of_delivery_url], a column the settlement code never reads and
    [FreightTrip] does not carry; the writes to it, to the position, the
    notes, the timestamps and the listing's status are left out with it. *)
Definition update_trip_status (trip_id : Id) (body : UpdateTripStatusRequest)
    (user : User) (stored_proof : option string) (db : DB)
  : Outcome (DB * UpdateTripStatusResponse) :=
  let+ trip := lift (or_raise (trips db !! trip_id)
                              (HTTPException 404 TripNotFound)) in
  let is_admin := is_admin user in
  let is_courier := bool_decide (trip_courier_id trip = user_id user) in
  let is_shipper :=
    match trip_listing trip with
    | Some l => bool_decide (listing_shipper_id l = user_id user)
    | None => false
    end in
  let+ _ := oraise_if (negb (is_courier || is_shipper || is_admin))
                      (HTTPError 403 NotAuthorised) in
  let current := trip_status trip in
  let new := uts_status body in
  let allowed := TRIP_STATUS_TRANSITIONS current in
  let+ _ := oraise_if (bool_decide (new ∉ allowed) && negb is_admin)
                      (HTTPError 400 (InvalidTransition current new)) in
  let+ _ :=
    if negb is_admin then
      let+ _ := oraise_if (is_courier && bool_decide (new ∉ courier_ok))
                          (HTTPError 403 (CouriersCannotSetStatus new)) in
      oraise_if (is_shipper && negb is_courier
                 && bool_decide (new ∉ shipper_ok))
                (HTTPError 403 (ShippersCannotSetStatus new))
    else Returned tt in
  let+ _ := oraise_if (bool_decide (new = DELIVERED)
                       && no_url (uts_proof_of_delivery_url body)
                       && no_url stored_proof)
                      (HTTPError 400 ProofOfDeliveryRequired) in
  let previous := current in
  let db := with_trips db (update trip_id (set_trip_status new) (trips db)) in
  Returned (db, mkUpdateTripStatusResponse trip_id previous new).

(** POST /trips/{id}/confirm-delivery *)
Definition confirm_delivery (trip_id : Id) (user : User)
    (stored_proof : option string) (db : DB)
  : Outcome (DB * UpdateTripStatusResponse) :=
  update_trip_status trip_id (mkUpdateTripStatusRequest CONFIRMED None) user
                     stored_proof db.

(** The order when timestamps strictly increase along each table: rows
    are appended, so ascending [created_at] is the order of the table. *)
Definition insertion_order (A : Type) (desc : bool) (rows : list (Id * A))
  : list (Id * A) :=
  if desc then reverse rows else rows.

(** * Verification *)

(** ** The result monad *)

Lemma bind_Ok {A B : Type} (m : Result A) (k : A -> Result B) (b : B) :
  bind m k = Ok b -> exists a, m = Ok a /\ k a = Ok b.
Proof. destruct m as [a|e]; simpl; [eauto | discriminate]. Qed.

Lemma raise_if_Ok (c : bool) (e : Error) (u : unit) :
  raise_if c e = Ok u -> c = false.
Proof. destruct c; simpl; [discriminate | reflexivity]. Qed.

Lemma or_raise_Ok {A : Type} (o : option A) (e : Error) (a : A) :
  or_raise o e = Ok a -> o = Some a.
Proof. destruct o; simpl; congruence. Qed.

Lemma get_one_Ok {A : Type} (t : list A) (i : Id) (a : A) :
  get_one t i = Ok a -> t !! i = Some a.
Proof. apply or_raise_Ok. Qed.

(** Peel the successful prefix of an endpoint off a hypothesis
    [endpoint .. = Ok ..]. *)
Ltac bind_inv H :=
  repeat (cbv zeta in H;
    match type of H with
    | bind _ _ = Ok _ =>
        let a := fresh "a" in
        let Ha := fresh "Ha" in
        apply bind_Ok in H as (a & Ha & H);
        try (apply raise_if_Ok in Ha);
        try (apply or_raise_Ok in Ha);
        try (apply get_one_Ok in Ha);
        try (match type of Ha with ?v = Some _ => is_var v; subst v end)
    | (let (_, _) := ?p in _) = Ok _ => destruct p
    | (let '(_, _) := ?p in _) = Ok _ => destruct p
    end).

Lemma RoleChecker_Ok (required_roles : list string) (user u : User) :
  RoleChecker required_roles user = Ok u -> u = user.
Proof.
  unfold RoleChecker. destruct (raise_if _ _); simpl; congruence.
Qed.

(** ** Decimal arithmetic *)

Lemma round2_id (x : Money) : round2 x = x.
Proof.
  unfold round2, py_round. rewrite Z.mod_1_r, Z.div_1_r. reflexivity.
Qed.

(** [py_round n d] is an integer nearest to [n / d]. *)
Lemma py_round_nearest (n d : Z) :
  0 < d -> Z.abs (2 * (d * py_round n d - n)) <= d.
Proof.
  intros Hd. unfold py_round.
  pose proof (Z.div_mod n d ltac:(lia)) as Hdm.
  pose proof (Z.mod_pos_bound n d Hd) as Hb.
  destruct (Z.compare_spec (2 * (n mod d)) d); try destruct (Z.even _); lia.
Qed.

Lemma py_round_exact (q d : Z) : 0 < d -> py_round (q * d) d = q.
Proof.
  intros Hd. unfold py_round.
  rewrite Z.mod_mul, Z.div_mul by lia.
  destruct (Z.compare_spec (2 * 0) d); try lia.
Qed.

(** ** Tables *)

Lemma length_update {A : Type} (i : Id) (f : A -> A) (t : list A) :
  length (update i f t) = length t.
Proof. unfold update. destruct (t !! i); [apply length_insert | done]. Qed.

Lemma lookup_update {A : Type} (i j : Id) (f : A -> A) (t : list A) :
  update i f t !! j
  = if bool_decide (i = j) then f <$> (t !! j) else t !! j.
Proof.
  unfold update. destruct (t !! i) as [r|] eqn:Hi.
  - case_bool_decide as Hij.
    + subst j. rewrite Hi. simpl.
      apply list_lookup_insert_eq. eapply lookup_lt_Some; eauto.
    + by apply list_lookup_insert_ne.
  - case_bool_decide as Hij; [subst j; by rewrite Hi | done].
Qed.

Lemma lookup_update_eq {A : Type} (i : Id) (f : A -> A) (t : list A) :
  update i f t !! i = f <$> (t !! i).
Proof. rewrite lookup_update. by rewrite bool_decide_eq_true_2. Qed.

Lemma lookup_update_ne {A : Type} (i j : Id) (f : A -> A) (t : list A) :
  i <> j -> update i f t !! j = t !! j.
Proof. intros. rewrite lookup_update. by rewrite bool_decide_eq_false_2. Qed.



Lemma sum_with_insert {A : Type} (g : A -> Z) (l : list A) (i : nat) (x y : A) :
  l !! i = Some x -> sum_with g (<[i := y]> l) = sum_with g l + (g y - g x).
Proof.
  revert i. induction l as [|z l IH]; intros [|i] Hi; simpl in *; try done.
  - injection Hi as ->. unfold sum_with. simpl. lia.
  - specialize (IH i Hi). unfold sum_with in *. simpl. lia.
Qed.


Lemma sum_with_update_same {A : Type} (g : A -> Z) (f : A -> A)
    (l : list A) (i : Id) :
  (forall x, g (f x) = g x) -> sum_with g (update i f l) = sum_with g l.
Proof.
  intros Hf. unfold update. destruct (l !! i) as [x|] eqn:Hx; [|done].
  rewrite (sum_with_insert g l i x) by done. rewrite Hf. lia.
Qed.


Lemma select_from_app {A : Type} (P : A -> bool) (i : nat) (l1 l2 : list A) :
  select_from P i (l1 ++ l2)
  = select_from P i l1 ++ select_from P (i + length l1)%nat l2.
Proof.
  revert i. induction l1 as [|x l1 IH]; intros i; simpl.
  - by rewrite Nat.add_0_r.
  - rewrite IH, <- app_assoc.
    by replace (S i + length l1)%nat with (i + S (length l1))%nat by lia.
Qed.

Lemma select_snoc {A : Type} (P : A -> bool) (l : list A) (x : A) :
  select P (l ++ [x])
  = select P l ++ (if P x then [(length l, x)] else []).
Proof.
  unfold select. rewrite select_from_app. simpl. by rewrite app_nil_r.
Qed.

Lemma select_from_elem {A : Type} (P : A -> bool) (i : nat) (l : list A)
    (j : nat) (x : A) :
  (j, x) ∈ select_from P i l
  <-> (i <= j)%nat /\ l !! (j - i)%nat = Some x /\ P x = true.
Proof.
  revert i. induction l as [|y l IH]; intros i; simpl.
  - split; [by intros ?%elem_of_nil | by intros (_ & ? & _)].
  - rewrite elem_of_app, IH. split.
    + intros [Hin | (Hle & Hl & HP)].
      * destruct (P y) eqn:HPy; [|by apply elem_of_nil in Hin].
        apply list_elem_of_singleton in Hin. injection Hin as -> ->.
        rewrite Nat.sub_diag. done.
      * split; [lia|]. split; [|done].
        replace (j - i)%nat with (S (j - S i)) by lia. done.
    + intros (Hle & Hl & HP).
      destruct (decide (j = i)) as [->|Hne].
      * rewrite Nat.sub_diag in Hl. simpl in Hl. injection Hl as ->.
        left. rewrite HP. by apply list_elem_of_singleton.
      * right. split; [lia|]. split; [|done].
        replace (j - i)%nat with (S (j - S i)) in Hl by lia. done.
Qed.

(** A selected row is a row of the table, under its primary key. *)
Lemma select_elem {A : Type} (P : A -> bool) (l : list A) (j : nat) (x : A) :
  (j, x) ∈ select P l <-> l !! j = Some x /\ P x = true.
Proof.
  unfold select. rewrite select_from_elem, Nat.sub_0_r.
  split; [tauto | intros; split; [lia | tauto]].
Qed.

Lemma scalar_one_or_none_Some {A : Type} (rows : list A) (r : A) :
  scalar_one_or_none rows = Ok (Some r) -> rows = [r].
Proof. destruct rows as [|? [|? ?]]; simpl; congruence. Qed.

Lemma scalar_select_Some {A : Type} (P : A -> bool) (l : list A) (j : Id)
    (x : A) :
  scalar_one_or_none (select P l) = Ok (Some (j, x)) ->
  l !! j = Some x /\ P x = true.
Proof.
  intros H%scalar_one_or_none_Some. apply select_elem. rewrite H.
  by apply list_elem_of_singleton.
Qed.

Lemma scalar_one_or_none_None {A : Type} (rows : list A) :
  scalar_one_or_none rows = Ok None -> rows = [].
Proof. destruct rows as [|? [|? ?]]; simpl; congruence. Qed.

(** ** Conservation of money under the escrow requests *)

Arguments update : simpl never.
Arguments sum_with : simpl never.
Arguments round2_mul : simpl never.
Arguments round2 : simpl never.

Lemma add_wallet_Ok db w db' wid :
  add_wallet db w = Ok (db', wid) ->
  db' = with_wallets db (wallets db ++ [w]) /\ wid = length (wallets db).
Proof.
  unfold add_wallet. destruct (select _ _); [|discriminate].
  intros [= <- <-]. done.
Qed.


Lemma lookup_snoc_length {A} (l : list A) (x : A) : (l ++ [x]) !! length l = Some x.
Proof. by rewrite list_lookup_middle. Qed.

Lemma get_wallet_for_user_Some db uid currency wid w :
  get_wallet_for_user db uid currency = Ok (Some (wid, w)) ->
  wallets db !! wid = Some w /\ w_user_id w = uid /\ w_currency w = currency.
Proof.
  intros [Hw HP]%scalar_select_Some.
  unfold same_user_currency in HP.
  apply andb_true_iff in HP as [?%bool_decide_eq_true ?%bool_decide_eq_true].
  done.
Qed.









Lemma ensure_courier_wallet_Ok cw trip currency db db' cid :
  ensure_courier_wallet cw trip currency db = Ok (db', cid) ->
  (cw = Some cid /\ db' = db) \/
  (exists w, wallet_funds w = 0 /\ cid = length (wallets db)
             /\ db' = with_wallets db (wallets db ++ [w])).
Proof.
  unfold ensure_courier_wallet. destruct cw as [c|].
  - intros [= <- <-]. by left.
  - destruct trip as [t|]; [|discriminate].
    intros [-> ->]%add_wallet_Ok. right. eexists. split; [|done]. done.
Qed.


















(** ** Sample data *)

(** [sample_db] is what a deposit of 2,000.00 and its success callback
    make of [initial_db]. *)
Lemma sample_db_reachable :
  run [Deposit (mkMoMoDepositRequest 200000 "GHS" MTN "0241234567")
         shipper_user "000000000001";
       MoMoCallback
         (mkMoMoCallbackPayload "MOMO-000000000001" "SUCCESS" None None None)]
      initial_db
  = sample_db.
Proof. by vm_compute. Qed.

(** The example of the release: a hold of 1,000.00 at 5 % pays the courier
    950.00, logs 50.00 of commission and empties the shipper's escrow. *)
Lemma release_example :
  let db := run [HoldForTrip 0%nat shipper_user; TripSignal 0%nat CONFIRMED;
                 Release 0%nat shipper_user] sample_db in
  escrow_balance_of db 0%nat = 0
  /\ balance_of db 1%nat = 95000
  /\ commission_total db = 5000
  /\ esc_status <$> escrow_holds db !! 0%nat = Some RELEASED.
Proof. by vm_compute. Qed.

(** ** Hold states *)

Lemma release_requires_held escrow_id user db e :
  escrow_holds db !! escrow_id = Some e -> esc_status e <> HELD ->
  release_escrow escrow_id user db = Err (HTTPException 400 EscrowNotHeld).
Proof.
  intros He Hs. unfold release_escrow. rewrite He. simpl.
  by rewrite bool_decide_eq_true_2.
Qed.

Lemma refund_requires_held_or_disputed escrow_id user db e :
  escrow_holds db !! escrow_id = Some e -> terminal (esc_status e) = true ->
  refund_escrow escrow_id user db
  = Err (HTTPException 400 CannotRefundEscrow).
Proof.
  intros He Hs. unfold refund_escrow. rewrite He. simpl.
  by destruct (esc_status e).
Qed.

(** Opening a dispute never touches a hold that is not [held]. *)
Lemma open_dispute_keeps_terminal body user db db' r i e :
  open_dispute body user db = Ok (db', r) ->
  escrow_holds db !! i = Some e -> terminal (esc_status e) = true ->
  escrow_holds db' !! i = Some e /\ wallets db' = wallets db.
Proof.
  intros H He Ht. unfold open_dispute in H. bind_inv H.
  injection H as <- <-.
  match goal with
  | |- context [bool_decide (esc_status ?e' = HELD)] =>
      destruct (bool_decide (esc_status e' = HELD)) eqn:Hheld
  end; simpl; [|done].
  split; [|done]. apply bool_decide_eq_true in Hheld.
  match goal with
  | Hsel : scalar_one_or_none (select _ (escrow_holds db)) = Ok (Some _)
    |- _ => apply scalar_select_Some in Hsel as [Hj _]
  end.
  match type of Hj with
  | _ !! ?j = _ => destruct (decide (j = i)) as [->|Hne]
  end.
  - assert (e0 = e) as -> by congruence. by rewrite Hheld in Ht.
  - by rewrite lookup_update_ne.
Qed.

(** C2. Terminal-hold immutability fails on the dispute path: the hold of
    [refunded_db] is already refunded, release and refund are rejected on
    it, yet resolving the dispute that is still open settles the hold a
    second time, changes its status and moves funds. *)
Theorem C2_resolve_dispute_resettles_terminal_hold :
  (* the hold is refunded and the shipper has all the money back *)
  esc_status <$> escrow_holds refunded_db !! 0%nat = Some REFUNDED
  /\ (w_balance <$> wallets refunded_db !! 0%nat = Some 200000
      /\ w_escrow_balance <$> wallets refunded_db !! 0%nat = Some 0)
  (* release and refund: rejected, required source state *)
  /\ handle (Release 0%nat admin_user) refunded_db
     = Err (HTTPException 400 EscrowNotHeld)
  /\ handle (Refund 0%nat admin_user) refunded_db
     = Err (HTTPException 400 CannotRefundEscrow)
  (* resolve in the shipper's favour: refunded a second time *)
  /\ (let db' := step refunded_db resolve_again_for_shipper in
      esc_status <$> escrow_holds db' !! 0%nat = Some REFUNDED
      /\ w_balance <$> wallets db' !! 0%nat = Some 300000
      /\ w_escrow_balance <$> wallets db' !! 0%nat = Some (-100000))
  (* resolve as a split: the status changes, both parties are paid *)
  /\ (let db' := step refunded_db resolve_again_split in
      esc_status <$> escrow_holds db' !! 0%nat = Some PARTIALLY_RELEASED
      /\ w_balance <$> wallets db' !! 0%nat = Some 230000
      /\ w_escrow_balance <$> wallets db' !! 0%nat = Some (-100000)
      /\ w_balance <$> wallets db' !! 1%nat = Some 40000).
Proof. vm_compute. repeat split; reflexivity. Qed.

(** ** The commission rate *)

(** Hold creation stores [PLATFORM_COMMISSION_RATE] on the new hold. *)
Lemma create_escrow_hold_stores_rate trip_id user db db' r :
  create_escrow_hold trip_id user db = Ok (db', r) ->
  exists e, escrow_holds db' = escrow_holds db ++ [e]
    /\ ehr_id r = length (escrow_holds db)
    /\ esc_trip_id e = trip_id
    /\ esc_status e = HELD
    /\ esc_platform_commission_rate e = PLATFORM_COMMISSION_RATE.
Proof.
  intros H. unfold create_escrow_hold in H. bind_inv H.
  injection H as <- <-. simpl. eexists. split; [reflexivity|]. done.
Qed.



(** ** No double hold *)

Lemma select_from_nil {A : Type} (P : A -> bool) (k : nat) (l : list A) :
  (forall j x, l !! j = Some x -> P x = false) -> select_from P k l = [].
Proof.
  intros HP. destruct (select_from P k l) as [|[j x] rest] eqn:Hs; [done|].
  assert ((j, x) ∈ select_from P k l) as Hin
    by (rewrite Hs; apply list_elem_of_here).
  apply select_from_elem in Hin as (_ & Hl & Hx).
  rewrite (HP _ _ Hl) in Hx. discriminate.
Qed.

Lemma select_from_unique {A : Type} (P : A -> bool) (l : list A) (k i : nat)
    (h : A) :
  (forall j x, l !! j = Some x -> P x = true -> j = i) ->
  l !! i = Some h -> P h = true ->
  select_from P k l = [((k + i)%nat, h)].
Proof.
  revert k i. induction l as [|y l IH]; intros k i Huniq Hi Hh; [done|].
  destruct i as [|i]; simpl in *.
  - injection Hi as ->. rewrite Hh, Nat.add_0_r. simpl. f_equal.
    apply select_from_nil. intros j x Hj.
    destruct (P x) eqn:Hx; [|done].
    by specialize (Huniq (S j) x Hj Hx).
  - destruct (P y) eqn:Hy.
    + by specialize (Huniq 0%nat y eq_refl Hy).
    + simpl. rewrite (IH (S k) i); [f_equal; f_equal; lia | | done | done].
      intros j x Hj Hx. specialize (Huniq (S j) x Hj Hx). lia.
Qed.

(** When one row matches, and only one, the query returns it. *)
Lemma select_unique {A : Type} (P : A -> bool) (l : list A) (i : nat) (h : A) :
  (forall j x, l !! j = Some x -> P x = true -> j = i) ->
  l !! i = Some h -> P h = true ->
  select P l = [(i, h)].
Proof. intros. unfold select. by rewrite (select_from_unique P l 0 i h). Qed.

Lemma select_nonempty {A : Type} (P : A -> bool) (l : list A) (i : nat) (h : A) :
  l !! i = Some h -> P h = true -> select P l <> [].
Proof.
  intros Hi Hh Hnil.
  assert ((i, h) ∈ select P l) as Hin by (by apply select_elem).
  rewrite Hnil in Hin. by apply elem_of_nil in Hin.
Qed.

(** C7, the error of the duplicate request: the trip of [in_transit_db] has
    a hold in state [held], and a second hold-for-trip is rejected by the
    trip-status check, not by the duplicate-hold conflict. *)
Lemma C7_duplicate_hold_error_counterexample :
  (esc_trip_id <$> escrow_holds in_transit_db !! 0%nat = Some 0%nat
   /\ esc_status <$> escrow_holds in_transit_db !! 0%nat = Some HELD)
  /\ fmap_result fst (create_escrow_hold 0%nat shipper_user in_transit_db)
     = Err (HTTPException 400 TripNotPickupPending)
  /\ fmap_result fst (create_escrow_hold 0%nat shipper_user in_transit_db)
     <> Err (HTTPException 409 EscrowAlreadyExists).
Proof. vm_compute. repeat split; try reflexivity. discriminate. Qed.

(** C7. No double hold.  For a trip that already has a hold in a non-terminal
    state, hold-for-trip always fails and creates nothing: no hold, no
    ledger entry, no balance change.  The error is the duplicate-hold
    conflict (409) when the trip is still [pickup_pending] and the hold is
    the trip's only one; when the trip has moved on, the trip-status check
    (400) rejects the request first. *)
Theorem C7_no_double_hold (db : DB) (trip_id : Id) (user : User) (i : Id)
    (h : EscrowHold) :
  escrow_holds db !! i = Some h ->
  esc_trip_id h = trip_id ->
  terminal (esc_status h) = false ->
  (exists e, create_escrow_hold trip_id user db = Err e)
  /\ step db (HoldForTrip trip_id user) = db
  /\ (forall t, trips db !! trip_id = Some t ->
        trip_status t <> PICKUP_PENDING ->
        create_escrow_hold trip_id user db
        = Err (HTTPException 400 TripNotPickupPending))
  /\ (forall t, trips db !! trip_id = Some t ->
        trip_status t = PICKUP_PENDING ->
        (forall j h', escrow_holds db !! j = Some h' ->
                      esc_trip_id h' = trip_id -> j = i) ->
        create_escrow_hold trip_id user db
        = Err (HTTPException 409 EscrowAlreadyExists)).
Proof.
  intros Hi Htrip _.
  set (P := fun e : EscrowHold => bool_decide (esc_trip_id e = trip_id)).
  assert (P h = true) as HP by (by apply bool_decide_eq_true).
  assert (exists e, create_escrow_hold trip_id user db = Err e) as Hfail.
  { unfold create_escrow_hold.
    destruct (trips db !! trip_id) as [t|]; simpl; [|eauto].
    destruct (bool_decide (trip_status t ≠ PICKUP_PENDING)); simpl; [eauto|].
    fold P. pose proof (select_nonempty P _ i h Hi HP) as Hne.
    destruct (select P (escrow_holds db)) as [|r [|r' rows]]; simpl; eauto.
    done. }
  split; [done|]. split; [|split].
  - destruct Hfail as [e He]. unfold step, handle.
    destruct (require_any_authenticated user) as [u|] eqn:Hu; simpl; [|done].
    apply RoleChecker_Ok in Hu as ->. by rewrite He.
  - intros t Ht Hs. unfold create_escrow_hold. rewrite Ht. simpl.
    by rewrite bool_decide_eq_true_2.
  - intros t Ht Hs Huniq. unfold create_escrow_hold. rewrite Ht. simpl.
    rewrite bool_decide_eq_false_2 by (by intros []). simpl.
    fold P. rewrite (select_unique P _ i h); [done| |done|done].
    intros j h' Hj Hh'. apply (Huniq j h' Hj).
    by apply bool_decide_eq_true in Hh'.
Qed.

Lemma C7_no_double_hold_witness :
  fmap_result fst (create_escrow_hold 0%nat shipper_user
                     (run [HoldForTrip 0%nat shipper_user] sample_db))
  = Err (HTTPException 409 EscrowAlreadyExists).
Proof.
  pose proof (C7_no_double_hold
                (run [HoldForTrip 0%nat shipper_user] sample_db) 0%nat
                shipper_user 0%nat
                (mkEscrowHold 0%nat 0%nat 0%nat None 100000 "GHS"
                   PLATFORM_COMMISSION_RATE None None HELD)
                eq_refl eq_refl eq_refl) as (_ & _ & _ & H).
  rewrite (H (mkFreightTrip 2%nat PICKUP_PENDING
                (Some (mkFreightBid 100000 "GHS"))
                (Some (mkFreightListing 0%nat 1%nat))) eq_refl eq_refl).
  - reflexivity.
  - intros [|[|j]] h' Hj _; [reflexivity | discriminate | discriminate].
Defined.

(** ** Withdrawal, deposit and the callback *)

Lemma select_nil {A : Type} (P : A -> bool) (l : list A) :
  (forall j x, l !! j = Some x -> P x = false) -> select P l = [].
Proof. apply select_from_nil. Qed.

Lemma select_singleton_inv {A : Type} (P : A -> bool) (l : list A) (i : nat)
    (h : A) :
  select P l = [(i, h)] ->
  l !! i = Some h /\ P h = true
  /\ (forall j x, l !! j = Some x -> P x = true -> j = i).
Proof.
  intros Hs.
  assert (l !! i = Some h /\ P h = true) as [Hi Hh]
    by (apply select_elem; rewrite Hs; by apply list_elem_of_singleton).
  repeat split; try done. intros j x Hj Hx.
  assert ((j, x) ∈ select P l) as Hin by (by apply select_elem).
  rewrite Hs in Hin. apply list_elem_of_singleton in Hin. congruence.
Qed.


Lemma update_snoc {A : Type} (f : A -> A) (l : list A) (x : A) :
  update (length l) f (l ++ [x]) = l ++ [f x].
Proof.
  unfold update. rewrite list_lookup_middle by done.
  replace (length l) with (length l + 0)%nat at 1 by lia.
  by rewrite insert_app_r.
Qed.

Lemma update_Some {A : Type} (f : A -> A) (l : list A) (i : nat) (x : A) :
  l !! i = Some x -> update i f l = <[i := f x]> l.
Proof. intros H. unfold update. by rewrite H. Qed.

Lemma external_id_free_select db key :
  external_id_free db key ->
  select (fun m => bool_decide (momo_external_transaction_id m = Some key))
         (momo_payments db) = [].
Proof.
  intros Hfree. apply select_nil. intros j x Hj.
  apply bool_decide_eq_false_2. eauto.
Qed.

Lemma add_momo_payment_fresh db m key :
  momo_external_transaction_id m = Some key ->
  external_id_free db key ->
  add_momo_payment db m
  = Ok (with_momo_payments db (momo_payments db ++ [m]),
        length (momo_payments db)).
Proof.
  intros Hm Hfree. unfold add_momo_payment.
  rewrite select_nil; [done|]. intros j x Hj. rewrite Hm.
  apply andb_false_intro2, bool_decide_eq_false_2. eauto.
Qed.




Lemma sample_external_id_free (key : string) :
  key <> "MOMO-000000000001" -> external_id_free sample_db key.
Proof.
  intros Hkey [|i] m Hm; simpl in Hm; [|done].
  injection Hm as <-. simpl. congruence.
Qed.


(** ** Reversal of a failed withdrawal *)


Lemma select_pending_snoc (l : list MoMoPayment) (m : MoMoPayment)
    (key : string) :
  (forall i x, l !! i = Some x -> momo_external_transaction_id x <> Some key) ->
  momo_external_transaction_id m = Some key ->
  select (fun m => bool_decide (momo_external_transaction_id m = Some key))
         (l ++ [m])
  = [(length l, m)].
Proof.
  intros Hfree Hm. rewrite select_snoc, select_nil.
  - by rewrite bool_decide_eq_true_2.
  - intros j x Hj. apply bool_decide_eq_false_2. eauto.
Qed.


(** What the callback does once the payment row is found. *)
Lemma momo_callback_found (cb : MoMoCallbackPayload) (db : DB) (id : Id)
    (m : MoMoPayment) :
  select (fun m => bool_decide (momo_external_transaction_id m
                                = Some (cb_external_transaction_id cb)))
         (momo_payments db) = [(id, m)] ->
  momo_callback cb db
  = if bool_decide (momo_status m = MOMO_SUCCESS)
       || bool_decide (momo_status m = MOMO_FAILED)
    then Ok (db, "Payment already processed")
    else
      let* db :=
        if bool_decide (lower (cb_status cb) = "success") then
          callback_success id m cb db
        else if bool_decide (lower (cb_status cb) = "failed")
                || bool_decide (lower (cb_status cb) = "timeout")
                || bool_decide (lower (cb_status cb) = "cancelled") then
          callback_failure id m cb db
        else Ok db in
      Ok (db, "Callback processed: " +:+ cb_status cb).
Proof. intros Hsel. unfold momo_callback. rewrite Hsel. reflexivity. Qed.





(** ** Deposits *)

Lemma deposit_momo_Ok db body user hex wid w :
  get_wallet_for_user db (user_id user) (dep_currency body)
  = Ok (Some (wid, w)) ->
  w_status w = ACTIVE ->
  external_id_free db ("MOMO-" +:+ hex) ->
  deposit_momo body user hex db
  = Ok (after_deposit db body hex wid w,
        mkMoMoDepositResponse (length (momo_payments db))
          (length (transactions db)) (dep_amount body) "pending"
          ("MOMO-" +:+ hex)).
Proof.
  intros Hw Hactive Hfree.
  unfold deposit_momo, get_or_create_wallet.
  unfold get_wallet_for_user in Hw. rewrite Hw. simpl.
  rewrite bool_decide_eq_false_2 by (rewrite Hactive; by intros []). simpl.
  erewrite add_momo_payment_fresh; [|reflexivity|done]. simpl.
  unfold update_transaction, add_transaction. simpl.
  by rewrite update_snoc.
Qed.

Lemma callback_success_collection id m cb db w :
  momo_direction m = COLLECTION ->
  wallets db !! momo_wallet_id m = Some w ->
  callback_success id m cb db
  = Ok (let db := update_wallet (momo_wallet_id m)
                    (fun w => set_total_deposited
                                (w_total_deposited w + momo_amount m)
                                (set_balance (w_balance w + momo_amount m) w))
                    (update_momo id
                       (set_momo_success (cb_provider_reference cb)) db) in
        update_linked_txn m
          (fun t => set_txn_balance_after (balance_of db (momo_wallet_id m))
                      (set_txn_status TXN_COMPLETED t)) db).
Proof.
  intros Hdir Hw. unfold callback_success. rewrite Hdir.
  cbn [wallets update_momo with_momo_payments]. unfold get_one.
  rewrite Hw. reflexivity.
Qed.

Lemma callback_failure_collection id m cb db :
  momo_direction m = COLLECTION ->
  callback_failure id m cb db
  = Ok (update_linked_txn m (set_txn_status TXN_FAILED)
          (update_momo id (set_momo_failed (failure_reason_of cb)) db)).
Proof. intros Hdir. unfold callback_failure. by rewrite Hdir. Qed.

Lemma wallets_update_linked_txn m f db :
  wallets (update_linked_txn m f db) = wallets db.
Proof. unfold update_linked_txn. by destruct (momo_transaction_id m). Qed.

(** C9. Deposit initiation frame: a deposit request on an active wallet
    appends a pending ledger row and a pending collection and leaves the
    wallet table as it is; of the callbacks for that collection only a
    success credits the wallet, by the full amount (the ledger row carries
    fee 0); any other status leaves every wallet unchanged. *)
Theorem C9_deposit_frame (db : DB) (body : MoMoDepositRequest) (user : User)
    (hex : string) (wid : Id) (w : Wallet) :
  get_wallet_for_user db (user_id user) (dep_currency body)
  = Ok (Some (wid, w)) ->
  w_status w = ACTIVE ->
  external_id_free db ("MOMO-" +:+ hex) ->
  exists db1 r t m,
    deposit_momo body user hex db = Ok (db1, r)
    /\ wallets db1 = wallets db
    /\ transactions db1 = transactions db ++ [t]
    /\ txn_type t = DEPOSIT /\ txn_status t = TXN_PENDING
    /\ txn_amount t = dep_amount body /\ txn_fee t = 0
    /\ momo_payments db1 = momo_payments db ++ [m]
    /\ momo_direction m = COLLECTION /\ momo_status m = MOMO_PENDING
    /\ momo_external_transaction_id m = Some ("MOMO-" +:+ hex)
    /\ forall cb, cb_external_transaction_id cb = "MOMO-" +:+ hex ->
         (lower (cb_status cb) = "success" ->
          exists db2 msg w',
            momo_callback cb db1 = Ok (db2, msg)
            /\ wallets db2 !! wid = Some w'
            /\ w_balance w' = w_balance w + dep_amount body
            /\ w_total_deposited w' = w_total_deposited w + dep_amount body
            /\ w_escrow_balance w' = w_escrow_balance w)
         /\ (lower (cb_status cb) <> "success" ->
             exists db2 msg,
               momo_callback cb db1 = Ok (db2, msg)
               /\ wallets db2 = wallets db).
Proof.
  intros Hw Hactive Hfree.
  pose proof Hw as (Hwid & _)%get_wallet_for_user_Some.
  pose proof (lookup_lt_Some _ _ _ Hwid) as Hlt.
  eexists (after_deposit db body hex wid w), _, _, _.
  split; [by apply deposit_momo_Ok|].
  split; [reflexivity|]. split; [reflexivity|].
  do 4 (split; [reflexivity|]). split; [reflexivity|].
  do 3 (split; [reflexivity|]).
  intros cb Hkey.
  assert (select (fun m => bool_decide (momo_external_transaction_id m
                             = Some (cb_external_transaction_id cb)))
                 (momo_payments (after_deposit db body hex wid w))
          = [(length (momo_payments db),
              mkMoMoPayment wid (Some (length (transactions db)))
                (dep_provider body) COLLECTION (dep_phone_number body)
                (dep_amount body) (dep_currency body) 0
                (Some ("MOMO-" +:+ hex)) None MOMO_PENDING None)]) as Hsel.
  { rewrite Hkey. cbn [momo_payments after_deposit].
    apply select_pending_snoc; [exact Hfree | reflexivity]. }
  rewrite (momo_callback_found _ _ _ _ Hsel). cbn [momo_status].
  change (bool_decide (MOMO_PENDING = MOMO_SUCCESS)
          || bool_decide (MOMO_PENDING = MOMO_FAILED)) with false.
  cbv iota.
  split.
  - intros Hs. rewrite (bool_decide_eq_true_2 _ Hs).
    erewrite callback_success_collection; [|reflexivity|exact Hwid].
    cbn [bind]. do 3 eexists. split; [reflexivity|].
    cbv zeta. rewrite wallets_update_linked_txn.
    cbn [wallets update_wallet update_momo with_wallets with_momo_payments
         momo_wallet_id momo_amount after_deposit].
    rewrite lookup_update_eq, Hwid. split; [reflexivity|]. simpl. done.
  - intros Hs. rewrite (bool_decide_eq_false_2 _ Hs).
    destruct (_ || _).
    + rewrite callback_failure_collection by reflexivity. cbn [bind].
      do 2 eexists. split; [reflexivity|].
      by rewrite wallets_update_linked_txn.
    + cbn [bind]. do 2 eexists. split; reflexivity.
Qed.

Lemma C9_deposit_frame_witness :
  exists db1 r,
    deposit_momo (mkMoMoDepositRequest 20000 "GHS" MTN "0241234567")
                 shipper_user "0A1B2C3D4E5F" sample_db = Ok (db1, r)
    /\ wallets db1 = wallets sample_db.
Proof.
  destruct (C9_deposit_frame sample_db
              (mkMoMoDepositRequest 20000 "GHS" MTN "0241234567")
              shipper_user "0A1B2C3D4E5F" 0%nat
              (mkWallet 1%nat None 200000 0 200000 0 0 "GHS" ACTIVE)
              eq_refl eq_refl
              (sample_external_id_free "MOMO-0A1B2C3D4E5F"
                 ltac:(discriminate)))
    as (db1 & r & t & m & H1 & H2 & _).
  exists db1, r. split; [exact H1 | exact H2].
Defined.

(** ** Callbacks: unrecognised statuses and replays *)

Lemma payment_of_Some db cb id m :
  payment_of db cb = Ok (Some (id, m)) ->
  select (fun m => bool_decide (momo_external_transaction_id m
                                = Some (cb_external_transaction_id cb)))
         (momo_payments db) = [(id, m)].
Proof. apply scalar_one_or_none_Some. Qed.

Lemma momo_callback_processed cb db id m :
  payment_of db cb = Ok (Some (id, m)) ->
  already_processed m = true ->
  momo_callback cb db = Ok (db, "Payment already processed").
Proof.
  intros Hsel%payment_of_Some Hp.
  rewrite (momo_callback_found _ _ _ _ Hsel).
  unfold already_processed in Hp. by rewrite Hp.
Qed.

(** C10. A callback whose status, lower-cased, is none of success, failed,
    timeout and cancelled changes nothing: the handler returns the database
    as it found it, so the payment keeps its status, no balance moves and
    no ledger row is touched; and it answers with a success message, not
    an error. *)
Theorem C10_unrecognised_status_falls_through (db : DB)
    (cb : MoMoCallbackPayload) (id : Id) (m : MoMoPayment) :
  payment_of db cb = Ok (Some (id, m)) ->
  lower (cb_status cb) ∉ ["success"; "failed"; "timeout"; "cancelled"] ->
  exists msg,
    momo_callback cb db = Ok (db, msg)
    /\ (already_processed m = false ->
        msg = "Callback processed: " +:+ cb_status cb)
    /\ step db (MoMoCallback cb) = db.
Proof.
  intros Hfound Hstatus.
  assert (exists msg, momo_callback cb db = Ok (db, msg)
                      /\ (already_processed m = false ->
                          msg = "Callback processed: " +:+ cb_status cb))
    as (msg & Hrun & Hmsg).
  { destruct (already_processed m) eqn:Hp.
    - eexists. split; [by eapply momo_callback_processed | done].
    - pose proof Hfound as Hsel%payment_of_Some.
      rewrite (momo_callback_found _ _ _ _ Hsel).
      unfold already_processed in Hp. rewrite Hp.
      rewrite !bool_decide_eq_false_2.
      + eexists. split; [reflexivity | done].
      + intros Heq. apply Hstatus. rewrite Heq.
        do 3 apply list_elem_of_further. apply list_elem_of_here.
      + intros Heq. apply Hstatus. rewrite Heq.
        do 2 apply list_elem_of_further. apply list_elem_of_here.
      + intros Heq. apply Hstatus. rewrite Heq.
        apply list_elem_of_further, list_elem_of_here.
      + intros Heq. apply Hstatus. rewrite Heq. apply list_elem_of_here. }
  exists msg. split; [done|]. split; [done|].
  unfold step, handle. by rewrite Hrun.
Qed.

Lemma C10_unrecognised_status_falls_through_witness :
  momo_callback
    (mkMoMoCallbackPayload "MOMO-0A1B2C3D4E5F" "Refunded" None None None)
    pending_deposit_db
  = Ok (pending_deposit_db, "Callback processed: Refunded").
Proof.
  destruct (C10_unrecognised_status_falls_through pending_deposit_db
              (mkMoMoCallbackPayload "MOMO-0A1B2C3D4E5F" "Refunded" None
                 None None)
              1%nat
              (mkMoMoPayment 0%nat (Some 1%nat) MTN COLLECTION "0241234567"
                 20000 "GHS" 0 (Some "MOMO-0A1B2C3D4E5F") None MOMO_PENDING
                 None)
              eq_refl)
    as (msg & Hrun & Hmsg & _).
  - vm_compute. intros Hin.
    repeat (apply elem_of_cons in Hin as [Hin | Hin]; [discriminate|]).
    by apply elem_of_nil in Hin.
  - rewrite Hrun, (Hmsg eq_refl). reflexivity.
Defined.







(** ** Dispute split *)




Lemma balance_of_update_wallet wid f db j :
  balance_of (update_wallet wid f db) j
  = if decide (j = wid)
    then match wallets db !! wid with
         | Some w => w_balance (f w)
         | None => 0
         end
    else balance_of db j.
Proof.
  unfold balance_of, update_wallet. cbn [wallets with_wallets].
  rewrite lookup_update. destruct (decide (j = wid)) as [->|Hne].
  - rewrite bool_decide_eq_true_2 by done. by destruct (wallets db !! wid).
  - rewrite bool_decide_eq_false_2 by done. done.
Qed.

Lemma escrow_balance_of_update_wallet wid f db j :
  escrow_balance_of (update_wallet wid f db) j
  = if decide (j = wid)
    then match wallets db !! wid with
         | Some w => w_escrow_balance (f w)
         | None => 0
         end
    else escrow_balance_of db j.
Proof.
  unfold escrow_balance_of, update_wallet. cbn [wallets with_wallets].
  rewrite lookup_update. destruct (decide (j = wid)) as [->|Hne].
  - rewrite bool_decide_eq_true_2 by done. by destruct (wallets db !! wid).
  - rewrite bool_decide_eq_false_2 by done. done.
Qed.

(** A wallet update that adds [db_] to the balance and [de] to the escrow
    balance of an existing wallet. *)
Lemma shifted_update_wallet wid f db (dbal desc : Z) :
  is_Some (wallets db !! wid) ->
  (forall w, w_balance (f w) = w_balance w + dbal) ->
  (forall w, w_escrow_balance (f w) = w_escrow_balance w + desc) ->
  shifted db (update_wallet wid f db) (at_wallet wid dbal)
          (at_wallet wid desc) [].
Proof.
  intros [w Hw] Hb He. repeat split.
  - intros j. rewrite balance_of_update_wallet. unfold at_wallet, balance_of.
    destruct (decide (j = wid)) as [->|]; rewrite ?Hw, ?Hb; lia.
  - intros j. rewrite escrow_balance_of_update_wallet.
    unfold at_wallet, escrow_balance_of.
    destruct (decide (j = wid)) as [->|]; rewrite ?Hw, ?He; lia.
  - exists []. by rewrite app_nil_r.
Qed.

Lemma shifted_add_transaction t db :
  shifted db (add_transaction t db) (fun _ => 0) (fun _ => 0) [row_of t].
Proof.
  repeat split;
    try (intros j; unfold balance_of, escrow_balance_of;
         cbn [wallets add_transaction with_transactions];
         destruct (_ !! _); lia).
  by exists [t].
Qed.









(** * Further properties of the settlement code *)

(** ** Rounding, commission and fee *)

Lemma py_round_mono (n m d : Z) :
  0 < d -> n <= m -> py_round n d <= py_round m d.
Proof.
  intros Hd Hnm. unfold py_round.
  pose proof (Z.div_mod n d ltac:(lia)) as Hn.
  pose proof (Z.div_mod m d ltac:(lia)) as Hm.
  pose proof (Z.mod_pos_bound n d Hd) as Hbn.
  pose proof (Z.mod_pos_bound m d Hd) as Hbm.
  pose proof (Z.div_le_mono n m d Hd Hnm) as Hq.
  destruct (Z.eq_dec (n / d) (m / d)) as [Heq | Hne].
  - rewrite Heq in *.
    destruct (Z.compare_spec (2 * (n mod d)) d);
      destruct (Z.compare_spec (2 * (m mod d)) d);
      destruct (Z.even (m / d)); nia.
  - destruct (Z.compare_spec (2 * (n mod d)) d);
      destruct (Z.compare_spec (2 * (m mod d)) d);
      destruct (Z.even (n / d)); destruct (Z.even (m / d)); lia.
Qed.

Lemma commission_range (amount : Money) :
  0 <= amount -> 0 <= round2_mul amount PLATFORM_COMMISSION_RATE <= amount.
Proof.
  intros Ha. unfold round2_mul. cbn [rate_num rate_den PLATFORM_COMMISSION_RATE].
  pose proof (py_round_nearest (amount * 5) 100 ltac:(lia)). lia.
Qed.

Lemma withdrawal_fee_range (a : Money) : 50 <= withdrawal_fee a <= 1000.
Proof.
  unfold withdrawal_fee. split.
  - change 50 with (py_round (50 * 100) 100) at 1. apply py_round_mono; lia.
  - change 1000 with (py_round (1000 * 100) 100) at 2.
    apply py_round_mono; lia.
Qed.





(** ** Escrow: what a successful request did *)

Lemma select_nil_inv {A : Type} (P : A -> bool) (l : list A) (j : nat) (x : A) :
  select P l = [] -> l !! j = Some x -> P x = false.
Proof.
  intros Hsel Hx. destruct (P x) eqn:HP; [|done].
  assert ((j, x) ∈ select P l) as Hin by (by apply select_elem).
  rewrite Hsel in Hin. by apply elem_of_nil in Hin.
Qed.

Lemma balance_of_lookup db wid w :
  wallets db !! wid = Some w -> balance_of db wid = w_balance w.
Proof. intros H. unfold balance_of. by rewrite H. Qed.

Lemma escrow_balance_of_lookup db wid w :
  wallets db !! wid = Some w -> escrow_balance_of db wid = w_escrow_balance w.
Proof. intros H. unfold escrow_balance_of. by rewrite H. Qed.

Lemma wallets_update_lookup wid f db w :
  wallets db !! wid = Some w ->
  wallets (update_wallet wid f db) !! wid = Some (f w).
Proof. intros H. simpl. by rewrite lookup_update_eq, H. Qed.

(** X3. A hold that goes through found the trip waiting for pickup with no
    hold yet, and the shipper's active wallet covering the bid price; it
    moves exactly the bid price from the available to the escrow balance of
    that wallet, writes one completed [escrow_hold] ledger row and appends
    one [held] hold.  Trips and disputes are not touched. *)
Theorem create_escrow_hold_effects (trip_id : Id) (user : User) (db db' : DB)
    (r : EscrowHoldResponse) :
  create_escrow_hold trip_id user db = Ok (db', r) ->
  exists trip bid listing sid w,
    trips db !! trip_id = Some trip
    /\ trip_status trip = PICKUP_PENDING
    /\ trip_bid trip = Some bid
    /\ trip_listing trip = Some listing
    /\ (forall j h, escrow_holds db !! j = Some h -> esc_trip_id h <> trip_id)
    /\ wallets db !! sid = Some w
    /\ w_user_id w = listing_shipper_id listing
    /\ w_currency w = bid_currency bid
    /\ w_status w = ACTIVE
    /\ bid_price bid <= w_balance w
    /\ (forall j, balance_of db' j
                  = balance_of db j + at_wallet sid (- bid_price bid) j)
    /\ (forall j, escrow_balance_of db' j
                  = escrow_balance_of db j + at_wallet sid (bid_price bid) j)
    /\ transactions db'
       = transactions db
         ++ [completed_txn sid ESCROW_HOLD (bid_price bid) 0 (bid_currency bid)
               (w_balance w - bid_price bid) REF_ESCROW
               (length (escrow_holds db))]
    /\ (exists h, escrow_holds db' = escrow_holds db ++ [h]
                  /\ esc_trip_id h = trip_id
                  /\ esc_shipper_wallet_id h = sid
                  /\ esc_amount h = bid_price bid
                  /\ esc_status h = HELD)
    /\ trips db' = trips db
    /\ disputes db' = disputes db.
Proof.
  intros H. unfold create_escrow_hold in H. bind_inv H.
  injection H as <- <-.
  match goal with
  | Hw : get_wallet_for_user _ _ _ = Ok (Some _) |- _ =>
      apply get_wallet_for_user_Some in Hw as (Hw & Hu & Hc)
  end.
  repeat match goal with
  | Hb : bool_decide _ = false |- _ => apply bool_decide_eq_false in Hb
  end.
  match goal with
  | Hlt : (_ <? _) = false |- _ => apply Z.ltb_ge in Hlt
  end.
  match goal with
  | Hs : scalar_one_or_none _ = Ok ?o, Hn : ¬ is_Some ?o |- _ =>
      destruct o as [?|]; [exfalso; apply Hn; eauto|];
      apply scalar_one_or_none_None in Hs; rename Hs into Hsel
  end.
  match goal with
  | |- context [update_wallet ?n ?f db] =>
      pose proof (shifted_update_wallet n f db (- bid_price a3) (bid_price a3)
                    ltac:(eauto) ltac:(intros; simpl; lia)
                    ltac:(intros; simpl; lia)) as (Hb & He & _)
  end.
  eexists _, _, _, _, _.
  repeat (split; [eassumption|]).
  split; [by destruct (decide (trip_status a = PICKUP_PENDING)) as [|n0];
           [|destruct (Ha0 n0)]|].
  repeat (split; [eassumption|]).
  split.
  { intros j h Hh Ht. pose proof (select_nil_inv _ _ _ _ Hsel Hh) as Hf.
    simpl in Hf. by apply bool_decide_eq_false in Hf. }
  repeat (split; [eassumption|]).
  split; [by destruct (decide (w_status w = ACTIVE)) as [|n0];
           [|destruct (Ha6 n0)]|].
  split; [lia|].
  split; [exact Hb|]. split; [exact He|].
  split.
  { simpl. do 2 f_equal. unfold completed_txn. f_equal.
    erewrite balance_of_lookup; [|by apply wallets_update_lookup]. simpl. lia. }
  split; [eexists; split; [reflexivity|done]|].
  done.
Qed.

Lemma funds_shifted_refl db : funds_shifted db db (fun _ => 0) (fun _ => 0) [].
Proof.
  repeat split; intros; try lia. exists []. by rewrite app_nil_r.
Qed.

Lemma funds_shifted_trans db db1 db2 b1 e1 r1 b2 e2 r2 :
  funds_shifted db db1 b1 e1 r1 -> funds_shifted db1 db2 b2 e2 r2 ->
  funds_shifted db db2 (fun j => b1 j + b2 j) (fun j => e1 j + e2 j)
                (r1 ++ r2).
Proof.
  intros (Hb1 & He1 & ts1 & Ht1 & Hr1) (Hb2 & He2 & ts2 & Ht2 & Hr2).
  split; [intros j; rewrite Hb2, Hb1; lia|].
  split; [intros j; rewrite He2, He1; lia|].
  exists (ts1 ++ ts2). split.
  - by rewrite Ht2, Ht1, app_assoc.
  - by rewrite map_app, Hr1, Hr2.
Qed.

Lemma funds_shifted_ext db db' b e r b' e' r' :
  funds_shifted db db' b e r ->
  (forall j, b j = b' j) -> (forall j, e j = e' j) -> r = r' ->
  funds_shifted db db' b' e' r'.
Proof.
  intros (Hb & He & Ht) Hbb Hee <-.
  split; [intros j; rewrite Hb, Hbb; done|].
  split; [intros j; rewrite He, Hee; done|done].
Qed.

Lemma shifted_funds db db' b e r : shifted db db' b e r -> funds_shifted db db' b e r.
Proof. intros (Hb & He & Ht & _). by repeat split. Qed.

(** A step that leaves wallets and ledger alone. *)
Lemma funds_shifted_frame db db' :
  wallets db' = wallets db -> transactions db' = transactions db ->
  funds_shifted db db' (fun _ => 0) (fun _ => 0) [].
Proof.
  intros Hw Ht. unfold funds_shifted, balance_of, escrow_balance_of.
  rewrite Hw, Ht.
  repeat split; intros; try lia. exists []. by rewrite app_nil_r.
Qed.




(** Building a [funds_shifted] along the writes of an endpoint. *)
Lemma funds_shifted_same db db1 db2 b e r :
  funds_shifted db db1 b e r ->
  wallets db2 = wallets db1 -> transactions db2 = transactions db1 ->
  funds_shifted db db2 b e r.
Proof.
  intros (Hb & He & Ht) Hw Htx.
  unfold funds_shifted, balance_of, escrow_balance_of in *.
  rewrite Hw, Htx. done.
Qed.

Lemma funds_shifted_add_transaction db db1 b e r t :
  funds_shifted db db1 b e r ->
  funds_shifted db (add_transaction t db1) b e (r ++ [row_of t]).
Proof.
  intros F. eapply funds_shifted_ext.
  - eapply funds_shifted_trans; [exact F|].
    apply shifted_funds, shifted_add_transaction.
  - intros; simpl; lia.
  - intros; simpl; lia.
  - done.
Qed.

Lemma funds_shifted_update_wallet db db1 b e r wid f (dbal desc : Z) :
  funds_shifted db db1 b e r ->
  is_Some (wallets db1 !! wid) ->
  (forall w, w_balance (f w) = w_balance w + dbal) ->
  (forall w, w_escrow_balance (f w) = w_escrow_balance w + desc) ->
  funds_shifted db (update_wallet wid f db1)
    (fun j => b j + at_wallet wid dbal j)
    (fun j => e j + at_wallet wid desc j) r.
Proof.
  intros F Hw Hb He. eapply funds_shifted_ext.
  - eapply funds_shifted_trans; [exact F|].
    apply shifted_funds, (shifted_update_wallet wid f db1 dbal desc); done.
  - done.
  - done.
  - by rewrite app_nil_r.
Qed.


Ltac at_wallet_goal :=
  intros; cbv beta; unfold at_wallet; repeat destruct (decide _); try lia.


Lemma create_escrow_hold_effects_witness :
  exists db' r,
    create_escrow_hold 0%nat shipper_user sample_db = Ok (db', r)
    /\ balance_of db' 0%nat = 100000
    /\ escrow_balance_of db' 0%nat = 100000.
Proof.
  destruct (create_escrow_hold 0%nat shipper_user sample_db)
    as [[db' r]|err] eqn:Hrun; [|vm_compute in Hrun; discriminate].
  exists db', r. split; [reflexivity|].
  destruct (create_escrow_hold_effects 0%nat shipper_user sample_db db' r Hrun)
    as (trip & bid & l & sid & w & Ht & _ & Hbid & _ & _ & Hw & _ & _ & _ & _
        & Hb & He & _).
  vm_compute in Ht. injection Ht as <-.
  vm_compute in Hbid. injection Hbid as <-.
  destruct sid as [|sid]; [|destruct sid; discriminate].
  rewrite (Hb 0%nat), (He 0%nat). by vm_compute.
Defined.


(** ** A hold made before the courier had a wallet *)

Lemma add_wallet_conflict db w i w' :
  wallets db !! i = Some w' ->
  w_user_id w' = w_user_id w -> w_currency w' = w_currency w ->
  add_wallet db w = Err IntegrityError.
Proof.
  intros Hi Hu Hc. unfold add_wallet.
  destruct (select _ _) eqn:Hsel; [|done].
  exfalso. eapply (select_nonempty _ _ _ _ Hi); [|exact Hsel].
  unfold same_user_currency. by rewrite !bool_decide_eq_true_2.
Qed.

(** X5. A hold made while the courier had no wallet names no courier
    wallet.  If the courier has since got a wallet in the hold's currency
    (a first deposit, a look at the balance), the release of that hold
    fails on the unique constraint of the wallets: the endpoint tries to
    create the courier's wallet a second time instead of looking it up.
    The request is rolled back and the hold stays [held]. *)
Theorem release_escrow_courier_wallet_conflict (escrow_id : Id) (user : User)
    (db : DB) (e : EscrowHold) (trip : FreightTrip) (cid : Id) (w : Wallet) :
  escrow_holds db !! escrow_id = Some e ->
  esc_status e = HELD ->
  trips db !! esc_trip_id e = Some trip ->
  trip_status trip = CONFIRMED ->
  (is_admin user = true
   \/ exists l, trip_listing trip = Some l
                /\ listing_shipper_id l = user_id user) ->
  is_Some (wallets db !! esc_shipper_wallet_id e) ->
  esc_courier_wallet_id e = None ->
  wallets db !! cid = Some w ->
  w_user_id w = trip_courier_id trip ->
  w_currency w = esc_currency e ->
  release_escrow escrow_id user db = Err IntegrityError
  /\ step db (Release escrow_id user) = db.
Proof.
  intros He Hst Ht Htst Hauth [sw Hsw] Hnone Hw Hu Hc.
  assert (release_escrow escrow_id user db = Err IntegrityError) as Hrel.
  { unfold release_escrow. rewrite He. cbn [or_raise bind].
    rewrite Hst, (bool_decide_eq_false_2 (HELD <> HELD)) by (by intros n).
    cbn [raise_if bind]. rewrite Ht. cbn [or_raise bind].
    rewrite Htst, (bool_decide_eq_false_2 (CONFIRMED <> CONFIRMED))
      by (by intros n).
    cbn [raise_if bind].
    assert (match trip_listing trip with
            | Some l => bool_decide (listing_shipper_id l = user_id user)
            | None => false
            end || is_admin user = true) as ->.
    { destruct Hauth as [-> | (l & -> & Hl)]; [apply orb_true_r|].
      by rewrite bool_decide_eq_true_2. }
    cbn [negb raise_if bind]. unfold get_one.
    change (wallets (update_escrow ?i ?f db)) with (wallets db).
    rewrite Hsw. cbn [or_raise bind].
    unfold courier_wallet_of. rewrite Hnone.
    match goal with
    | |- context [add_wallet ?d ?nw] =>
        rewrite (add_wallet_conflict d nw cid
                   (if bool_decide (esc_shipper_wallet_id e = cid)
                    then set_escrow_balance
                           (w_escrow_balance w - esc_amount e) w
                    else w))
    end.
    - reflexivity.
    - simpl. rewrite lookup_update, Hw. by case_bool_decide.
    - case_bool_decide; simpl; done.
    - case_bool_decide; simpl; done. }
  split; [exact Hrel|].
  unfold step, handle. destruct (require_any_authenticated user) as [u|] eqn:Hu';
    [|done].
  apply RoleChecker_Ok in Hu' as ->. cbn [bind]. by rewrite Hrel.
Qed.

Lemma release_escrow_courier_wallet_conflict_witness :
  release_escrow 0%nat shipper_user courier_joined_db = Err IntegrityError
  /\ step courier_joined_db (Release 0%nat shipper_user) = courier_joined_db.
Proof.
  eapply (release_escrow_courier_wallet_conflict 0%nat shipper_user
            courier_joined_db _ _ 1%nat).
  - vm_compute. reflexivity.
  - reflexivity.
  - vm_compute. reflexivity.
  - reflexivity.
  - right. eexists. split; reflexivity.
  - vm_compute. eauto.
  - reflexivity.
  - vm_compute. reflexivity.
  - reflexivity.
  - reflexivity.
Defined.

(** ** Refund *)

Lemma update_update {A : Type} (i : Id) (f g : A -> A) (l : list A) :
  update i g (update i f l) = update i (fun x => g (f x)) l.
Proof.
  destruct (l !! i) as [x|] eqn:Hx.
  - unfold update at 1. rewrite lookup_update_eq, Hx. simpl.
    rewrite !(update_Some _ l i x Hx). by rewrite list_insert_insert_eq.
  - unfold update. rewrite Hx. by rewrite Hx.
Qed.

Lemma update_id {A : Type} (i : Id) (f : A -> A) (l : list A) :
  (forall x, l !! i = Some x -> f x = x) -> update i f l = l.
Proof.
  intros Hf. unfold update. destruct (l !! i) as [x|] eqn:Hx; [|done].
  rewrite (Hf x eq_refl). by apply list_insert_id.
Qed.

(** X6. A refund that goes through found the hold [held] or [disputed]; it
    moves the whole amount back from the escrow to the available balance
    of the shipper's wallet, writes one completed [escrow_refund] row and
    marks the hold [refunded].  It reads neither the trip nor the
    disputes, and leaves both as they were. *)
Theorem refund_escrow_effects (escrow_id : Id) (user : User) (db db' : DB)
    (r : RefundResponse) :
  refund_escrow escrow_id user db = Ok (db', r) ->
  exists e,
    escrow_holds db !! escrow_id = Some e
    /\ (esc_status e = HELD \/ esc_status e = DISPUTED)
    /\ rr_amount r = esc_amount e
    /\ funds_shifted db db'
         (at_wallet (esc_shipper_wallet_id e) (esc_amount e))
         (at_wallet (esc_shipper_wallet_id e) (- esc_amount e))
         [(esc_shipper_wallet_id e, ESCROW_REFUND, esc_amount e,
           TXN_COMPLETED)]
    /\ escrow_holds db'
       = update escrow_id (set_escrow_status REFUNDED) (escrow_holds db)
    /\ trips db' = trips db
    /\ disputes db' = disputes db
    /\ payout_schedules db' = payout_schedules db.
Proof.
  intros H. unfold refund_escrow in H. bind_inv H.
  injection H as <- <-.
  rename a into e. exists e.
  split; [done|].
  split.
  { match goal with
    | Hn : negb _ = false |- _ =>
        apply negb_false_iff, orb_true_iff in Hn
          as [Hh%bool_decide_eq_true | Hd%bool_decide_eq_true]; eauto
    end. }
  split; [done|].
  split.
  { eapply funds_shifted_ext.
    - apply funds_shifted_add_transaction.
      eapply funds_shifted_same; [|reflexivity..].
      eapply (funds_shifted_update_wallet _ _ _ _ _ _ _
                (esc_amount e) (- esc_amount e)).
      + apply funds_shifted_refl.
      + eauto.
      + intros; simpl; lia.
      + intros; simpl; lia.
    - at_wallet_goal.
    - at_wallet_goal.
    - reflexivity. }
  done.
Qed.

Lemma refund_escrow_effects_witness :
  let db := run [HoldForTrip 0%nat shipper_user] sample_db in
  exists db' r,
    refund_escrow 0%nat admin_user db = Ok (db', r)
    /\ balance_of db' 0%nat = 200000
    /\ escrow_balance_of db' 0%nat = 0.
Proof.
  intros db.
  destruct (refund_escrow 0%nat admin_user db)
    as [[db' r]|err] eqn:Hrun; [|vm_compute in Hrun; discriminate].
  exists db', r. split; [reflexivity|].
  destruct (refund_escrow_effects 0%nat admin_user db db' r Hrun)
    as (e & He & _ & _ & (Hb & Hesc & _) & _).
  vm_compute in He. injection He as <-.
  rewrite (Hb 0%nat), (Hesc 0%nat). by vm_compute.
Defined.

Lemma unhold_wallet (amount : Money) (w : Wallet) :
  set_escrow_balance
    (w_escrow_balance
       (set_escrow_balance (w_escrow_balance w + amount)
          (set_balance (w_balance w - amount) w)) - amount)
    (set_balance
       (w_balance
          (set_escrow_balance (w_escrow_balance w + amount)
             (set_balance (w_balance w - amount) w)) + amount)
       (set_escrow_balance (w_escrow_balance w + amount)
          (set_balance (w_balance w - amount) w)))
  = w.
Proof.
  destruct w. unfold set_escrow_balance, set_balance. simpl. f_equal; lia.
Qed.

(** X7. Round trip: a hold followed by the refund of that hold, by
    whomever, always goes through and gives back the wallet table the hold
    started from; the ledger keeps the two rows and the hold stays on
    record as [refunded]. *)
Theorem hold_then_refund_restores_wallets (trip_id : Id) (u1 u2 : User)
    (db db1 : DB) (r1 : EscrowHoldResponse) :
  create_escrow_hold trip_id u1 db = Ok (db1, r1) ->
  exists db2 r2 t1 t2,
    refund_escrow (ehr_id r1) u2 db1 = Ok (db2, r2)
    /\ wallets db2 = wallets db
    /\ rr_amount r2 = ehr_amount r1
    /\ transactions db2 = transactions db ++ [t1; t2]
    /\ txn_type t1 = ESCROW_HOLD /\ txn_type t2 = ESCROW_REFUND
    /\ txn_amount t1 = ehr_amount r1 /\ txn_amount t2 = ehr_amount r1
    /\ (esc_status <$> escrow_holds db2 !! ehr_id r1) = Some REFUNDED.
Proof.
  intros H. unfold create_escrow_hold in H. bind_inv H.
  injection H as <- <-.
  match goal with
  | Hw : get_wallet_for_user _ _ _ = Ok (Some _) |- _ =>
      apply get_wallet_for_user_Some in Hw as (Hwal & Hu & Hc)
  end.
  unfold refund_escrow. cbn [ehr_id ehr_amount].
  cbn [escrow_holds add_transaction with_transactions with_escrow_holds].
  rewrite lookup_snoc_length. cbn [or_raise bind esc_status].
  rewrite (bool_decide_eq_true_2 (HELD = HELD)) by done.
  cbn [orb negb raise_if bind esc_shipper_wallet_id esc_amount esc_currency].
  unfold get_one.
  cbn [wallets add_transaction with_transactions with_escrow_holds
       update_wallet with_wallets].
  rewrite lookup_update_eq, Hwal. cbn [fmap option_fmap option_map or_raise bind].
  eexists _, _, _, _. split; [reflexivity|].
  split.
  { cbn [wallets update_escrow update_wallet with_wallets with_escrow_holds
         add_transaction with_transactions].
    rewrite update_update. apply update_id. intros x _. apply unhold_wallet. }
  split; [reflexivity|].
  split.
  { cbn [transactions update_escrow update_wallet with_wallets
         with_escrow_holds add_transaction with_transactions].
    rewrite <- app_assoc. reflexivity. }
  repeat (split; [reflexivity|]).
  cbn [escrow_holds update_escrow update_wallet with_wallets
       with_escrow_holds add_transaction with_transactions].
  rewrite lookup_update_eq, lookup_snoc_length. reflexivity.
Qed.

Lemma hold_then_refund_restores_wallets_witness :
  exists db1 r1 db2 r2,
    create_escrow_hold 0%nat shipper_user sample_db = Ok (db1, r1)
    /\ refund_escrow (ehr_id r1) admin_user db1 = Ok (db2, r2)
    /\ wallets db2 = wallets sample_db.
Proof.
  destruct (create_escrow_hold 0%nat shipper_user sample_db)
    as [[db1 r1]|err] eqn:Hrun; [|vm_compute in Hrun; discriminate].
  destruct (hold_then_refund_restores_wallets 0%nat shipper_user admin_user
              sample_db db1 r1 Hrun)
    as (db2 & r2 & _ & _ & Href & Hw & _).
  by exists db1, r1, db2, r2.
Defined.

(** ** Disputes *)



Lemma DisputeStatus_of_final (res : Resolution) :
  dispute_active (DisputeStatus_of res) = false.
Proof. by destruct res. Qed.

(** X9. A dispute is settled once.  When [resolve_dispute] goes through,
    the row it returns is the stored one, carries the status of the chosen
    resolution and the resolving administrator; from then on every further
    resolution of that dispute, whatever its body and caller, is rejected
    with 400, and so is every escalation by an administrator or a party. *)
Theorem resolve_dispute_once (dispute_id : Id) (body : ResolveDisputeRequest)
    (user : User) (db db' : DB) (r : Dispute) :
  resolve_dispute dispute_id body user db = Ok (db', r) ->
  (exists d, disputes db !! dispute_id = Some d
             /\ dispute_active (dsp_status d) = true)
  /\ disputes db' !! dispute_id = Some r
  /\ dsp_status r = DisputeStatus_of (rdr_resolution body)
  /\ dsp_resolved_by_user_id r = Some (user_id user)
  /\ (forall body' user',
        resolve_dispute dispute_id body' user' db'
        = Err (HTTPException 400 CannotResolveDispute))
  /\ (forall user',
        is_admin user' = true
        \/ user_id user' = dsp_raised_by_user_id r
        \/ user_id user' = dsp_against_user_id r ->
        escalate_dispute dispute_id user' db'
        = Err (HTTPException 400 CannotEscalateDispute)).
Proof.
  intros H. unfold resolve_dispute in H. bind_inv H.
  injection H as <- <-.
  match goal with
  | Hn : negb (dispute_active _) = false |- _ =>
      apply negb_false_iff in Hn; rename Hn into Hact
  end.
  match goal with
  | Hr : disputes (update_dispute _ _ _) !! _ = Some ?x |- _ =>
      rename Hr into Hrow; rename x into r
  end.
  pose proof Hrow as Hrow'.
  cbn [disputes update_dispute with_disputes] in Hrow'.
  rewrite lookup_update_eq in Hrow'.
  destruct (disputes _ !! dispute_id) as [d1|] eqn:Hd1 in Hrow'; [|done].
  injection Hrow' as <-.
  split; [eauto|].
  split; [exact Hrow|].
  split; [reflexivity|].
  split; [reflexivity|].
  split.
  - intros body' user'. unfold resolve_dispute. rewrite Hrow.
    cbn [or_raise bind set_dispute_resolved_by set_dispute_status dsp_status].
    by rewrite DisputeStatus_of_final.
  - intros user' Hparty. unfold escalate_dispute. rewrite Hrow.
    cbn [or_raise bind].
    match goal with
    | |- context [raise_if (negb ?c) (HTTPException 403 _)] =>
        assert (c = true) as ->
    end.
    { apply orb_true_iff.
      destruct Hparty as [? | [Hp | Hp]]; [by left|right..];
        apply orb_true_iff; [left|right]; by apply bool_decide_eq_true_2. }
    cbn [negb raise_if bind set_dispute_resolved_by set_dispute_status
         dsp_status].
    by destruct (rdr_resolution body).
Qed.

Lemma resolve_dispute_once_witness :
  exists db' r,
    resolve_dispute 0%nat (mkResolveDisputeRequest resolved_courier None None)
                    admin_user disputed_db = Ok (db', r)
    /\ dsp_status r = RESOLVED_COURIER
    /\ resolve_dispute 0%nat
         (mkResolveDisputeRequest resolved_shipper None None) admin_user db'
       = Err (HTTPException 400 CannotResolveDispute).
Proof.
  destruct (resolve_dispute 0%nat
              (mkResolveDisputeRequest resolved_courier None None)
              admin_user disputed_db) as [[db' r]|err] eqn:Hrun;
    [|vm_compute in Hrun; discriminate].
  exists db', r. split; [reflexivity|].
  destruct (resolve_dispute_once _ _ _ _ _ _ Hrun)
    as (_ & _ & Hst & _ & Hagain & _).
  split; [exact Hst | apply Hagain].
Defined.

(** The tables a dispute settlement leaves alone. *)
Lemma ensure_courier_wallet_frame cw trip currency db db' cid :
  ensure_courier_wallet cw trip currency db = Ok (db', cid) ->
  trips db' = trips db /\ payout_schedules db' = payout_schedules db
  /\ momo_payments db' = momo_payments db /\ disputes db' = disputes db.
Proof.
  intros [[_ ->] | (w & _ & _ & ->)]%ensure_courier_wallet_Ok; done.
Qed.

Lemma resolve_for_courier_frame did eid e cw trip db db' :
  resolve_for_courier did eid e cw trip db = Ok db' ->
  trips db' = trips db /\ payout_schedules db' = payout_schedules db
  /\ momo_payments db' = momo_payments db
  /\ length (disputes db') = length (disputes db).
Proof.
  intros H. unfold resolve_for_courier in H. bind_inv H. injection H as <-.
  match goal with
  | Hc : ensure_courier_wallet _ _ _ _ = Ok _ |- _ =>
      apply ensure_courier_wallet_frame in Hc as (? & ? & ? & Hd)
  end.
  simpl. rewrite length_update, Hd. done.
Qed.

Lemma resolve_split_frame did eid e cw trip body db db' :
  resolve_split did eid e cw trip body db = Ok db' ->
  trips db' = trips db /\ payout_schedules db' = payout_schedules db
  /\ momo_payments db' = momo_payments db
  /\ length (disputes db') = length (disputes db).
Proof.
  intros H. unfold resolve_split in H. bind_inv H. injection H as <-.
  cbn [trips payout_schedules momo_payments disputes update_dispute
       with_disputes update_escrow with_escrow_holds].
  rewrite length_update.
  match goal with
  | Hc : split_payout _ _ _ _ _ _ = Ok _ |- _ =>
      unfold split_payout in Hc; destruct (_ >? 0) in Hc;
        [bind_inv Hc; injection Hc as <-|injection Hc as <-]
  end.
  - match goal with
    | Hc : ensure_courier_wallet _ _ _ _ = Ok _ |- _ =>
        apply ensure_courier_wallet_frame in Hc as (Ht & Hp & Hm & Hd)
    end.
    unfold split_commission, split_refund in *.
    repeat destruct (_ >? 0); simpl in *; rewrite ?Ht, ?Hp, ?Hm, ?Hd; done.
  - unfold split_commission, split_refund.
    repeat destruct (_ >? 0); done.
Qed.

(** X10. Whatever the resolution, settling a dispute changes neither the
    trip (it stays [disputed]) nor the payout schedules (none is written,
    the courier's payout included) nor the mobile-money payments, and no
    dispute row is added or removed. *)
Theorem resolve_dispute_frame (dispute_id : Id) (body : ResolveDisputeRequest)
    (user : User) (db db' : DB) (r : Dispute) :
  resolve_dispute dispute_id body user db = Ok (db', r) ->
  trips db' = trips db
  /\ payout_schedules db' = payout_schedules db
  /\ momo_payments db' = momo_payments db
  /\ length (disputes db') = length (disputes db).
Proof.
  intros H. unfold resolve_dispute in H. bind_inv H.
  injection H as <- <-.
  cbn [trips payout_schedules momo_payments disputes update_dispute
       with_disputes].
  rewrite length_update.
  destruct (rdr_resolution body).
  - match goal with Hr : Ok _ = Ok _ |- _ => injection Hr as <- end.
    unfold resolve_for_shipper. simpl. by rewrite length_update.
  - match goal with
    | Hr : resolve_for_courier _ _ _ _ _ _ = Ok _ |- _ =>
        by apply resolve_for_courier_frame in Hr
    end.
  - match goal with
    | Hr : resolve_split _ _ _ _ _ _ _ = Ok _ |- _ =>
        by apply resolve_split_frame in Hr
    end.
Qed.

Lemma resolve_dispute_frame_witness :
  exists db' r,
    resolve_dispute 0%nat (mkResolveDisputeRequest resolved_courier None None)
                    admin_user disputed_db = Ok (db', r)
    /\ trip_status <$> trips db' !! 0%nat = Some TRIP_DISPUTED
    /\ payout_schedules db' = [].
Proof.
  destruct (resolve_dispute 0%nat
              (mkResolveDisputeRequest resolved_courier None None)
              admin_user disputed_db) as [[db' r]|err] eqn:Hrun;
    [|vm_compute in Hrun; discriminate].
  exists db', r. split; [reflexivity|].
  destruct (resolve_dispute_frame _ _ _ _ _ _ Hrun) as (-> & -> & _).
  split; by vm_compute.
Defined.



(** X12. An escalation that goes through found the dispute [open] or
    [under_review] and the caller an administrator or one of its two
    parties; it changes that one dispute row to [escalated] and nothing
    else in the database.  The dispute can still be resolved, and it
    cannot be escalated a second time. *)
Theorem escalate_dispute_effects (dispute_id : Id) (user : User)
    (db db' : DB) (r : Dispute) :
  escalate_dispute dispute_id user db = Ok (db', r) ->
  exists d,
    disputes db !! dispute_id = Some d
    /\ (dsp_status d = OPEN \/ dsp_status d = UNDER_REVIEW)
    /\ (is_admin user = true
        \/ user_id user = dsp_raised_by_user_id d
        \/ user_id user = dsp_against_user_id d)
    /\ r = set_dispute_status ESCALATED d
    /\ db' = with_disputes db (<[dispute_id := r]> (disputes db))
    /\ dispute_active (dsp_status r) = true
    /\ (forall user', exists err,
          escalate_dispute dispute_id user' db' = Err err).
Proof.
  intros H. unfold escalate_dispute in H. bind_inv H.
  injection H as <- <-. rename a into d. exists d.
  match goal with
  | Hr : disputes (update_dispute _ _ _) !! _ = Some ?x |- _ =>
      simpl in Hr; rewrite lookup_update_eq in Hr;
      match type of Hr with
      | _ <$> ?o = _ => replace o with (Some d) in Hr
      end; injection Hr as <-
  end.
  split; [done|].
  split.
  { match goal with
    | Hn : negb (bool_decide (dsp_status _ = _) || _) = false |- _ =>
        apply negb_false_iff, orb_true_iff in Hn
          as [?%bool_decide_eq_true | ?%bool_decide_eq_true]; eauto
    end. }
  split.
  { match goal with
    | Hn : negb (is_admin _ || _) = false |- _ =>
        apply negb_false_iff, orb_true_iff in Hn as [? | Hp]; [by left|right]
    end.
    apply orb_true_iff in Hp
      as [?%bool_decide_eq_true | ?%bool_decide_eq_true]; eauto. }
  split; [done|].
  split.
  { unfold update_dispute. f_equal. by apply update_Some. }
  split; [done|].
  intros user'. unfold escalate_dispute. simpl.
  rewrite lookup_update_eq.
  match goal with Hd : disputes db !! _ = Some _ |- _ => rewrite Hd end.
  cbn [fmap option_fmap option_map or_raise bind].
  destruct (raise_if (negb (is_admin user' || _)) _); cbn [bind]; eauto.
Qed.

Lemma escalate_dispute_effects_witness :
  exists db' r,
    escalate_dispute 0%nat courier_user disputed_db = Ok (db', r)
    /\ dsp_status r = ESCALATED
    /\ wallets db' = wallets disputed_db.
Proof.
  destruct (escalate_dispute 0%nat courier_user disputed_db)
    as [[db' r]|err] eqn:Hrun; [|vm_compute in Hrun; discriminate].
  exists db', r. split; [reflexivity|].
  destruct (escalate_dispute_effects _ _ _ _ _ Hrun)
    as (d & _ & _ & _ & -> & -> & _).
  split; reflexivity.
Defined.

(** ** Wallet requests that are turned down *)



(** ** Wallet creation *)

(** X14. [get_or_create_wallet] returns a wallet of the user in the
    currency asked for, stored under the id returned; the table is either
    unchanged or has gained that one wallet, which is then empty and
    active.  No other wallet of the table is the user's in that currency,
    and asking again returns the same wallet and changes nothing. *)
Theorem get_or_create_wallet_idempotent (db db1 : DB) (user : User)
    (currency : string) (wid : Id) (w : Wallet) :
  get_or_create_wallet db user currency = Ok (db1, (wid, w)) ->
  wallets db1 !! wid = Some w
  /\ w_user_id w = user_id user
  /\ w_currency w = currency
  /\ (db1 = db
      \/ (wallets db1 = wallets db ++ [w]
          /\ wid = length (wallets db)
          /\ w = new_wallet (user_id user) (user_org_id user) currency))
  /\ (forall j w', wallets db1 !! j = Some w' ->
                   w_user_id w' = user_id user -> w_currency w' = currency ->
                   j = wid)
  /\ get_or_create_wallet db1 user currency = Ok (db1, (wid, w)).
Proof.
  intros H. unfold get_or_create_wallet in H. bind_inv H.
  match goal with
  | Hs : scalar_one_or_none _ = Ok ?o |- _ => destruct o as [[i x]|]
  end.
  - injection H as <- <- <-.
    match goal with
    | Hs : scalar_one_or_none _ = Ok _ |- _ =>
        pose proof (scalar_one_or_none_Some _ _ Hs) as Hsel;
        pose proof (select_singleton_inv _ _ _ _ Hsel) as (Hi & HP & Huniq)
    end.
    unfold same_user_currency in HP.
    apply andb_true_iff in HP as [?%bool_decide_eq_true ?%bool_decide_eq_true].
    repeat split; try done; [by left| |].
    + intros j w' Hj Hu Hc. apply (Huniq j w' Hj).
      unfold same_user_currency. by rewrite !bool_decide_eq_true_2.
    + unfold get_or_create_wallet. by rewrite Hsel.
  - bind_inv H. injection H as <- <- <-.
    match goal with
    | Hs : scalar_one_or_none _ = Ok None |- _ =>
        apply scalar_one_or_none_None in Hs; rename Hs into Hsel
    end.
    match goal with
    | Hadd : add_wallet _ _ = Ok _ |- _ =>
        apply add_wallet_Ok in Hadd as [-> ->]
    end.
    cbn [wallets with_wallets].
    split; [apply lookup_snoc_length|].
    do 2 (split; [reflexivity|]).
    split; [right; done|].
    split.
    + intros j w' Hj Hu Hc.
      destruct (decide (j < length (wallets db))%nat) as [Hlt|Hge].
      * rewrite lookup_app_l in Hj by done. exfalso.
        pose proof (select_nil_inv _ _ _ _ Hsel Hj) as Hf.
        unfold same_user_currency in Hf.
        by rewrite !bool_decide_eq_true_2 in Hf.
      * apply lookup_lt_Some in Hj. rewrite length_app in Hj. simpl in Hj.
        lia.
    + unfold get_or_create_wallet. cbn [wallets with_wallets].
      rewrite select_snoc, Hsel. unfold same_user_currency at 1.
      cbn [w_user_id w_currency new_wallet].
      by rewrite !bool_decide_eq_true_2.
Qed.

Lemma get_or_create_wallet_idempotent_witness :
  exists db1 wid w,
    get_or_create_wallet sample_db courier_user "GHS" = Ok (db1, (wid, w))
    /\ wid = 1%nat
    /\ get_or_create_wallet db1 courier_user "GHS" = Ok (db1, (wid, w)).
Proof.
  destruct (get_or_create_wallet sample_db courier_user "GHS")
    as [[db1 [wid w]]|err] eqn:Hrun; [|vm_compute in Hrun; discriminate].
  exists db1, wid, w. split; [reflexivity|].
  destruct (get_or_create_wallet_idempotent _ _ _ _ _ _ Hrun)
    as (_ & _ & _ & _ & _ & Hagain).
  split; [|exact Hagain].
  vm_compute in Hrun. by injection Hrun as _ <- _.
Defined.

(** ** The callback *)

(** X15. A callback whose external id matches no payment is answered 404
    and changes nothing, whatever status it reports. *)
Theorem momo_callback_unknown_key (cb : MoMoCallbackPayload) (db : DB) :
  external_id_free db (cb_external_transaction_id cb) ->
  momo_callback cb db = Err (HTTPException 404 MoMoPaymentNotFound)
  /\ step db (MoMoCallback cb) = db.
Proof.
  intros Hfree.
  assert (momo_callback cb db = Err (HTTPException 404 MoMoPaymentNotFound))
    as Hcb.
  { unfold momo_callback. by rewrite external_id_free_select. }
  split; [exact Hcb|]. unfold step, handle. by rewrite Hcb.
Qed.

Lemma momo_callback_unknown_key_witness :
  momo_callback
    (mkMoMoCallbackPayload "MOMO-FFFFFFFFFFFF" "success" None (Some 100000)
       None) sample_db
  = Err (HTTPException 404 MoMoPaymentNotFound).
Proof.
  apply momo_callback_unknown_key.
  apply (sample_external_id_free "MOMO-FFFFFFFFFFFF"). discriminate.
Defined.




(** ** Available balances never go negative *)

Lemma forallb_lookup {A : Type} (P : A -> bool) (l : list A) (i : nat) (x : A) :
  forallb P l = true -> l !! i = Some x -> P x = true.
Proof.
  revert i. induction l as [|y l IH]; intros [|i] H Hi; simpl in *; try done.
  - injection Hi as ->. by apply andb_true_iff in H as [? _].
  - apply andb_true_iff in H as [_ H]. eauto.
Qed.

Lemma forallb_snoc {A : Type} (P : A -> bool) (l : list A) (x : A) :
  forallb P l = true -> P x = true -> forallb P (l ++ [x]) = true.
Proof. intros Hl Hx. rewrite forallb_app. simpl. by rewrite Hl, Hx. Qed.

Lemma forallb_insert {A : Type} (P : A -> bool) (l : list A) (i : nat) (x : A) :
  forallb P l = true -> P x = true -> forallb P (<[i := x]> l) = true.
Proof.
  revert i. induction l as [|y l IH]; intros [|i] H Hx; simpl in *; try done.
  - apply andb_true_iff in H as [_ H]. by rewrite Hx, H.
  - apply andb_true_iff in H as [Hy H]. by rewrite Hy, IH.
Qed.

Lemma forallb_update_at {A : Type} (P : A -> bool) (f : A -> A) (l : list A)
    (i : nat) (x : A) :
  l !! i = Some x -> P (f x) = true -> forallb P l = true ->
  forallb P (update i f l) = true.
Proof.
  intros Hi Hx Hl. rewrite (update_Some f l i x Hi). by apply forallb_insert.
Qed.

Lemma forallb_update_mono {A : Type} (P : A -> bool) (f : A -> A) (l : list A)
    (i : nat) :
  (forall x, P x = true -> P (f x) = true) -> forallb P l = true ->
  forallb P (update i f l) = true.
Proof.
  intros Hf Hl. destruct (l !! i) as [x|] eqn:Hi.
  - eapply forallb_update_at; eauto. apply Hf. eapply forallb_lookup; eauto.
  - unfold update. by rewrite Hi.
Qed.

Lemma sound_intro db :
  forallb (fun w => 0 <=? w_balance w) (wallets db) = true ->
  forallb (fun e => 0 <=? esc_amount e) (escrow_holds db) = true ->
  forallb (fun m => (0 <=? momo_amount m) && (0 <=? momo_fee m))
          (momo_payments db) = true ->
  forallb (fun t => match trip_bid t with
                    | Some b => 0 <=? bid_price b
                    | None => true
                    end) (trips db) = true ->
  sound db = true.
Proof. intros H1 H2 H3 H4. unfold sound. by rewrite H1, H2, H3, H4. Qed.

Lemma sound_elim db :
  sound db = true ->
  forallb (fun w => 0 <=? w_balance w) (wallets db) = true
  /\ forallb (fun e => 0 <=? esc_amount e) (escrow_holds db) = true
  /\ forallb (fun m => (0 <=? momo_amount m) && (0 <=? momo_fee m))
             (momo_payments db) = true
  /\ forallb (fun t => match trip_bid t with
                       | Some b => 0 <=? bid_price b
                       | None => true
                       end) (trips db) = true.
Proof.
  unfold sound. intros H.
  apply andb_true_iff in H as [H H4]. apply andb_true_iff in H as [H H3].
  apply andb_true_iff in H as [H1 H2]. done.
Qed.

(** Goals [forallb P table = true] over the tables an endpoint wrote. *)
Ltac mono_goal :=
  let x := fresh "x" in
  let Hx := fresh "Hx" in
  intros x Hx;
  first [ exact Hx
        | apply Z.leb_le in Hx; apply Z.leb_le; simpl; lia ].

Ltac table_goal :=
  repeat match goal with
  | |- forallb _ (_ ++ [_]) = true => apply forallb_snoc
  | |- forallb _ (update _ _ _) = true =>
      apply forallb_update_mono; [solve [mono_goal]|]
  | |- forallb _ _ = true => assumption
  | |- (0 <=? _) = true => apply Z.leb_le; simpl; lia
  | |- (_ && _) = true => apply andb_true_intro; split
  end.

Lemma create_escrow_hold_sound trip_id user db db' r :
  create_escrow_hold trip_id user db = Ok (db', r) ->
  sound db = true -> sound db' = true.
Proof.
  intros H (Hw & He & Hm & Ht)%sound_elim.
  unfold create_escrow_hold in H. bind_inv H. injection H as <- <-.
  match goal with
  | Hg : get_wallet_for_user _ _ _ = Ok (Some _) |- _ =>
      apply get_wallet_for_user_Some in Hg as (Hwal & _ & _)
  end.
  match goal with
  | Hlt : (_ <? _) = false |- _ => apply Z.ltb_ge in Hlt
  end.
  match goal with
  | Htr : trips db !! _ = Some ?t, Hb : trip_bid ?t = Some _ |- _ =>
      pose proof (forallb_lookup _ _ _ _ Ht Htr) as Hprice;
      simpl in Hprice; rewrite Hb in Hprice; apply Z.leb_le in Hprice
  end.
  apply sound_intro; simpl; table_goal.
  eapply forallb_update_at; [eassumption| |assumption].
  apply Z.leb_le. simpl. lia.
Qed.

Ltac hold_amount He :=
  match goal with
  | Hh : escrow_holds _ !! _ = Some ?e |- _ =>
      let Hamt := fresh "Hamt" in
      pose proof (forallb_lookup _ _ _ _ He Hh) as Hamt;
      simpl in Hamt; apply Z.leb_le in Hamt;
      pose proof (commission_range (esc_amount e) Hamt)
  end.

Lemma release_escrow_sound id user db db' r :
  release_escrow id user db = Ok (db', r) ->
  sound db = true -> sound db' = true.
Proof.
  intros H (Hw & He & Hm & Ht)%sound_elim.
  unfold release_escrow in H. bind_inv H. injection H as <- <-.
  rewrite !round2_id in *. hold_amount He.
  destruct (courier_wallet_of _ _) as [cid|].
  - match goal with Hc : Ok _ = Ok _ |- _ => injection Hc as <- <- end.
    apply sound_intro; simpl; table_goal.
  - match goal with
    | Hc : bind _ _ = Ok _ |- _ => bind_inv Hc; injection Hc as <- <-
    end.
    match goal with
    | Hadd : add_wallet _ _ = Ok _ |- _ =>
        apply add_wallet_Ok in Hadd as [-> ->]
    end.
    apply sound_intro; simpl; table_goal.
Qed.

Lemma refund_escrow_sound id user db db' r :
  refund_escrow id user db = Ok (db', r) ->
  sound db = true -> sound db' = true.
Proof.
  intros H (Hw & He & Hm & Ht)%sound_elim.
  unfold refund_escrow in H. bind_inv H. injection H as <- <-.
  hold_amount He.
  apply sound_intro; simpl; table_goal.
Qed.

Lemma open_dispute_sound body user db db' r :
  open_dispute body user db = Ok (db', r) ->
  sound db = true -> sound db' = true.
Proof.
  intros H (Hw & He & Hm & Ht)%sound_elim.
  unfold open_dispute in H. bind_inv H. injection H as <- <-.
  destruct (bool_decide (esc_status _ = HELD));
    apply sound_intro; simpl; table_goal.
Qed.

Lemma escalate_dispute_sound id user db db' r :
  escalate_dispute id user db = Ok (db', r) ->
  sound db = true -> sound db' = true.
Proof.
  intros H (Hw & He & Hm & Ht)%sound_elim.
  unfold escalate_dispute in H. bind_inv H. injection H as <- <-.
  apply sound_intro; simpl; table_goal.
Qed.

Lemma ensure_courier_wallet_sound cw trip currency db db' cid :
  ensure_courier_wallet cw trip currency db = Ok (db', cid) ->
  sound db = true -> sound db' = true.
Proof.
  intros H (Hw & He & Hm & Ht)%sound_elim.
  unfold ensure_courier_wallet in H. destruct cw as [c|].
  - injection H as <- <-. by apply sound_intro.
  - destruct trip as [t|]; [|discriminate].
    apply add_wallet_Ok in H as [-> ->].
    apply sound_intro; simpl; table_goal.
Qed.

Lemma resolve_dispute_sound id body user db db' r :
  valid_resolve_request body = true ->
  resolve_dispute id body user db = Ok (db', r) ->
  sound db = true -> sound db' = true.
Proof.
  intros Hv H Hs. pose proof Hs as (Hw & He & Hm & Ht)%sound_elim.
  unfold valid_resolve_request in Hv.
  apply andb_true_iff in Hv as [Hr%Z.leb_le Hp%Z.leb_le].
  unfold resolve_dispute in H. bind_inv H. injection H as <- <-.
  hold_amount He.
  destruct (rdr_resolution body).
  - match goal with Hc : Ok _ = Ok _ |- _ => injection Hc as <- end.
    unfold resolve_for_shipper.
    apply sound_intro; simpl; table_goal.
  - match goal with
    | Hc : resolve_for_courier _ _ _ _ _ _ = Ok _ |- _ =>
        unfold resolve_for_courier in Hc; bind_inv Hc; injection Hc as <-
    end.
    rewrite !round2_id in *.
    match goal with
    | Hc : ensure_courier_wallet _ _ _ ?d = Ok _ |- _ =>
        assert (sound d = true) as Hs1
          by (apply sound_intro; simpl; table_goal);
        apply (ensure_courier_wallet_sound _ _ _ _ _ _ Hc) in Hs1
          as (Hw1 & He1 & Hm1 & Ht1)%sound_elim
    end.
    unfold credit_courier.
    apply sound_intro; simpl; table_goal.
  - match goal with
    | Hc : resolve_split _ _ _ _ _ _ _ = Ok _ |- _ =>
        unfold resolve_split in Hc; bind_inv Hc; injection Hc as <-
    end.
    match goal with
    | Hc : split_payout _ _ _ _ _ ?d = Ok _ |- _ =>
        assert (sound d = true) as Hs1;
          [|unfold split_payout in Hc; destruct (_ >? 0) in Hc;
            [bind_inv Hc; injection Hc as <-|injection Hc as <-]]
    end.
    { unfold split_refund. destruct (_ >? 0);
        apply sound_intro; simpl; table_goal. }
    + match goal with
      | Hc : ensure_courier_wallet _ _ _ _ = Ok _ |- _ =>
          apply (ensure_courier_wallet_sound _ _ _ _ _ _ Hc) in Hs1
            as (Hw1 & He1 & Hm1 & Ht1)%sound_elim
      end.
      unfold split_commission, credit_courier. destruct (_ >? 0);
        apply sound_intro; simpl; table_goal.
    + apply sound_elim in Hs1 as (Hw1 & He1 & Hm1 & Ht1).
      unfold split_commission. destruct (_ >? 0);
        apply sound_intro; simpl; table_goal.
Qed.

Lemma get_or_create_wallet_sound db user currency db' wid w :
  get_or_create_wallet db user currency = Ok (db', (wid, w)) ->
  sound db = true -> sound db' = true /\ wallets db' !! wid = Some w.
Proof.
  intros H Hs. pose proof Hs as (Hw & He & Hm & Ht)%sound_elim.
  unfold get_or_create_wallet in H. bind_inv H.
  match goal with
  | Hsel : scalar_one_or_none _ = Ok ?o |- _ => destruct o as [[i x]|]
  end.
  - injection H as <- <- <-. split; [done|].
    match goal with
    | Hsel : scalar_one_or_none _ = Ok _ |- _ =>
        by apply scalar_select_Some in Hsel as [? _]
    end.
  - bind_inv H. injection H as <- <- <-.
    match goal with
    | Hadd : add_wallet _ _ = Ok _ |- _ =>
        apply add_wallet_Ok in Hadd as [-> ->]
    end.
    split; [|apply lookup_snoc_length].
    apply sound_intro; simpl; table_goal.
Qed.

Lemma add_momo_payment_Ok db m db' mid :
  add_momo_payment db m = Ok (db', mid) ->
  db' = with_momo_payments db (momo_payments db ++ [m])
  /\ mid = length (momo_payments db).
Proof.
  unfold add_momo_payment. destruct (select _ _); [|discriminate].
  intros [= <- <-]. done.
Qed.

Lemma deposit_momo_sound body user hex db db' r :
  valid_deposit_request body = true ->
  deposit_momo body user hex db = Ok (db', r) ->
  sound db = true -> sound db' = true.
Proof.
  intros Hv H Hs. unfold valid_deposit_request in Hv.
  repeat (apply andb_true_iff in Hv as [Hv ?]). apply Z.ltb_lt in Hv.
  unfold deposit_momo in H. bind_inv H. injection H as <- <-.
  match goal with
  | Hg : get_or_create_wallet _ _ _ = Ok _ |- _ =>
      apply get_or_create_wallet_sound in Hg
        as [(Hw & He & Hm & Ht)%sound_elim _]; [|done]
  end.
  match goal with
  | Hadd : add_momo_payment _ _ = Ok _ |- _ =>
      apply add_momo_payment_Ok in Hadd as [-> ->]
  end.
  apply sound_intro; simpl; table_goal.
Qed.

Lemma withdraw_momo_sound body user hex db db' r :
  valid_withdraw_request body = true ->
  withdraw_momo body user hex db = Ok (db', r) ->
  sound db = true -> sound db' = true.
Proof.
  intros Hv H Hs. unfold valid_withdraw_request in Hv.
  repeat (apply andb_true_iff in Hv as [Hv ?]). apply Z.ltb_lt in Hv.
  pose proof (withdrawal_fee_range (wd_amount body)) as Hfee.
  unfold withdraw_momo in H. bind_inv H. injection H as <- <-.
  match goal with
  | Hg : get_or_create_wallet _ _ _ = Ok _ |- _ =>
      apply get_or_create_wallet_sound in Hg
        as [(Hw & He & Hm & Ht)%sound_elim Hwal]; [|done]
  end.
  match goal with
  | Hadd : add_momo_payment _ _ = Ok _ |- _ =>
      apply add_momo_payment_Ok in Hadd as [-> ->]
  end.
  match goal with
  | Hlt : (_ <? _) = false |- _ => apply Z.ltb_ge in Hlt
  end.
  apply sound_intro; simpl; table_goal.
  eapply forallb_update_at; [eassumption| |assumption].
  apply Z.leb_le. simpl. lia.
Qed.

Lemma momo_callback_sound body db db' msg :
  momo_callback body db = Ok (db', msg) ->
  sound db = true -> sound db' = true.
Proof.
  intros H Hs. pose proof Hs as (Hw & He & Hm & Ht)%sound_elim.
  unfold momo_callback in H. bind_inv H.
  match goal with
  | Hsel : scalar_one_or_none _ = Ok (Some (_, ?m)) |- _ =>
      apply scalar_select_Some in Hsel as [Hrow _];
      pose proof (forallb_lookup _ _ _ _ Hm Hrow) as Hamt;
      simpl in Hamt;
      apply andb_true_iff in Hamt as [Hamt%Z.leb_le Hfee%Z.leb_le];
      rename m into momo
  end.
  destruct (_ || _) in H; [by injection H as <- <-|].
  bind_inv H. injection H as <- <-.
  match goal with
  | Hc : (if bool_decide _ then _ else _) = Ok _ |- _ => rename Hc into Hcb
  end.
  destruct (bool_decide _) in Hcb.
  - unfold callback_success in Hcb.
    destruct (momo_direction momo).
    + bind_inv Hcb. injection Hcb as <-.
      unfold update_linked_txn. destruct (momo_transaction_id momo);
        apply sound_intro; simpl; table_goal.
    + injection Hcb as <-.
      unfold update_linked_txn. destruct (momo_transaction_id momo);
        apply sound_intro; simpl; table_goal.
  - destruct (_ || _) in Hcb; [|by injection Hcb as <-].
    unfold callback_failure in Hcb. bind_inv Hcb. injection Hcb as <-.
    match goal with
    | Hc : match momo_direction momo with _ => _ end = Ok _ |- _ =>
        destruct (momo_direction momo);
          [injection Hc as <-|bind_inv Hc; injection Hc as <-]
    end;
      unfold update_linked_txn; destruct (momo_transaction_id momo);
      apply sound_intro; simpl; table_goal.
Qed.

Lemma handle_sound r db db' :
  handle r db = Ok db' -> sound db = true -> sound db' = true.
Proof.
  intros H Hs. destruct r; simpl in H; bind_inv H;
    try match goal with
    | Hu : require_any_authenticated _ = Ok _ |- _ =>
        apply RoleChecker_Ok in Hu as ->
    | Hu : require_system_admin _ = Ok _ |- _ =>
        apply RoleChecker_Ok in Hu as ->
    end;
    try match goal with
    | Hv : negb _ = false |- _ => apply negb_false_iff in Hv
    end;
    injection H as <-.
  - eapply create_escrow_hold_sound; eauto.
  - eapply release_escrow_sound; eauto.
  - eapply refund_escrow_sound; eauto.
  - eapply open_dispute_sound; eauto.
  - eapply resolve_dispute_sound; eauto.
  - eapply escalate_dispute_sound; eauto.
  - eapply deposit_momo_sound; eauto.
  - eapply withdraw_momo_sound; eauto.
  - eapply momo_callback_sound; eauto.
  - apply sound_elim in Hs as (Hw & He & Hm & Ht).
    unfold trip_signal. apply sound_intro; simpl; table_goal.
Qed.

Lemma balance_of_nonneg db j : sound db = true -> 0 <= balance_of db j.
Proof.
  intros (Hw & _)%sound_elim. unfold balance_of.
  destruct (wallets db !! j) as [w|] eqn:Hj; [|lia].
  apply (forallb_lookup _ _ _ _ Hw) in Hj. by apply Z.leb_le in Hj.
Qed.

(** X17. No sequence of requests overdraws a wallet.  Starting from a
    database in which no available balance and no recorded amount is
    negative, every request of the API, accepted or rejected, leads to
    such a database again; so after any sequence of requests the available
    balance of every wallet is at least zero. *)
Theorem available_balance_never_negative (db : DB) (rs : list Request)
    (j : Id) :
  sound db = true ->
  sound (run rs db) = true /\ 0 <= balance_of (run rs db) j.
Proof.
  intros Hs. assert (sound (run rs db) = true) as Hrun.
  { revert db Hs. induction rs as [|r rs IH]; intros db Hs; [done|].
    simpl. apply IH. unfold step.
    destruct (handle r db) as [db'|] eqn:Hh; [|done].
    by apply (handle_sound r db db'). }
  split; [done | by apply balance_of_nonneg].
Qed.

Lemma available_balance_never_negative_witness :
  0 <= balance_of
         (run [HoldForTrip 0%nat shipper_user;
               Withdraw (mkMoMoWithdrawRequest 99000 "GHS" MTN "0241234567")
                        shipper_user "0A1B2C3D4E5F";
               Withdraw (mkMoMoWithdrawRequest 99000 "GHS" MTN "0241234567")
                        shipper_user "0A1B2C3D4E60"]
              sample_db) 0%nat.
Proof.
  apply available_balance_never_negative. reflexivity.
Defined.

(** ** The ledger is append-only *)

Lemma map_update_same {A B : Type} (g : A -> B) (f : A -> A) (i : Id)
    (l : list A) :
  (forall x, g (f x) = g x) -> map g (update i f l) = map g l.
Proof.
  intros Hf. unfold update. destruct (l !! i) as [x|] eqn:Hx; [|done].
  apply list_eq. intros j. rewrite !list_lookup_fmap.
  destruct (decide (i = j)) as [<-|Hne].
  - rewrite list_lookup_insert_eq by (eapply lookup_lt_Some; eauto).
    rewrite Hx. simpl. by rewrite Hf.
  - by rewrite list_lookup_insert_ne.
Qed.

Lemma ledger_extends_refl db : ledger_extends db db.
Proof. exists []. by rewrite app_nil_r. Qed.

Lemma ledger_extends_trans db db1 db2 :
  ledger_extends db db1 -> ledger_extends db1 db2 -> ledger_extends db db2.
Proof.
  intros [k1 H1] [k2 H2]. exists (k1 ++ k2). by rewrite H2, H1, app_assoc.
Qed.

Lemma ledger_extends_frame db db1 db2 :
  transactions db2 = transactions db1 ->
  ledger_extends db db1 -> ledger_extends db db2.
Proof. intros H [k Hk]. exists k. by rewrite H. Qed.

Lemma ledger_extends_add db db1 t :
  ledger_extends db db1 -> ledger_extends db (add_transaction t db1).
Proof.
  intros [k Hk]. eexists. simpl. by rewrite map_app, Hk, <- app_assoc.
Qed.

Lemma ledger_extends_update db db1 i f :
  (forall t, ledger_entry (f t) = ledger_entry t) ->
  ledger_extends db db1 -> ledger_extends db (update_transaction i f db1).
Proof.
  intros Hf [k Hk]. exists k. simpl. by rewrite map_update_same.
Qed.

(** Peel the writes of an endpoint off a goal [ledger_extends db db']. *)
Ltac ledger_frame x := apply (ledger_extends_frame _ x); [reflexivity|].

Ltac ledger_goal :=
  repeat match goal with
  | |- ledger_extends ?d ?d => apply ledger_extends_refl
  | |- ledger_extends _ (add_transaction _ _) => apply ledger_extends_add
  | |- ledger_extends _ (update_transaction _ _ _) =>
      apply ledger_extends_update; [intros ?; reflexivity|]
  | |- ledger_extends _ (update_wallet _ _ ?x) => ledger_frame x
  | |- ledger_extends _ (credit_courier _ _ ?x) => ledger_frame x
  | |- ledger_extends _ (update_escrow _ _ ?x) => ledger_frame x
  | |- ledger_extends _ (update_dispute _ _ ?x) => ledger_frame x
  | |- ledger_extends _ (update_momo _ _ ?x) => ledger_frame x
  | |- ledger_extends _ (with_wallets ?x _) => ledger_frame x
  | |- ledger_extends _ (with_escrow_holds ?x _) => ledger_frame x
  | |- ledger_extends _ (with_momo_payments ?x _) => ledger_frame x
  | |- ledger_extends _ (with_payout_schedules ?x _) => ledger_frame x
  | |- ledger_extends _ (with_disputes ?x _) => ledger_frame x
  | |- ledger_extends _ (with_trips ?x _) => ledger_frame x
  | |- ledger_extends _ (trip_signal _ _ ?x) => ledger_frame x
  | |- ledger_extends _ (update_linked_txn ?m _ _) =>
      unfold update_linked_txn; destruct (momo_transaction_id m)
  | |- ledger_extends _ (if ?c then _ else _) => destruct c
  end.

Lemma ensure_courier_wallet_ledger cw trip currency db0 db db' cid :
  ensure_courier_wallet cw trip currency db = Ok (db', cid) ->
  ledger_extends db0 db -> ledger_extends db0 db'.
Proof.
  intros [[_ ->] | (w & _ & _ & ->)]%ensure_courier_wallet_Ok H; [done|].
  by ledger_goal.
Qed.

Lemma get_or_create_wallet_Ok db user currency db' wid w :
  get_or_create_wallet db user currency = Ok (db', (wid, w)) ->
  db' = db \/ db' = with_wallets db (wallets db ++ [w]).
Proof.
  intros H. unfold get_or_create_wallet in H. bind_inv H.
  match goal with
  | Hsel : scalar_one_or_none _ = Ok ?o |- _ => destruct o as [[i x]|]
  end.
  - injection H as <- <- <-. by left.
  - bind_inv H. injection H as <- <- <-.
    match goal with
    | Hadd : add_wallet _ _ = Ok _ |- _ =>
        apply add_wallet_Ok in Hadd as [-> ->]
    end.
    by right.
Qed.

Lemma get_or_create_wallet_ledger db user currency db' wid w :
  get_or_create_wallet db user currency = Ok (db', (wid, w)) ->
  ledger_extends db db'.
Proof.
  intros [-> | ->]%get_or_create_wallet_Ok; by ledger_goal.
Qed.

Lemma handle_ledger r db db' :
  handle r db = Ok db' -> ledger_extends db db'.
Proof.
  intros H. destruct r; simpl in H; bind_inv H; injection H as <-.
  - (* hold *)
    match goal with
    | Hc : create_escrow_hold _ _ _ = Ok _ |- _ =>
        unfold create_escrow_hold in Hc; bind_inv Hc; injection Hc as <- <-
    end.
    by ledger_goal.
  - (* release *)
    match goal with
    | Hc : release_escrow _ _ _ = Ok _ |- _ =>
        unfold release_escrow in Hc; bind_inv Hc; injection Hc as <- <-
    end.
    destruct (courier_wallet_of _ _).
    + match goal with Hc : Ok _ = Ok _ |- _ => injection Hc as <- <- end.
      by ledger_goal.
    + match goal with
      | Hc : bind _ _ = Ok _ |- _ => bind_inv Hc; injection Hc as <- <-
      end.
      match goal with
      | Hadd : add_wallet _ _ = Ok _ |- _ =>
          apply add_wallet_Ok in Hadd as [-> ->]
      end.
      by ledger_goal.
  - (* refund *)
    match goal with
    | Hc : refund_escrow _ _ _ = Ok _ |- _ =>
        unfold refund_escrow in Hc; bind_inv Hc; injection Hc as <- <-
    end.
    by ledger_goal.
  - (* open dispute *)
    match goal with
    | Hc : open_dispute _ _ _ = Ok _ |- _ =>
        unfold open_dispute in Hc; bind_inv Hc; injection Hc as <- <-
    end.
    by ledger_goal.
  - (* resolve *)
    match goal with
    | Hc : resolve_dispute _ _ _ _ = Ok _ |- _ =>
        unfold resolve_dispute in Hc; bind_inv Hc; injection Hc as <- <-
    end.
    destruct (rdr_resolution _).
    + match goal with Hc : Ok _ = Ok _ |- _ => injection Hc as <- end.
      unfold resolve_for_shipper. by ledger_goal.
    + match goal with
      | Hc : resolve_for_courier _ _ _ _ _ _ = Ok _ |- _ =>
          unfold resolve_for_courier in Hc; bind_inv Hc; injection Hc as <-
      end.
      ledger_goal.
      eapply ensure_courier_wallet_ledger; [eassumption|]. by ledger_goal.
    + match goal with
      | Hc : resolve_split _ _ _ _ _ _ _ = Ok _ |- _ =>
          unfold resolve_split in Hc; bind_inv Hc; injection Hc as <-
      end.
      ledger_goal. unfold split_commission.
      match goal with
      | Hc : split_payout _ _ _ _ _ _ = Ok _ |- _ =>
          unfold split_payout in Hc; destruct (_ >? 0) in Hc;
            [bind_inv Hc; injection Hc as <-|injection Hc as <-]
      end.
      * ledger_goal;
          (eapply ensure_courier_wallet_ledger; [eassumption|]);
          unfold split_refund; by ledger_goal.
      * unfold split_refund; by ledger_goal.
  - (* escalate *)
    match goal with
    | Hc : escalate_dispute _ _ _ = Ok _ |- _ =>
        unfold escalate_dispute in Hc; bind_inv Hc; injection Hc as <- <-
    end.
    by ledger_goal.
  - (* deposit *)
    match goal with
    | Hc : deposit_momo _ _ _ _ = Ok _ |- _ =>
        unfold deposit_momo in Hc; bind_inv Hc; injection Hc as <- <-
    end.
    match goal with
    | Hadd : add_momo_payment _ _ = Ok _ |- _ =>
        apply add_momo_payment_Ok in Hadd as [-> ->]
    end.
    ledger_goal. eapply get_or_create_wallet_ledger; eassumption.
  - (* withdraw *)
    match goal with
    | Hc : withdraw_momo _ _ _ _ = Ok _ |- _ =>
        unfold withdraw_momo in Hc; bind_inv Hc; injection Hc as <- <-
    end.
    match goal with
    | Hadd : add_momo_payment _ _ = Ok _ |- _ =>
        apply add_momo_payment_Ok in Hadd as [-> ->]
    end.
    ledger_goal. eapply get_or_create_wallet_ledger; eassumption.
  - (* callback *)
    match goal with
    | Hc : momo_callback _ _ = Ok _ |- _ =>
        unfold momo_callback in Hc; bind_inv Hc
    end.
    match goal with
    | Hc : (if _ || _ then _ else _) = Ok _ |- _ =>
        destruct (_ || _) in Hc; [by injection Hc as <- <-; ledger_goal|];
        bind_inv Hc; injection Hc as <- <-
    end.
    match goal with
    | Hc : (if bool_decide _ then _ else _) = Ok _ |- _ => rename Hc into Hcb
    end.
    destruct (bool_decide _) in Hcb.
    + unfold callback_success in Hcb.
      destruct (momo_direction _);
        [bind_inv Hcb; injection Hcb as <-|injection Hcb as <-];
        by ledger_goal.
    + destruct (_ || _) in Hcb; [|by injection Hcb as <-; ledger_goal].
      unfold callback_failure in Hcb. bind_inv Hcb. injection Hcb as <-.
      match goal with
      | Hc : match momo_direction ?m with _ => _ end = Ok _ |- _ =>
          destruct (momo_direction m);
            [injection Hc as <-|bind_inv Hc; injection Hc as <-]
      end; by ledger_goal.
  - (* trip signal *)
    by ledger_goal.
Qed.

(** X18. The ledger is append-only.  No request, accepted or rejected,
    removes a ledger row or changes the wallet, the type, the amount, the
    currency, the fee or the net amount of a row already written: after
    any sequence of requests the old rows are still there, in place, with
    those columns as they were (status, balance after and reference are
    the only columns a later request rewrites). *)
Theorem ledger_append_only (db : DB) (rs : list Request) (i : Id)
    (t : Transaction) :
  transactions db !! i = Some t ->
  exists t', transactions (run rs db) !! i = Some t'
             /\ ledger_entry t' = ledger_entry t.
Proof.
  intros Hi.
  assert (forall db0, ledger_extends db0 (run rs db0)) as Hrun.
  { induction rs as [|r rs IH]; intros db0.
    - apply ledger_extends_refl.
    - simpl. eapply ledger_extends_trans; [|apply IH].
      unfold step. destruct (handle r db0) as [db'|] eqn:Hh.
      + by apply (handle_ledger r).
      + apply ledger_extends_refl. }
  destruct (Hrun db) as [k Hk].
  assert (map ledger_entry (transactions (run rs db)) !! i
          = Some (ledger_entry t)) as Hi'.
  { rewrite Hk, lookup_app_l.
    - by rewrite list_lookup_fmap, Hi.
    - rewrite length_map. eapply lookup_lt_Some; eauto. }
  rewrite list_lookup_fmap in Hi'.
  destruct (transactions (run rs db) !! i) as [t'|]; [|done].
  exists t'. split; [done|]. simpl in Hi'. congruence.
Qed.

Lemma ledger_append_only_witness :
  exists t',
    transactions
      (run [HoldForTrip 0%nat shipper_user; TripSignal 0%nat CONFIRMED;
            Release 0%nat shipper_user;
            MoMoCallback
              (mkMoMoCallbackPayload "MOMO-000000000001" "failed" None None
                 None)]
           sample_db) !! 0%nat = Some t'
    /\ ledger_entry t'
       = (0%nat, DEPOSIT, 200000, "GHS", 0, 200000).
Proof.
  exact (ledger_append_only sample_db _ 0%nat
           (mkTransaction 0%nat DEPOSIT 200000 "GHS" 0 200000 200000
              TXN_COMPLETED (Some REF_MOMO_PAYMENT) (Some 0%nat))
           eq_refl).
Defined.

(** ** A processed payment is final *)

Lemma processed_kept_refl db : processed_kept db db.
Proof. by intros i m. Qed.

Lemma processed_kept_trans db db1 db2 :
  processed_kept db db1 -> processed_kept db1 db2 -> processed_kept db db2.
Proof. intros H1 H2 i m Hi Hp. eauto. Qed.

Lemma processed_kept_frame db db1 db2 :
  momo_payments db2 = momo_payments db1 ->
  processed_kept db db1 -> processed_kept db db2.
Proof. intros H H1 i m Hi Hp. rewrite H. eauto. Qed.

Lemma processed_kept_add db db1 m :
  processed_kept db db1 ->
  processed_kept db (with_momo_payments db1 (momo_payments db1 ++ [m])).
Proof.
  intros H1 i x Hi Hp. simpl. apply lookup_app_l_Some. eauto.
Qed.

Lemma processed_kept_update db db1 id x f :
  momo_payments db1 !! id = Some x -> already_processed x = false ->
  processed_kept db db1 -> processed_kept db (update_momo id f db1).
Proof.
  intros Hx Hnp H1 i m Hi Hp. simpl.
  rewrite lookup_update_ne; [eauto|].
  intros <-. rewrite (H1 _ _ Hi Hp) in Hx. congruence.
Qed.

Lemma release_escrow_momo id user db db' r :
  release_escrow id user db = Ok (db', r) ->
  momo_payments db' = momo_payments db.
Proof.
  intros H. unfold release_escrow in H. bind_inv H. injection H as <- <-.
  destruct (courier_wallet_of _ _).
  - match goal with Hc : Ok _ = Ok _ |- _ => by injection Hc as <- <- end.
  - match goal with
    | Hc : bind _ _ = Ok _ |- _ => bind_inv Hc; injection Hc as <- <-
    end.
    match goal with
    | Hadd : add_wallet _ _ = Ok _ |- _ =>
        by apply add_wallet_Ok in Hadd as [-> ->]
    end.
Qed.

Lemma resolve_dispute_momo id body user db db' r :
  resolve_dispute id body user db = Ok (db', r) ->
  momo_payments db' = momo_payments db.
Proof.
  intros H. unfold resolve_dispute in H. bind_inv H. injection H as <- <-.
  cbn [momo_payments update_dispute with_disputes].
  destruct (rdr_resolution body).
  - match goal with Hr : Ok _ = Ok _ |- _ => by injection Hr as <- end.
  - match goal with
    | Hr : resolve_for_courier _ _ _ _ _ _ = Ok _ |- _ =>
        by apply resolve_for_courier_frame in Hr as (_ & _ & ? & _)
    end.
  - match goal with
    | Hr : resolve_split _ _ _ _ _ _ _ = Ok _ |- _ =>
        by apply resolve_split_frame in Hr as (_ & _ & ? & _)
    end.
Qed.

Ltac kept_frame x := apply (processed_kept_frame _ x); [reflexivity|].

Ltac kept_goal :=
  repeat match goal with
  | |- processed_kept ?d ?d => apply processed_kept_refl
  | |- processed_kept _ (add_transaction _ ?x) => kept_frame x
  | |- processed_kept _ (update_transaction _ _ ?x) => kept_frame x
  | |- processed_kept _ (update_wallet _ _ ?x) => kept_frame x
  | |- processed_kept _ (credit_courier _ _ ?x) => kept_frame x
  | |- processed_kept _ (update_escrow _ _ ?x) => kept_frame x
  | |- processed_kept _ (update_dispute _ _ ?x) => kept_frame x
  | |- processed_kept _ (with_wallets ?x _) => kept_frame x
  | |- processed_kept _ (with_escrow_holds ?x _) => kept_frame x
  | |- processed_kept _ (with_payout_schedules ?x _) => kept_frame x
  | |- processed_kept _ (with_disputes ?x _) => kept_frame x
  | |- processed_kept _ (with_trips ?x _) => kept_frame x
  | |- processed_kept _ (trip_signal _ _ ?x) => kept_frame x
  | |- processed_kept _ (with_momo_payments ?x (momo_payments ?x ++ [_])) =>
      apply processed_kept_add
  | |- processed_kept _ (update_linked_txn ?m _ _) =>
      unfold update_linked_txn; destruct (momo_transaction_id m)
  | |- processed_kept _ (if ?c then _ else _) => destruct c
  end.

Lemma get_or_create_wallet_kept db user currency db' wid w :
  get_or_create_wallet db user currency = Ok (db', (wid, w)) ->
  processed_kept db db'.
Proof.
  intros [-> | ->]%get_or_create_wallet_Ok; by kept_goal.
Qed.

Lemma handle_processed_kept r db db' :
  handle r db = Ok db' -> processed_kept db db'.
Proof.
  intros H. destruct r; simpl in H; bind_inv H; injection H as <-.
  - match goal with
    | Hc : create_escrow_hold _ _ _ = Ok _ |- _ =>
        unfold create_escrow_hold in Hc; bind_inv Hc; injection Hc as <- <-
    end.
    by kept_goal.
  - match goal with
    | Hc : release_escrow _ _ _ = Ok (?d, _) |- _ =>
        apply release_escrow_momo in Hc
    end.
    by apply (processed_kept_frame _ db); [|apply processed_kept_refl].
  - match goal with
    | Hc : refund_escrow _ _ _ = Ok _ |- _ =>
        unfold refund_escrow in Hc; bind_inv Hc; injection Hc as <- <-
    end.
    by kept_goal.
  - match goal with
    | Hc : open_dispute _ _ _ = Ok _ |- _ =>
        unfold open_dispute in Hc; bind_inv Hc; injection Hc as <- <-
    end.
    by kept_goal.
  - match goal with
    | Hc : resolve_dispute _ _ _ _ = Ok _ |- _ =>
        apply resolve_dispute_momo in Hc
    end.
    by apply (processed_kept_frame _ db); [|apply processed_kept_refl].
  - match goal with
    | Hc : escalate_dispute _ _ _ = Ok _ |- _ =>
        unfold escalate_dispute in Hc; bind_inv Hc; injection Hc as <- <-
    end.
    by kept_goal.
  - match goal with
    | Hc : deposit_momo _ _ _ _ = Ok _ |- _ =>
        unfold deposit_momo in Hc; bind_inv Hc; injection Hc as <- <-
    end.
    match goal with
    | Hadd : add_momo_payment _ _ = Ok _ |- _ =>
        apply add_momo_payment_Ok in Hadd as [-> ->]
    end.
    kept_goal. eapply get_or_create_wallet_kept; eassumption.
  - match goal with
    | Hc : withdraw_momo _ _ _ _ = Ok _ |- _ =>
        unfold withdraw_momo in Hc; bind_inv Hc; injection Hc as <- <-
    end.
    match goal with
    | Hadd : add_momo_payment _ _ = Ok _ |- _ =>
        apply add_momo_payment_Ok in Hadd as [-> ->]
    end.
    kept_goal. eapply get_or_create_wallet_kept; eassumption.
  - match goal with
    | Hc : momo_callback _ _ = Ok _ |- _ =>
        unfold momo_callback in Hc; bind_inv Hc
    end.
    match goal with
    | Hsel : scalar_one_or_none _ = Ok (Some (_, ?m)) |- _ =>
        apply scalar_select_Some in Hsel as [Hrow _]; rename m into momo
    end.
    match goal with
    | Hc : (if ?c then _ else _) = Ok _ |- _ =>
        change c with (already_processed momo) in Hc;
        destruct (already_processed momo) eqn:Hnp;
          [by injection Hc as <- <-; kept_goal|];
        bind_inv Hc; injection Hc as <- <-
    end.
    match goal with
    | Hc : (if bool_decide _ then _ else _) = Ok _ |- _ => rename Hc into Hcb
    end.
    destruct (bool_decide _) in Hcb.
    + unfold callback_success in Hcb.
      destruct (momo_direction _);
        [bind_inv Hcb; injection Hcb as <-|injection Hcb as <-];
        kept_goal;
        (eapply processed_kept_update; [eassumption|eassumption|]);
        apply processed_kept_refl.
    + destruct (_ || _) in Hcb; [|by injection Hcb as <-; kept_goal].
      unfold callback_failure in Hcb. bind_inv Hcb. injection Hcb as <-.
      match goal with
      | Hc : match momo_direction ?m with _ => _ end = Ok _ |- _ =>
          destruct (momo_direction m);
            [injection Hc as <-|bind_inv Hc; injection Hc as <-]
      end;
        kept_goal;
        (eapply processed_kept_update; [eassumption|eassumption|]);
        apply processed_kept_refl.
  - by kept_goal.
Qed.

(** X19. A processed payment is final.  Once a mobile-money payment is
    [success] or [failed], no request of the API changes its row again:
    after any sequence of requests (callbacks for it, for other payments,
    anything else) it is still stored under the same id with every column
    as it was. *)
Theorem processed_payment_is_final (db : DB) (rs : list Request) (i : Id)
    (m : MoMoPayment) :
  momo_payments db !! i = Some m ->
  already_processed m = true ->
  momo_payments (run rs db) !! i = Some m.
Proof.
  revert db. induction rs as [|r rs IH]; intros db Hi Hp; [done|].
  simpl. apply IH; [|done]. unfold step.
  destruct (handle r db) as [db'|] eqn:Hh; [|done].
  by apply (handle_processed_kept r db db' Hh).
Qed.

Lemma processed_payment_is_final_witness :
  momo_status <$>
    momo_payments
      (run [MoMoCallback
              (mkMoMoCallbackPayload "MOMO-000000000001" "failed" None None
                 None);
            Deposit (mkMoMoDepositRequest 20000 "GHS" MTN "0241234567")
                    shipper_user "0A1B2C3D4E5F"]
           sample_db) !! 0%nat
  = Some MOMO_SUCCESS.
Proof.
  rewrite (processed_payment_is_final sample_db _ 0%nat
             (mkMoMoPayment 0%nat (Some 0%nat) MTN COLLECTION "0241234567"
                200000 "GHS" 0 (Some "MOMO-000000000001") None MOMO_SUCCESS
                None) eq_refl eq_refl).
  reflexivity.
Defined.

(** * The read endpoints *)

(** ** Enum values *)

Lemma enum_of_value_Some {E : Type} (members : list E) (value : E -> string)
    (s : string) (e : E) :
  enum_of_value members value s = Some e -> value e = s /\ e ∈ members.
Proof.
  unfold enum_of_value. intros H. apply find_some in H as [Hin Hv].
  apply bool_decide_eq_true in Hv. split; [done|].
  by apply list_elem_of_In.
Qed.

(** X20. An enum member is found again from its value: for the four enums
    the listings filter on, [X(m.value)] is [m], and whenever [X(s)]
    returns a member, [s] is that member's value; every other string is a
    [ValueError].  Two members never share a value. *)
Theorem enum_value_round_trip :
  (forall t, enum_of_value TransactionType_members TransactionType_value
                           (TransactionType_value t) = Some t)
  /\ (forall s, enum_of_value TransactionStatus_members
                              TransactionStatus_value
                              (TransactionStatus_value s) = Some s)
  /\ (forall s, enum_of_value EscrowStatus_members EscrowStatus_value
                              (EscrowStatus_value s) = Some s)
  /\ (forall s, enum_of_value DisputeStatus_members DisputeStatus_value
                              (DisputeStatus_value s) = Some s)
  /\ (forall s t, enum_of_value TransactionType_members TransactionType_value
                                s = Some t -> TransactionType_value t = s)
  /\ (forall s x, enum_of_value TransactionStatus_members
                                TransactionStatus_value s = Some x ->
                  TransactionStatus_value x = s)
  /\ (forall s x, enum_of_value EscrowStatus_members EscrowStatus_value s
                  = Some x -> EscrowStatus_value x = s)
  /\ (forall s x, enum_of_value DisputeStatus_members DisputeStatus_value s
                  = Some x -> DisputeStatus_value x = s).
Proof.
  repeat split; try (intros []; reflexivity);
    intros s x H; by apply enum_of_value_Some in H as [? _].
Qed.

(** ** GET /wallets/me and /wallets/me/summary *)

Lemma get_or_create_wallet_found db user currency db1 wid w :
  get_or_create_wallet db user currency = Ok (db1, (wid, w)) ->
  wallets db1 !! wid = Some w
  /\ w_user_id w = user_id user
  /\ w_currency w = currency
  /\ get_or_create_wallet db1 user currency = Ok (db1, (wid, w)).
Proof.
  intros H. unfold get_or_create_wallet in H. bind_inv H.
  match goal with
  | Hs : scalar_one_or_none _ = Ok ?o |- _ =>
      destruct o as [[i x]|]; rename Hs into Hsel
  end.
  - injection H as <- <- <-.
    pose proof (scalar_select_Some _ _ _ _ Hsel) as [Hi HP].
    unfold same_user_currency in HP.
    apply andb_true_iff in HP as [?%bool_decide_eq_true ?%bool_decide_eq_true].
    repeat split; try done.
    unfold get_or_create_wallet. by rewrite Hsel.
  - bind_inv H. injection H as <- <- <-.
    apply scalar_one_or_none_None in Hsel.
    match goal with
    | Hadd : add_wallet _ _ = Ok _ |- _ =>
        apply add_wallet_Ok in Hadd as [-> ->]
    end.
    cbn [wallets with_wallets].
    split; [apply lookup_snoc_length|].
    do 2 (split; [reflexivity|]).
    unfold get_or_create_wallet. cbn [wallets with_wallets].
    rewrite select_snoc, Hsel. unfold same_user_currency at 1.
    cbn [w_user_id w_currency new_wallet].
    by rewrite !bool_decide_eq_true_2.
Qed.

Lemma upper_ascii_idemp (c : ascii) : upper_ascii (upper_ascii c) = upper_ascii c.
Proof.
  destruct c as [[] [] [] [] [] [] [] []]; reflexivity.
Qed.

Lemma upper_idemp (s : string) : upper (upper s) = upper s.
Proof.
  induction s as [|c s IH]; simpl; [done|]. by rewrite upper_ascii_idemp, IH.
Qed.

(** X21. [GET /wallets/me] answers with a stored wallet of the caller in
    the upper-cased currency; the spelling of the currency does not matter,
    a wallet that did not exist is created empty and active by the request,
    and asking again gives the same answer and changes nothing.
    [GET /wallets/me/summary] reports balance, escrow balance, currency and
    status of the caller's GHS wallet exactly as [GET /wallets/me] does. *)
Theorem get_my_wallet_view (currency : string) (user : User) (db db' : DB)
    (r : WalletResponse) :
  get_my_wallet currency user db = Ok (db', r) ->
  wres_user_id r = user_id user
  /\ wres_currency r = upper currency
  /\ (exists w, wallets db' !! wres_id r = Some w
                /\ r = build_wallet_response (wres_id r, w))
  /\ (db' = db
      \/ (length (wallets db') = S (length (wallets db))
          /\ wres_id r = length (wallets db)
          /\ wres_balance r = 0 /\ wres_escrow_balance r = 0
          /\ wres_status r = "active"))
  /\ (forall currency', upper currency' = upper currency ->
        get_my_wallet currency' user db = Ok (db', r))
  /\ get_my_wallet currency user db' = Ok (db', r)
  /\ (upper currency = "GHS" ->
      wallet_summary user db
      = Ok (db', mkWalletSummary (wres_balance r) (wres_escrow_balance r)
                   (wres_currency r) (wres_status r))).
Proof.
  intros H. unfold get_my_wallet in H. bind_inv H. destruct p as [wid w].
  injection H as <- <-.
  match goal with
  | Hg : get_or_create_wallet _ _ _ = Ok _ |- _ =>
      pose proof (get_or_create_wallet_found _ _ _ _ _ _ Hg)
        as (Hw & Hu & Hc & Hagain);
      pose proof (get_or_create_wallet_Ok _ _ _ _ _ _ Hg) as Hcase;
      rename Hg into Hget
  end.
  cbn [build_wallet_response wres_user_id wres_currency wres_id wres_balance
       wres_escrow_balance wres_status].
  split; [done|]. split; [done|].
  split; [eauto|].
  split.
  { destruct Hcase as [-> | ->]; [by left|right].
    cbn [wallets with_wallets]. rewrite length_app. simpl.
    split; [lia|].
    unfold get_or_create_wallet in Hget. bind_inv Hget.
    match goal with
    | Hs : scalar_one_or_none _ = Ok ?o |- _ => destruct o as [[i x]|]
    end.
    - injection Hget as Hdb <- <-. exfalso.
      apply (f_equal (fun d => length (wallets d))) in Hdb.
      simpl in Hdb. rewrite length_app in Hdb. simpl in Hdb. lia.
    - bind_inv Hget. injection Hget as _ <- <-.
      match goal with
      | Hadd : add_wallet _ _ = Ok _ |- _ =>
          apply add_wallet_Ok in Hadd as [_ ->]
      end.
      done. }
  split.
  { intros c' Hc'. unfold get_my_wallet. by rewrite Hc', Hget. }
  split.
  { unfold get_my_wallet. by rewrite Hagain. }
  intros Hghs. unfold wallet_summary. rewrite <- Hghs, Hget. cbn [bind].
  by rewrite Hc.
Qed.

Lemma get_my_wallet_view_witness :
  exists db' r,
    get_my_wallet "ghs" courier_user sample_db = Ok (db', r)
    /\ wres_currency r = "GHS"
    /\ wres_balance r = 0
    /\ get_my_wallet "GHS" courier_user db' = Ok (db', r).
Proof.
  destruct (get_my_wallet "ghs" courier_user sample_db)
    as [[db' r]|err] eqn:Hrun; [|vm_compute in Hrun; discriminate].
  exists db', r. split; [reflexivity|].
  destruct (get_my_wallet_view _ _ _ _ _ Hrun)
    as (_ & Hc & _ & _ & Hsp & Hagain & _).
  split; [exact Hc|].
  split; [vm_compute in Hrun; by injection Hrun as _ <-|].
  destruct (get_my_wallet_view _ _ _ _ _ Hagain) as (_ & _ & _ & _ & Hsp' & _).
  by apply Hsp'.
Defined.

(** ** Pages and filters *)

Lemma paginate_elem {A : Type} (page per_page : Z) (rows : list A) (x : A) :
  x ∈ paginate page per_page rows -> x ∈ rows.
Proof.
  unfold paginate. intros H.
  apply (subseteq_drop (Z.to_nat ((page - 1) * per_page)) rows).
  by apply (subseteq_take (Z.to_nat per_page)) in H.
Qed.

Lemma paginate_length {A : Type} (page per_page : Z) (rows : list A) :
  (length (paginate page per_page rows) <= Z.to_nat per_page)%nat
  /\ (length (paginate page per_page rows) <= length rows)%nat.
Proof.
  unfold paginate. rewrite length_take, length_drop. lia.
Qed.

(** Every row is on some page. *)
Lemma paginate_complete {A : Type} (per_page : Z) (rows : list A) (x : A) :
  1 <= per_page -> x ∈ rows ->
  exists page, 1 <= page /\ x ∈ paginate page per_page rows.
Proof.
  intros Hpp [k Hk]%list_elem_of_lookup.
  set (n := Z.to_nat per_page).
  assert (n <> 0)%nat as Hn by (subst n; lia).
  exists (Z.of_nat (k / n) + 1). split; [lia|].
  apply list_elem_of_lookup. exists (k mod n)%nat.
  unfold paginate. fold n.
  assert (Z.to_nat ((Z.of_nat (k / n) + 1 - 1) * per_page) = (k / n * n)%nat)
    as -> by (subst n; nia).
  rewrite lookup_take_lt by (by apply Nat.mod_upper_bound).
  rewrite lookup_drop.
  replace (k / n * n + k mod n)%nat with k; [done|].
  rewrite (Nat.div_mod_eq k n) at 1. lia.
Qed.

Lemma where_enum_Returned {E A : Type} `{EqDecision E} (members : list E)
    (value : E -> string) (column : A -> E) (q : option string)
    (P : A -> bool) :
  where_enum members value column q = Returned P ->
  ((q = None \/ q = Some "") /\ forall row, P row = true)
  \/ (exists s e, q = Some s /\ s <> "" /\ value e = lower s
                  /\ forall row, P row = bool_decide (column row = e)).
Proof.
  unfold where_enum. destruct q as [s|].
  - case_bool_decide as Hs.
    + intros [= <-]. left. subst s. eauto.
    + destruct (enum_of_value _ _ _) as [e|] eqn:He; [|discriminate].
      intros [= <-]. right. exists s, e.
      apply enum_of_value_Some in He as [He _]. done.
  - intros [= <-]. left. eauto.
Qed.

Lemma lift_Returned {A : Type} (r : Result A) (a : A) :
  lift r = Returned a -> r = Ok a.
Proof. destruct r; simpl; congruence. Qed.

Lemma obind_Returned {A B : Type} (m : Outcome A) (k : A -> Outcome B) (b : B) :
  obind m k = Returned b -> exists a, m = Returned a /\ k a = Returned b.
Proof. destruct m as [a|e]; simpl; [eauto | discriminate]. Qed.

Lemma oraise_if_Returned (c : bool) (e : Exception) (u : unit) :
  oraise_if c e = Returned u -> c = false.
Proof. destruct c; simpl; [discriminate | reflexivity]. Qed.

(** As [bind_inv], for the endpoints that return an [Outcome]. *)
Ltac obind_inv H :=
  repeat (cbv zeta in H;
    match type of H with
    | obind _ _ = Returned _ =>
        let a := fresh "a" in
        let Ha := fresh "Ha" in
        apply obind_Returned in H as (a & Ha & H);
        try (apply oraise_if_Returned in Ha);
        try (apply lift_Returned in Ha;
             try (apply or_raise_Ok in Ha))
    | (let (_, _) := ?p in _) = Returned _ => destruct p
    | (let '(_, _) := ?p in _) = Returned _ => destruct p
    end).

(** ** The listings, for any order of the rows *)

Section ListingProperties.

Variable order_by_created_at :
  forall A : Type, bool -> list (Id * A) -> list (Id * A).

Hypothesis order_permutes :
  forall (A : Type) (desc : bool) (rows : list (Id * A)),
    order_by_created_at A desc rows ≡ₚ rows.

Lemma ordered_elem {A : Type} (desc : bool) (rows : list (Id * A))
    (x : Id * A) :
  x ∈ order_by_created_at A desc rows <-> x ∈ rows.
Proof. by rewrite order_permutes. Qed.

Lemma get_dispute_Returned dispute_id user db r :
  get_dispute dispute_id user db = Returned r <->
  exists d, disputes db !! dispute_id = Some d
            /\ (is_admin user = true
                \/ user_id user = dsp_raised_by_user_id d
                \/ user_id user = dsp_against_user_id d)
            /\ r = build_dispute_response (dispute_id, d).
Proof.
  unfold get_dispute. split.
  - intros H. obind_inv H. injection H as <-.
    eexists. split; [eassumption|]. split; [|done].
    match goal with
    | Hn : negb _ = false |- _ =>
        apply negb_false_iff, orb_true_iff in Hn as [?|Hp]; [by left|right]
    end.
    apply orb_true_iff in Hp
      as [?%bool_decide_eq_true | ?%bool_decide_eq_true]; eauto.
  - intros (d & Hd & Hauth & ->). rewrite Hd. cbn [or_raise lift obind].
    match goal with
    | |- context [oraise_if (negb ?c) _] => assert (c = true) as ->
    end.
    { apply orb_true_iff.
      destruct Hauth as [? | [Hp | Hp]]; [by left|right..];
        apply orb_true_iff; [left|right]; by apply bool_decide_eq_true_2. }
    reflexivity.
Qed.

(** X22. Who sees a dispute.  [GET /disputes/{id}] answers 404 for an id
    that is not stored and 403 unless the caller is an administrator or one
    of the two parties.  The list and the detail agree: every dispute a
    caller finds in a page of [GET /disputes] is returned to that caller
    by id with the same content, and every dispute the caller can fetch by
    id is on some page of the unfiltered list.  The [total] of a page is
    the number of disputes on that page, at most [per_page], not the number
    of disputes that match. *)
Theorem dispute_visibility (dispute_status : option string)
    (page per_page : Z) (user : User) (db : DB) :
  valid_page page per_page = true ->
  (forall id, disputes db !! id = None ->
        get_dispute id user db
        = Raised (Settlement (HTTPException 404 DisputeNotFound)))
  /\ (forall id d, disputes db !! id = Some d ->
        is_admin user = false ->
        user_id user <> dsp_raised_by_user_id d ->
        user_id user <> dsp_against_user_id d ->
        get_dispute id user db
        = Raised (HTTPError 403 NotAuthorisedToViewDispute))
  /\ (forall resp,
        list_disputes order_by_created_at dispute_status page per_page user db
        = Returned resp ->
        dlr_total resp = length (dlr_disputes resp)
        /\ (dlr_total resp <= Z.to_nat per_page)%nat
        /\ forall r, r ∈ dlr_disputes resp ->
                     get_dispute (dres_id r) user db = Returned r)
  /\ (forall id r,
        get_dispute id user db = Returned r ->
        exists page' resp,
          1 <= page'
          /\ list_disputes order_by_created_at None page' per_page user db
             = Returned resp
          /\ r ∈ dlr_disputes resp).
Proof.
  intros Hv. unfold valid_page in Hv.
  apply andb_true_iff in Hv as [Hv Hle]. apply andb_true_iff in Hv as [Hp Hpp].
  apply Z.leb_le in Hp, Hpp, Hle.
  assert (forall id, disputes db !! id = None ->
            get_dispute id user db
            = Raised (Settlement (HTTPException 404 DisputeNotFound))) as H404.
  { intros id Hid. unfold get_dispute. by rewrite Hid. }
  split; [exact H404|].
  split.
  { intros id d Hd Hna Hr Ha. unfold get_dispute. rewrite Hd.
    cbn [or_raise lift obind]. rewrite Hna.
    by rewrite !bool_decide_eq_false_2. }
  split.
  - intros resp H. unfold list_disputes in H. obind_inv H.
    injection H as <-. cbn [dlr_total dlr_disputes].
    rewrite length_map.
    split; [done|]. split; [apply paginate_length|].
    intros r Hr. apply list_elem_of_fmap in Hr as ([id d] & -> & Hin).
    apply paginate_elem, ordered_elem, select_elem in Hin as [Hd HP].
    apply get_dispute_Returned. exists d. split; [done|]. split; [|done].
    apply andb_true_iff in HP as [HP _].
    apply orb_true_iff in HP as [HP | ?%bool_decide_eq_true]; [|eauto].
    apply orb_true_iff in HP as [? | ?%bool_decide_eq_true]; eauto.
  - intros id r (d & Hd & Hauth & ->)%get_dispute_Returned.
    assert ((id, d) ∈ order_by_created_at Dispute true
              (select (fun d0 =>
                 (is_admin user
                  || bool_decide (dsp_raised_by_user_id d0 = user_id user)
                  || bool_decide (dsp_against_user_id d0 = user_id user))
                 && true) (disputes db))) as Hin.
    { apply ordered_elem, select_elem. split; [done|].
      rewrite andb_true_r.
      destruct Hauth as [Ha | [Hx | Hx]].
      - by rewrite Ha.
      - apply orb_true_iff. left. apply orb_true_iff. right.
        by apply bool_decide_eq_true_2.
      - apply orb_true_iff. right. by apply bool_decide_eq_true_2. }
    apply (paginate_complete per_page) in Hin as (page' & Hp' & Hin); [|done].
    eexists page', _. split; [done|]. split; [reflexivity|].
    cbn [dlr_disputes]. apply list_elem_of_fmap. eauto.
Qed.

(** X23. A page of [GET /wallets/me/transactions].  Every row on it is a
    stored ledger row of the caller's own GHS wallet and has the type and
    the status asked for (compared in lower case); the page holds at most
    [per_page] rows and never more than [total]; [total] does not depend on
    the page, its size or the sort order; and without filters every ledger
    row of the wallet is on some page, so that paging through the list
    loses none. *)
Theorem list_transactions_page (type_query status_query : option string)
    (sort_order : string) (page per_page : Z) (user : User) (db db' : DB)
    (resp : TransactionListResponse) :
  valid_page page per_page = true ->
  list_transactions order_by_created_at type_query status_query sort_order
                    page per_page user db = Returned (db', resp) ->
  exists wid w,
    get_or_create_wallet db user "GHS" = Ok (db', (wid, w))
    /\ (length (tlr_transactions resp) <= Z.to_nat per_page)%nat
    /\ (length (tlr_transactions resp) <= tlr_total resp)%nat
    /\ (forall r, r ∈ tlr_transactions resp ->
          tres_wallet_id r = wid
          /\ (exists t, transactions db' !! tres_id r = Some t
                        /\ r = build_transaction_response (tres_id r, t))
          /\ (forall s, type_query = Some s -> s <> "" ->
                        tres_type r = lower s)
          /\ (forall s, status_query = Some s -> s <> "" ->
                        tres_status r = lower s))
    /\ (forall sort_order' page' per_page',
          exists resp',
            list_transactions order_by_created_at type_query status_query
                              sort_order' page' per_page' user db
            = Returned (db', resp')
            /\ tlr_total resp' = tlr_total resp)
    /\ (type_query = None -> status_query = None ->
        forall i t, transactions db' !! i = Some t -> txn_wallet_id t = wid ->
          exists page' resp',
            1 <= page'
            /\ list_transactions order_by_created_at None None sort_order
                                 page' per_page user db
               = Returned (db', resp')
            /\ build_transaction_response (i, t) ∈ tlr_transactions resp').
Proof.
  intros Hv H. unfold valid_page in Hv.
  apply andb_true_iff in Hv as [Hv Hle]. apply andb_true_iff in Hv as [Hp Hpp].
  apply Z.leb_le in Hp, Hpp, Hle.
  unfold list_transactions in H. obind_inv H. injection H as <- <-.
  rename Ha into Hget, Ha0 into Hty, Ha1 into Hst, n into wid.
  exists wid, w.
  cbn [tlr_transactions tlr_total].
  split; [done|].
  rewrite length_map.
  split; [apply paginate_length|].
  split.
  { etransitivity; [apply paginate_length|].
    by rewrite (Permutation_length (order_permutes _ _ _)). }
  split.
  { intros r Hr. apply list_elem_of_fmap in Hr as ([id t] & -> & Hin).
    apply paginate_elem, ordered_elem, select_elem in Hin as [Ht HP].
    apply andb_true_iff in HP as [HP HQ].
    apply andb_true_iff in HP as [Hw%bool_decide_eq_true HP].
    cbn [build_transaction_response tres_wallet_id tres_id tres_type
         tres_status].
    split; [done|]. split; [eauto|].
    split.
    - intros s -> Hs.
      apply where_enum_Returned in Hty
        as [[[?|?] _] | (s' & e & [= <-] & _ & He & Hrow)]; try congruence.
      rewrite Hrow in HP. apply bool_decide_eq_true in HP. by rewrite HP.
    - intros s -> Hs.
      apply where_enum_Returned in Hst
        as [[[?|?] _] | (s' & e & [= <-] & _ & He & Hrow)]; try congruence.
      rewrite Hrow in HQ. apply bool_decide_eq_true in HQ. by rewrite HQ. }
  split.
  { intros sort' page' per_page'. eexists.
    unfold list_transactions. rewrite Hget. cbn [lift obind].
    rewrite Hty, Hst. cbn [obind]. split; reflexivity. }
  intros -> -> i t Ht Hw.
  injection Hty as <-. injection Hst as <-.
  pose (desc := negb (bool_decide (lower sort_order = "asc"))).
  assert ((i, t) ∈ order_by_created_at Transaction desc
            (select (fun t0 => bool_decide (txn_wallet_id t0 = wid)
                               && true && true) (transactions d)))
    as Hin.
  { apply ordered_elem, select_elem. split; [done|].
    by rewrite !andb_true_r, bool_decide_eq_true_2. }
  apply (paginate_complete per_page) in Hin as (page' & Hp' & Hin); [|done].
  eexists page', _. split; [done|].
  unfold list_transactions. rewrite Hget. cbn [lift obind where_enum].
  split; [reflexivity|].
  cbn [tlr_transactions]. apply list_elem_of_fmap. eauto.
Qed.

(** X24. [GET /wallets/me/escrow-holds] lists exactly the holds in which the
    caller's GHS wallet is the shipper's wallet or the recorded courier
    wallet: every item is such a stored hold (with the status asked for,
    if one is), and without a filter every such hold is listed.  [total]
    is the number of items, and a commission or payout of zero is reported
    as absent. *)
Theorem list_escrow_holds_mine (escrow_status : option string) (user : User)
    (db db' : DB) (resp : EscrowListResponse) :
  list_escrow_holds order_by_created_at escrow_status user db
  = Returned (db', resp) ->
  exists wid w,
    get_or_create_wallet db user "GHS" = Ok (db', (wid, w))
    /\ elr_total resp = length (elr_escrow_holds resp)
    /\ (forall item, item ∈ elr_escrow_holds resp ->
          (exists h, escrow_holds db' !! ehi_id item = Some h
                     /\ item = build_escrow_item (ehi_id item, h)
                     /\ (esc_shipper_wallet_id h = wid
                         \/ esc_courier_wallet_id h = Some wid))
          /\ (forall s, escrow_status = Some s -> s <> "" ->
                        ehi_status item = lower s)
          /\ ehi_platform_commission_amount item <> Some 0
          /\ ehi_courier_payout_amount item <> Some 0)
    /\ (escrow_status = None ->
        forall i h, escrow_holds db' !! i = Some h ->
          esc_shipper_wallet_id h = wid
          \/ esc_courier_wallet_id h = Some wid ->
          build_escrow_item (i, h) ∈ elr_escrow_holds resp).
Proof.
  intros H. unfold list_escrow_holds in H. obind_inv H. injection H as <- <-.
  match goal with
  | Hg : get_or_create_wallet _ _ _ = Ok (?d, (?n, ?x)) |- _ =>
      rename Hg into Hget; rename d into db'; rename n into wid; exists wid, x
  end.
  match goal with
  | Hs : where_enum _ EscrowStatus_value _ _ = Returned ?Q |- _ =>
      rename Hs into Hst; rename Q into by_status
  end.
  cbn [elr_total elr_escrow_holds].
  split; [done|]. split; [done|].
  assert (forall x : option Money, float_if_truthy x <> Some 0) as Hfloat.
  { intros [v|]; simpl; [|done]. case_bool_decide; congruence. }
  split.
  { intros item Hr. apply list_elem_of_fmap in Hr as ([id h] & -> & Hin).
    apply ordered_elem, select_elem in Hin as [Hh HP].
    apply andb_true_iff in HP as [HP HQ].
    cbn [build_escrow_item ehi_id ehi_status ehi_platform_commission_amount
         ehi_courier_payout_amount].
    split.
    { exists h. split; [done|]. split; [done|].
      apply orb_true_iff in HP
        as [?%bool_decide_eq_true | ?%bool_decide_eq_true]; eauto. }
    split; [|by split].
    intros s -> Hs.
    apply where_enum_Returned in Hst
      as [[[?|?] _] | (s' & e & [= <-] & _ & He & Hrow)]; try congruence.
    rewrite Hrow in HQ. apply bool_decide_eq_true in HQ. by rewrite HQ. }
  intros -> i h Hh Hmine. injection Hst as <-.
  apply list_elem_of_fmap. exists (i, h). split; [done|].
  apply ordered_elem, select_elem. split; [done|].
  rewrite andb_true_r. apply orb_true_iff.
  destruct Hmine; [left|right]; by apply bool_decide_eq_true_2.
Qed.


End ListingProperties.

Lemma insertion_order_permutes (A : Type) (desc : bool)
    (rows : list (Id * A)) :
  insertion_order A desc rows ≡ₚ rows.
Proof.
  unfold insertion_order. destruct desc; [apply reverse_Permutation|done].
Qed.

Lemma dispute_visibility_witness :
  (forall resp,
     list_disputes insertion_order (Some "OPEN") 1 20 courier_user disputed_db
     = Returned resp ->
     forall r, r ∈ dlr_disputes resp ->
               get_dispute (dres_id r) courier_user disputed_db = Returned r)
  /\ get_dispute 0%nat (mkUser 3%nat None ["shipper"]) disputed_db
     = Raised (HTTPError 403 NotAuthorisedToViewDispute).
Proof.
  destruct (dispute_visibility insertion_order insertion_order_permutes
              (Some "OPEN") 1 20 courier_user disputed_db eq_refl)
    as (_ & _ & Hlist & _).
  split; [intros resp Hresp; by apply Hlist|].
  destruct (dispute_visibility insertion_order insertion_order_permutes
              None 1 20 (mkUser 3%nat None ["shipper"]) disputed_db eq_refl)
    as (_ & H403 & _).
  eapply H403; [by vm_compute|by vm_compute|by vm_compute|by vm_compute].
Defined.

Lemma list_transactions_page_witness :
  exists db' resp,
    list_transactions insertion_order (Some "Deposit") None "asc" 1 20
                      shipper_user sample_db = Returned (db', resp)
    /\ tlr_total resp = 1%nat
    /\ forall r, r ∈ tlr_transactions resp -> tres_type r = "deposit".
Proof.
  destruct (list_transactions insertion_order (Some "Deposit") None "asc" 1 20
              shipper_user sample_db) as [[db' resp]|e] eqn:Hrun;
    [|vm_compute in Hrun; discriminate].
  exists db', resp. split; [reflexivity|].
  destruct (list_transactions_page insertion_order insertion_order_permutes
              (Some "Deposit") None "asc" 1 20 shipper_user sample_db db'
              resp eq_refl Hrun)
    as (wid & w & _ & _ & _ & Hrows & _).
  split; [vm_compute in Hrun; by injection Hrun as _ <-|].
  intros r Hr. destruct (Hrows r Hr) as (_ & _ & Hty & _).
  by apply (Hty "Deposit").
Defined.

Lemma list_escrow_holds_mine_witness :
  exists db' resp,
    list_escrow_holds insertion_order None shipper_user disputed_db
    = Returned (db', resp)
    /\ elr_total resp = 1%nat.
Proof.
  destruct (list_escrow_holds insertion_order None shipper_user disputed_db)
    as [[db' resp]|e] eqn:Hrun; [|vm_compute in Hrun; discriminate].
  exists db', resp. split; [reflexivity|].
  destruct (list_escrow_holds_mine insertion_order insertion_order_permutes
              _ _ _ _ _ Hrun) as (wid & w & _ & -> & _).
  vm_compute in Hrun. by injection Hrun as _ <-.
Defined.


(** * The trip lifecycle *)

(** X26. A status change that goes through.  [PATCH /trips/{id}/status]
    writes the new status on that one trip and nothing else: the database
    afterwards is the one the settlement model takes from a trip signal, so
    no wallet, hold, ledger row or dispute changes - marking a trip
    [disputed] opens no dispute and freezes no hold, cancelling it refunds
    nothing.  [delivered] is only accepted with a proof of delivery, in the
    request or already stored, from administrators too.  A caller who is
    not an administrator moved the trip along the transition table, and
    only to a status of their side: the courier to [picked_up],
    [in_transit], [at_waypoint], [delivered] or [cancelled], the shipper
    to [confirmed], [disputed] or [cancelled]. *)
Theorem update_trip_status_effects (trip_id : Id)
    (body : UpdateTripStatusRequest) (user : User)
    (stored_proof : option string) (db db' : DB)
    (r : UpdateTripStatusResponse) :
  update_trip_status trip_id body user stored_proof db = Returned (db', r) ->
  exists trip,
    trips db !! trip_id = Some trip
    /\ r = mkUpdateTripStatusResponse trip_id (trip_status trip)
             (uts_status body)
    /\ db' = trip_signal trip_id (uts_status body) db
    /\ (trip_status <$> trips db' !! trip_id) = Some (uts_status body)
    /\ (uts_status body = DELIVERED ->
        no_url (uts_proof_of_delivery_url body) = false
        \/ no_url stored_proof = false)
    /\ (is_admin user = false ->
        uts_status body ∈ TRIP_STATUS_TRANSITIONS (trip_status trip)
        /\ (trip_courier_id trip = user_id user ->
            uts_status body ∈ courier_ok)
        /\ (trip_courier_id trip <> user_id user ->
            uts_status body ∈ shipper_ok
            /\ exists l, trip_listing trip = Some l
                         /\ listing_shipper_id l = user_id user)).
Proof.
  intros H. unfold update_trip_status in H. obind_inv H.
  injection H as <- <-. rename a into trip. exists trip.
  split; [done|]. split; [done|]. split; [done|].
  split.
  { simpl. rewrite lookup_update_eq.
    match goal with Ht : trips db !! _ = Some _ |- _ => by rewrite Ht end. }
  split.
  { intros Hd.
    match goal with
    | Hc : (bool_decide (_ = DELIVERED) && _ && _) = false |- _ =>
        rewrite (bool_decide_eq_true_2 _ Hd) in Hc; simpl in Hc;
        apply andb_false_iff in Hc; tauto
    end. }
  intros Hna. rewrite Hna in *. simpl in *.
  match goal with
  | Hc : (bool_decide (_ ∉ TRIP_STATUS_TRANSITIONS _) && true) = false |- _ =>
      rewrite andb_true_r in Hc; apply bool_decide_eq_false in Hc;
      apply dec_stable in Hc; rename Hc into Hallowed
  end.
  split; [done|].
  match goal with
  | Hc : obind _ _ = Returned _ |- _ => obind_inv Hc; rename Hc into Hship
  end.
  apply oraise_if_Returned in Hship.
  split.
  - intros Hcour.
    match goal with
    | Hc : (bool_decide (trip_courier_id _ = _) && _) = false |- _ =>
        rewrite (bool_decide_eq_true_2 _ Hcour) in Hc; simpl in Hc;
        apply bool_decide_eq_false in Hc; by apply dec_stable in Hc
    end.
  - intros Hncour.
    rewrite (bool_decide_eq_false_2 _ Hncour) in *. simpl in *.
    match goal with
    | Hc : negb (_ || false) = false |- _ =>
        rewrite orb_false_r in Hc; apply negb_false_iff in Hc;
        rename Hc into Hsh
    end.
    rewrite Hsh in Hship. simpl in Hship.
    apply bool_decide_eq_false in Hship. apply dec_stable in Hship.
    split; [done|].
    destruct (trip_listing trip) as [l|]; [|done].
    apply bool_decide_eq_true in Hsh. eauto.
Qed.

Lemma update_trip_status_effects_witness :
  let db := run [HoldForTrip 0%nat shipper_user; TripSignal 0%nat DELIVERED]
                sample_db in
  exists db' r,
    update_trip_status 0%nat (mkUpdateTripStatusRequest TRIP_DISPUTED None)
                       shipper_user None db = Returned (db', r)
    /\ disputes db' = []
    /\ (esc_status <$> escrow_holds db' !! 0%nat) = Some HELD.
Proof.
  intros db.
  destruct (update_trip_status 0%nat
              (mkUpdateTripStatusRequest TRIP_DISPUTED None) shipper_user
              None db) as [[db' r]|e] eqn:Hrun;
    [|vm_compute in Hrun; discriminate].
  exists db', r. split; [reflexivity|].
  destruct (update_trip_status_effects _ _ _ _ _ _ _ Hrun)
    as (trip & _ & _ & -> & _).
  split; by vm_compute.
Defined.

(** X27. Who may move a trip.  For a caller who is not an administrator a
    [confirmed] or [cancelled] trip is final: every status change is
    rejected, with 403 for a stranger and with 400 for the shipper and the
    courier.  An administrator is not bound by the transition table: any
    status can be set on any trip, the final ones included; only
    [delivered] still needs a proof of delivery. *)
Theorem trip_status_authority (trip_id : Id) (body : UpdateTripStatusRequest)
    (user : User) (stored_proof : option string) (db : DB)
    (trip : FreightTrip) :
  trips db !! trip_id = Some trip ->
  (is_admin user = false ->
   trip_status trip = CONFIRMED \/ trip_status trip = TRIP_CANCELLED ->
   update_trip_status trip_id body user stored_proof db
   = Raised (HTTPError 403 NotAuthorised)
   \/ update_trip_status trip_id body user stored_proof db
      = Raised (HTTPError 400 (InvalidTransition (trip_status trip)
                                                 (uts_status body))))
  /\ (is_admin user = true ->
      uts_status body <> DELIVERED
      \/ no_url (uts_proof_of_delivery_url body) = false
      \/ no_url stored_proof = false ->
      update_trip_status trip_id body user stored_proof db
      = Returned (trip_signal trip_id (uts_status body) db,
                  mkUpdateTripStatusResponse trip_id (trip_status trip)
                    (uts_status body)))
  /\ (uts_status body = DELIVERED ->
      no_url (uts_proof_of_delivery_url body) = true ->
      no_url stored_proof = true ->
      exists e, update_trip_status trip_id body user stored_proof db
                = Raised e).
Proof.
  intros Ht. split; [|split].
  - intros Hna Hfinal. unfold update_trip_status. rewrite Ht.
    cbn [or_raise lift obind]. rewrite Hna.
    destruct (negb _); [by left|right]. cbn [oraise_if obind].
    assert (uts_status body ∉ TRIP_STATUS_TRANSITIONS (trip_status trip))
      as Hnot.
    { destruct Hfinal as [-> | ->]; simpl; apply not_elem_of_nil. }
    by rewrite (bool_decide_eq_true_2 _ Hnot).
  - intros Ha Hproof. unfold update_trip_status. rewrite Ht.
    cbn [or_raise lift obind]. rewrite Ha, !orb_true_r.
    cbn [negb oraise_if obind]. rewrite andb_false_r.
    cbn [negb oraise_if obind].
    assert (bool_decide (uts_status body = DELIVERED)
            && no_url (uts_proof_of_delivery_url body)
            && no_url stored_proof = false) as ->; [|done].
    destruct Hproof as [Hn | [-> | ->]];
      rewrite ?(bool_decide_eq_false_2 _ Hn), ?andb_false_r; done.
  - intros Hd Hb Hs.
    destruct (update_trip_status trip_id body user stored_proof db)
      as [[db' r]|e] eqn:Hrun; [exfalso|by eexists].
    unfold update_trip_status in Hrun. obind_inv Hrun.
    match goal with
    | Hc : (bool_decide (_ = DELIVERED) && _ && _) = false |- _ =>
        rewrite Hb, Hs, (bool_decide_eq_true_2 _ Hd) in Hc; discriminate
    end.
Qed.

Lemma trip_status_authority_witness :
  let db := run [TripSignal 0%nat TRIP_CANCELLED] sample_db in
  update_trip_status 0%nat (mkUpdateTripStatusRequest PICKED_UP None)
                     courier_user None db
  = Raised (HTTPError 400 (InvalidTransition TRIP_CANCELLED PICKED_UP))
  /\ update_trip_status 0%nat (mkUpdateTripStatusRequest PICKUP_PENDING None)
                        admin_user None db
     = Returned (sample_db,
                 mkUpdateTripStatusResponse 0%nat TRIP_CANCELLED
                   PICKUP_PENDING).
Proof.
  intros db.
  destruct (trip_status_authority 0%nat
              (mkUpdateTripStatusRequest PICKED_UP None) courier_user None db
              (mkFreightTrip 2%nat TRIP_CANCELLED
                 (Some (mkFreightBid 100000 "GHS"))
                 (Some (mkFreightListing 0%nat 1%nat))) eq_refl)
    as (Hfinal & _).
  destruct (trip_status_authority 0%nat
              (mkUpdateTripStatusRequest PICKUP_PENDING None) admin_user None
              db
              (mkFreightTrip 2%nat TRIP_CANCELLED
                 (Some (mkFreightBid 100000 "GHS"))
                 (Some (mkFreightListing 0%nat 1%nat))) eq_refl)
    as (_ & Hadmin & _).
  split.
  - destruct (Hfinal eq_refl (or_intror eq_refl)) as [H|H]; [|exact H].
    vm_compute in H. discriminate.
  - rewrite Hadmin; [by vm_compute|reflexivity|left; discriminate].
Defined.

(** X28. Payment needs the shipper or an administrator.  A caller who is
    neither an administrator nor the shipper of a trip - its courier, for
    one - can neither confirm the delivery nor release a hold of that
    trip: both requests are always rejected.  The courier alone never
    turns a delivery into a payout. *)
Theorem payment_needs_shipper_or_admin (trip_id : Id) (user : User)
    (stored_proof : option string) (db : DB) (trip : FreightTrip) :
  trips db !! trip_id = Some trip ->
  is_admin user = false ->
  (forall l, trip_listing trip = Some l ->
             listing_shipper_id l <> user_id user) ->
  (exists e, confirm_delivery trip_id user stored_proof db = Raised e)
  /\ (forall body, uts_status body = CONFIRMED ->
        exists e, update_trip_status trip_id body user stored_proof db
                  = Raised e)
  /\ (forall eid h, escrow_holds db !! eid = Some h ->
                    esc_trip_id h = trip_id ->
                    (exists e, release_escrow eid user db = Err e)
                    /\ step db (Release eid user) = db).
Proof.
  intros Ht Hna Hnsh.
  assert (match trip_listing trip with
          | Some l => bool_decide (listing_shipper_id l = user_id user)
          | None => false
          end = false) as Hsh.
  { destruct (trip_listing trip) as [l|] eqn:Hl; [|done].
    apply bool_decide_eq_false_2. by apply Hnsh. }
  assert (forall body, uts_status body = CONFIRMED ->
            exists e, update_trip_status trip_id body user stored_proof db
                      = Raised e) as Hupd.
  { intros body Hc. unfold update_trip_status.
    rewrite Ht. cbn [or_raise lift obind]. rewrite Hna, Hsh, Hc.
    rewrite !orb_false_r. cbn [negb].
    destruct (bool_decide (trip_courier_id trip = user_id user));
      cbn [negb oraise_if obind]; [|by eexists].
    rewrite andb_true_r.
    destruct (bool_decide (CONFIRMED ∉ _)); cbn [oraise_if obind];
      [by eexists|].
    rewrite (bool_decide_eq_true_2 (CONFIRMED ∉ courier_ok)).
    - cbn [andb oraise_if obind]. by eexists.
    - unfold courier_ok. rewrite !not_elem_of_cons.
      repeat split; try discriminate. apply not_elem_of_nil. }
  split; [by apply Hupd|]. split; [exact Hupd|].
  intros eid h Hh Htrip.
  assert (exists e, release_escrow eid user db = Err e) as [e He].
  { unfold release_escrow. rewrite Hh. cbn [or_raise bind].
    destruct (raise_if (bool_decide (esc_status h ≠ HELD)) _);
      cbn [bind]; [|by eexists].
    rewrite Htrip, Ht. cbn [or_raise bind].
    destruct (raise_if (bool_decide (trip_status trip ≠ CONFIRMED)) _);
      cbn [bind]; [|by eexists].
    rewrite Hsh, Hna. cbn [orb negb raise_if bind]. by eexists. }
  split; [by eexists|].
  unfold step, handle.
  destruct (require_any_authenticated user) as [u|] eqn:Hu; [|done].
  apply RoleChecker_Ok in Hu as ->. cbn [bind]. by rewrite He.
Qed.

Lemma payment_needs_shipper_or_admin_witness :
  let db := run [HoldForTrip 0%nat shipper_user; TripSignal 0%nat DELIVERED]
                sample_db in
  (exists e, confirm_delivery 0%nat courier_user (Some "https://pod/1") db
             = Raised e)
  /\ step (run [TripSignal 0%nat CONFIRMED] db) (Release 0%nat courier_user)
     = run [TripSignal 0%nat CONFIRMED] db.
Proof.
  intros db. split.
  - refine (proj1 (payment_needs_shipper_or_admin 0%nat courier_user
                     (Some "https://pod/1") db
                     (mkFreightTrip 2%nat DELIVERED
                        (Some (mkFreightBid 100000 "GHS"))
                        (Some (mkFreightListing 0%nat 1%nat)))
                     eq_refl eq_refl _)).
    intros l [= <-]. discriminate.
  - refine (proj2 (proj2 (proj2 (payment_needs_shipper_or_admin 0%nat
                     courier_user None (run [TripSignal 0%nat CONFIRMED] db)
                     (mkFreightTrip 2%nat CONFIRMED
                        (Some (mkFreightBid 100000 "GHS"))
                        (Some (mkFreightListing 0%nat 1%nat)))
                     eq_refl eq_refl _)) 0%nat
                     (mkEscrowHold 0%nat 0%nat 0%nat None 100000 "GHS"
                        PLATFORM_COMMISSION_RATE None None HELD)
                     eq_refl eq_refl)).
    intros l [= <-]. discriminate.
Defined.




(** X30. Cancelling a trip does not give the money back.  When a trip with
    a [held] hold is set to [cancelled], the hold stays [held] and the
    shipper's wallet is as it was.  From then on a release of the hold is
    rejected for every caller, because the trip is not [confirmed]; the
    funds come back only through the refund endpoint, which then returns
    the whole amount to the available balance. *)
Theorem cancelled_trip_keeps_hold (trip_id escrow_id : Id)
    (body : UpdateTripStatusRequest) (user : User)
    (stored_proof : option string) (db db' : DB)
    (r : UpdateTripStatusResponse) (h : EscrowHold) (w : Wallet) :
  update_trip_status trip_id body user stored_proof db = Returned (db', r) ->
  uts_status body = TRIP_CANCELLED ->
  escrow_holds db !! escrow_id = Some h ->
  esc_trip_id h = trip_id ->
  esc_status h = HELD ->
  wallets db !! esc_shipper_wallet_id h = Some w ->
  escrow_holds db' !! escrow_id = Some h
  /\ wallets db' = wallets db
  /\ transactions db' = transactions db
  /\ (forall u, release_escrow escrow_id u db'
                = Err (HTTPException 400 TripNotConfirmed))
  /\ (forall u, exists db2 r2,
        refund_escrow escrow_id u db' = Ok (db2, r2)
        /\ rr_amount r2 = esc_amount h
        /\ wallets db2 !! esc_shipper_wallet_id h
           = Some (set_escrow_balance (w_escrow_balance w - esc_amount h)
                     (set_balance (w_balance w + esc_amount h) w))).
Proof.
  intros H Hc Hh Htrip Hheld Hw.
  unfold update_trip_status in H. obind_inv H. injection H as <- _.
  rename a into trip. rewrite Hc in *.
  match goal with Ht : trips db !! _ = Some trip |- _ => rename Ht into Htr end.
  cbn [escrow_holds wallets transactions with_trips].
  do 3 (split; [done|]).
  split.
  - intros u. unfold release_escrow.
    cbn [escrow_holds with_trips]. rewrite Hh. cbn [or_raise bind].
    rewrite Hheld, (bool_decide_eq_false_2 (HELD <> HELD)) by (by intros n).
    cbn [raise_if bind trips with_trips]. rewrite Htrip.
    rewrite lookup_update_eq, Htr.
    cbn [fmap option_fmap option_map or_raise bind set_trip_status
         trip_status].
    by rewrite (bool_decide_eq_true_2 (TRIP_CANCELLED <> CONFIRMED)).
  - intros u. unfold refund_escrow.
    cbn [escrow_holds with_trips]. rewrite Hh. cbn [or_raise bind].
    rewrite Hheld, (bool_decide_eq_true_2 (HELD = HELD)) by done.
    cbn [orb negb raise_if bind]. unfold get_one.
    cbn [wallets with_trips]. rewrite Hw. cbn [or_raise bind].
    eexists _, _. split; [reflexivity|]. split; [reflexivity|].
    simpl. by rewrite lookup_update_eq, Hw.
Qed.

Lemma cancelled_trip_keeps_hold_witness :
  let db := run [HoldForTrip 0%nat shipper_user] sample_db in
  exists db' r,
    update_trip_status 0%nat (mkUpdateTripStatusRequest TRIP_CANCELLED None)
                       courier_user None db = Returned (db', r)
    /\ balance_of db' 0%nat = 100000
    /\ release_escrow 0%nat admin_user db'
       = Err (HTTPException 400 TripNotConfirmed).
Proof.
  intros db.
  destruct (update_trip_status 0%nat
              (mkUpdateTripStatusRequest TRIP_CANCELLED None) courier_user
              None db) as [[db' r]|e] eqn:Hrun;
    [|vm_compute in Hrun; discriminate].
  exists db', r. split; [reflexivity|].
  destruct (cancelled_trip_keeps_hold 0%nat 0%nat _ _ _ _ _ _
              (mkEscrowHold 0%nat 0%nat 0%nat None 100000 "GHS"
                 PLATFORM_COMMISSION_RATE None None HELD)
              (mkWallet 1%nat None 100000 100000 200000 0 0 "GHS" ACTIVE)
              Hrun eq_refl eq_refl eq_refl eq_refl eq_refl)
    as (_ & Hw & _ & Hrel & _).
  split; [|apply Hrel].
  unfold balance_of. rewrite Hw. by vm_compute.
Defined.
